(** * llm_task_manager: the command-interpretation pipeline and the task store

    A shallow embedding of [backend/main.py] and [backend/db.py].

    - Python text is a sequence of Unicode code points ([str := list N]).
    - Python values (those [json.loads] produces, and those a MongoDB
      document holds) are the inductive [value].
    - Code that can raise runs in an error monad ([E]); code that also talks
      to the LLM endpoint or to MongoDB threads a [world] ([M]).
    - What lives in third-party libraries and is too large to embed
      ([json.loads], the Unicode alphanumeric table behind [\w], [str()] of
      non-text values, pydantic's coercion of non-text values into a text
      field, [datetime.isoformat]) is an operation of the class [Runtime]:
      every theorem holds for every instance of it.
    - A [print] encodes its text for standard output and raises
      [UnicodeEncodeError] on a character the stream's encoding lacks.
      The module [Printing] holds the functions with the prints that
      interpolate a value, each at its place; what they depend on (the
      encoding, [repr], the text of an exception) is the class
      [Diagnostics].  The fixed texts of the program are taken to be
      encodable.  The definitions outside [Printing] are the same functions
      without their prints: what they compute on a stream that encodes
      every character (lemmas [*_on_lenient_stdout]). *)

From Stdlib Require Import List ZArith NArith Bool String Ascii Lia.
From Stdlib Require Import DecimalString.
From Stdlib Require Import Floats.SpecFloat.
Import ListNotations.

(* ================================================================== *)
(** * Text *)
(* ================================================================== *)

Module Text.

Definition char := N.
Definition str := list char.

Definition char_eqb (a b : char) : bool := N.eqb a b.

Fixpoint str_eqb (a b : str) : bool :=
  match a, b with
  | [], [] => true
  | x :: a', y :: b' => char_eqb x y && str_eqb a' b'
  | _, _ => false
  end.

(** Decoding of the UTF-8 bytes of a literal of this file into code points. *)
Fixpoint utf8 (bs : list N) : str :=
  match bs with
  | [] => []
  | b :: r =>
      if (b <? 128)%N then b :: utf8 r
      else if (b <? 224)%N then
        match r with
        | b1 :: r' => ((b mod 32) * 64 + b1 mod 64)%N :: utf8 r'
        | _ => [b]
        end
      else if (b <? 240)%N then
        match r with
        | b1 :: b2 :: r' =>
            ((b mod 16) * 4096 + (b1 mod 64) * 64 + b2 mod 64)%N :: utf8 r'
        | _ => [b]
        end
      else
        match r with
        | b1 :: b2 :: b3 :: r' =>
            ((b mod 8) * 262144 + (b1 mod 64) * 4096
             + (b2 mod 64) * 64 + b3 mod 64)%N :: utf8 r'
        | _ => [b]
        end
  end.

(** A literal of the source. *)
Definition py (s : string) : str :=
  utf8 (List.map N_of_ascii (list_ascii_of_string s)).

(** The double quote, U+0022. *)
Definition dq : str := [34%N].

(** [str.join] *)
Fixpoint join (sep : str) (l : list str) : str :=
  match l with
  | [] => []
  | [x] => x
  | x :: r => x ++ sep ++ join sep r
  end.

(** [str(n)] for an [int]. *)
Definition str_of_int (z : Z) : str :=
  py (NilZero.string_of_int (Z.to_int z)).

(** [str.isspace] on one code point; [\s] of [re] on text is the same
    set. *)
Definition isspace (c : char) : bool :=
  ((9 <=? c) && (c <=? 13) || (28 <=? c) && (c <=? 32)
   || (c =? 133) || (c =? 160) || (c =? 5760)
   || (8192 <=? c) && (c <=? 8202)
   || (c =? 8232) || (c =? 8233) || (c =? 8239) || (c =? 8287)
   || (c =? 12288))%N.

Fixpoint lstrip (s : str) : str :=
  match s with
  | [] => []
  | c :: r => if isspace c then lstrip r else s
  end.

Fixpoint rstrip (s : str) : str :=
  match s with
  | [] => []
  | c :: r =>
      match rstrip r with
      | [] => if isspace c then [] else [c]
      | r' => c :: r'
      end
  end.

(** [str.strip()] *)
Definition strip (s : str) : str := rstrip (lstrip s).

(** [s.startswith(p)] *)
Fixpoint startswith (p s : str) : bool :=
  match p, s with
  | [], _ => true
  | a :: p', b :: s' => char_eqb a b && startswith p' s'
  | _ :: _, [] => false
  end.

(** [s.find(p)]: the index of the leftmost occurrence. *)
Fixpoint find (p s : str) : option nat :=
  if startswith p s then Some 0
  else match s with
       | [] => None
       | _ :: s' => option_map S (find p s')
       end.

(** [s[i:j]] for [0 <= i <= j]. *)
Definition slice (s : str) (i j : nat) : str := firstn (j - i) (skipn i s).

(** [p] occurs in [s] at index [i]. *)
Definition occurs_at (p s : str) (i : nat) : Prop :=
  i <= List.length s /\ startswith p (skipn i s) = true.

End Text.
Import Text.

(* ================================================================== *)
(** * The fragment of [re] the interpreter uses *)
(* ================================================================== *)

Module Re.

(** The items of a pattern, in sequence. *)
Inductive node :=
| Lit (c : char)                  (* a literal character *)
| StarGreedy (p : char -> bool)   (* [c*]: longest first *)
| StarLazy (p : char -> bool)     (* [c*?]: shortest first *)
| GroupOpen                       (* [(] of group 1 *)
| GroupClose.                     (* [)] of group 1 *)

Definition keep (g : bool) (c : char) (r : str) : str :=
  if g then c :: r else r.

(** Backtracking match of the pattern at the start of [s]; the result is
    the text of group 1.  [g] tells whether group 1 is open. *)
Fixpoint match_here (re : list node) (g : bool) (s : str) {struct re}
  : option str :=
  match re with
  | [] => Some []
  | Lit c :: re' =>
      match s with
      | x :: s' =>
          if char_eqb x c then option_map (keep g x) (match_here re' g s')
          else None
      | [] => None
      end
  | GroupOpen :: re' => match_here re' true s
  | GroupClose :: re' => match_here re' false s
  | StarGreedy p :: re' =>
      (fix star (s : str) : option str :=
         match s with
         | x :: s' =>
             if p x then
               match star s' with
               | Some r => Some (keep g x r)
               | None => match_here re' g s
               end
             else match_here re' g s
         | [] => match_here re' g s
         end) s
  | StarLazy p :: re' =>
      (fix star (s : str) : option str :=
         match match_here re' g s with
         | Some r => Some r
         | None =>
             match s with
             | x :: s' =>
                 if p x then option_map (keep g x) (star s') else None
             | [] => None
             end
         end) s
  end.

(** [re.search(pattern, s).group(1)], [None] when nothing matches: the
    leftmost start position at which the pattern matches. *)
Fixpoint search (re : list node) (s : str) : option str :=
  match match_here re false s with
  | Some r => Some r
  | None =>
      match s with
      | [] => None
      | _ :: s' => search re s'
      end
  end.

Definition lits (s : str) : list node := List.map Lit s.

(** [.] under [re.DOTALL] *)
Definition dot_all (_ : char) : bool := true.

End Re.

(* ================================================================== *)
(** * Extraction of the JSON body (main.py, lines 252-260) *)
(* ================================================================== *)

Definition fence_open : str := py "```json".
Definition fence_close : str := py "```".

(** [r'```json\s*(.*?)\s*```'] *)
Definition json_block_re : list Re.node :=
  Re.lits fence_open
  ++ [Re.StarGreedy isspace; Re.GroupOpen; Re.StarLazy Re.dot_all;
      Re.GroupClose; Re.StarGreedy isspace]
  ++ Re.lits fence_close.

Definition extract_json_body (raw_text : str) : str :=
  match Re.search json_block_re raw_text with
  | Some group1 => strip group1
  | None => strip raw_text
  end.

(** The words of the specification: the content between the first
    [```json] marker and the first [```] after it, trimmed; [None] when the
    text has no such pair. *)
Definition fenced_content (raw_text : str) : option str :=
  match find fence_open raw_text with
  | None => None
  | Some i =>
      let rest := skipn (i + List.length fence_open) raw_text in
      match find fence_close rest with
      | None => None
      | Some k => Some (strip (firstn k rest))
      end
  end.

(** The pattern after its opening marker, and its two tails. *)
Definition tail_re : list Re.node :=
  Re.StarGreedy isspace :: Re.lits fence_close.

Definition lazy_re : list Re.node :=
  Re.StarLazy Re.dot_all :: Re.GroupClose :: tail_re.

Definition body_re : list Re.node :=
  Re.StarGreedy isspace :: Re.GroupOpen :: lazy_re.

(** [i] is the index of the leftmost occurrence of [p] in [s]. *)
Definition first_occ (p s : str) (i : nat) : Prop :=
  occurs_at p s i /\ forall j, j < i -> ~ occurs_at p s j.

(* ================================================================== *)
(** * Python values and exceptions *)
(* ================================================================== *)

#[warnings="-register-all"]
Inductive value :=
| VNone
| VBool (b : bool)
| VInt (z : Z)
| VFloat (f : spec_float)
| VStr (s : str)
| VList (l : list value)
| VDict (d : list (str * value))
| VDatetime (t : Z)            (* a [datetime]: microseconds since the epoch *)
| VObjectId (o : list N).      (* a [bson.ObjectId], as its bytes *)

(** A [dict] with text keys, in insertion order. *)
Definition dict := list (str * value).

Fixpoint dict_get {V : Type} (d : list (str * V)) (k : str) : option V :=
  match d with
  | [] => None
  | (k', v) :: d' => if str_eqb k' k then Some v else dict_get d' k
  end.

(** [d[k] = v]: the value is replaced where the key is, else appended. *)
Fixpoint dict_set {V : Type} (d : list (str * V)) (k : str) (v : V)
  : list (str * V) :=
  match d with
  | [] => [(k, v)]
  | (k', v') :: d' =>
      if str_eqb k' k then (k', v) :: d' else (k', v') :: dict_set d' k v
  end.

(** Every exception below is a subclass of [Exception]. *)
Inductive exn :=
| HTTPStatusError (status_code : Z) (text : str)   (* httpx *)
| TransportError                                   (* httpx: network, timeout *)
| JSONDecodeError                                  (* json *)
| ValidationError                                  (* pydantic *)
| HTTPException (status_code : Z) (detail : str)   (* fastapi *)
| InvalidId                                        (* bson *)
| PyMongoError                                     (* pymongo *)
| AttributeError
| KeyError
| IndexError
| TypeError
| ValueError
| OtherException (name : str).

(** A computation that returns or raises. *)
Definition E (A : Type) : Type := exn + A.

Definition ret {A : Type} (a : A) : E A := inr a.
Definition raise {A : Type} (e : exn) : E A := inl e.
Definition bind {A B : Type} (m : E A) (k : A -> E B) : E B :=
  match m with
  | inl e => inl e
  | inr a => k a
  end.

Declare Scope err_scope.
Delimit Scope err_scope with err.
Notation "x <- m ;; k" := (bind m (fun x => k))
  (at level 61, m at next level, right associativity) : err_scope.

(** Truth value of a Python value. *)
Definition truthy (v : value) : bool :=
  match v with
  | VNone => false
  | VBool b => b
  | VInt z => negb (Z.eqb z 0)
  | VFloat (S754_zero _) => false
  | VFloat _ => true
  | VStr s => match s with [] => false | _ => true end
  | VList l => match l with [] => false | _ => true end
  | VDict d => match d with [] => false | _ => true end
  | VDatetime _ => true
  | VObjectId _ => true
  end.

(** Truth value of an optional text ([None] or a [str]). *)
Definition truthy_opt (o : option str) : bool :=
  match o with
  | Some (_ :: _) => true
  | _ => false
  end.

(** [v.get(k)] *)
Definition py_get (v : value) (k : str) : E value :=
  match v with
  | VDict d => ret (match dict_get d k with Some x => x | None => VNone end)
  | _ => raise AttributeError
  end.

(** [len(v)] *)
Definition py_len (v : value) : E nat :=
  match v with
  | VStr s => ret (List.length s)
  | VList l => ret (List.length l)
  | VDict d => ret (List.length d)
  | _ => raise TypeError
  end.

(** [l[i]] for a sequence of length [n], Python's negative indices
    included. *)
Definition seq_index (n : nat) (i : Z) : option nat :=
  if ((0 <=? i) && (i <? Z.of_nat n))%Z then Some (Z.to_nat i)
  else if ((i <? 0) && (- Z.of_nat n <=? i))%Z
       then Some (Z.to_nat (Z.of_nat n + i))
       else None.

(** The integer an index stands for ([bool] is a subclass of [int]). *)
Definition index_of (k : value) : option Z :=
  match k with
  | VInt i => Some i
  | VBool b => Some (if b then 1 else 0)%Z
  | _ => None
  end.

(** [c[k]] *)
Definition py_getitem (c k : value) : E value :=
  match c with
  | VDict d =>
      match k with
      | VStr s =>
          match dict_get d s with
          | Some x => ret x
          | None => raise KeyError
          end
      | VList _ | VDict _ => raise TypeError
      | _ => raise KeyError
      end
  | VList l =>
      match index_of k with
      | Some i =>
          match seq_index (List.length l) i with
          | Some n =>
              match nth_error l n with
              | Some x => ret x
              | None => raise IndexError
              end
          | None => raise IndexError
          end
      | None => raise TypeError
      end
  | VStr s =>
      match index_of k with
      | Some i =>
          match seq_index (List.length s) i with
          | Some n =>
              match nth_error s n with
              | Some x => ret (VStr [x])
              | None => raise IndexError
              end
          | None => raise IndexError
          end
      | None => raise TypeError
      end
  | _ => raise TypeError
  end.

(** [v.items()] *)
Definition py_items (v : value) : E dict :=
  match v with
  | VDict d => ret d
  | _ => raise AttributeError
  end.

(* ================================================================== *)
(** * What the libraries supply *)
(* ================================================================== *)

Class Runtime := {
  (** [str.isalnum] on a code point above U+007F: the Unicode table
      behind [\w]. *)
  unicode_isalnum : char -> bool;
  (** [json.loads] on text. *)
  json_loads : str -> E value;
  (** [str(v)] for a float, a list, a dict or a datetime. *)
  py_str : value -> str;
  (** What pydantic makes of a value that is neither text nor [None] and
      is given to a text field: the text it is coerced to, or a
      rejection. *)
  pydantic_str : value -> option str;
  (** [datetime.isoformat] *)
  isoformat : Z -> str
}.

(** [binascii.hexlify]: two lower-case digits a byte. *)
Definition hex_digit (n : N) : char :=
  (if n <? 10 then 48 + n else 87 + n)%N.

Definition hexlify (bs : list N) : str :=
  flat_map (fun b => [hex_digit (b / 16); hex_digit (b mod 16)]%N) bs.

(** What an f-string or [str.format] puts in place of a value. *)
Definition format_value `{Runtime} (v : value) : str :=
  match v with
  | VStr s => s
  | VNone => py "None"
  | VBool true => py "True"
  | VBool false => py "False"
  | VInt z => str_of_int z
  | VObjectId o => hexlify o
  | _ => py_str v
  end.

Definition format_opt (o : option str) : str :=
  match o with
  | Some s => s
  | None => py "None"
  end.

(* ================================================================== *)
(** * The command model (main.py, lines 51-61) *)
(* ================================================================== *)

Record LLMCommand := {
  action : str;
  task_id : option str;
  description : option str;
  start_date : option str;
  status : option str;
  message : option str
}.

Definition valid_actions : list str :=
  [py "create"; py "read"; py "update"; py "delete"; py "unknown"].

Definition valid_statuses : list str :=
  [py "pending"; py "completed"; py "in_progress"; py "cancelled"].

(** [s in l] for a text [s]. *)
Definition in_strs (s : str) (l : list str) : bool := existsb (str_eqb s) l.

(** [v in l] for a list [l] of texts: only a text equals a text. *)
Definition value_in_strs (v : value) (l : list str) : bool :=
  match v with
  | VStr s => in_strs s l
  | _ => false
  end.

(** A [Literal[...]] field. *)
Definition validate_literal (allowed : list str) (v : value) : E str :=
  match v with
  | VStr s => if in_strs s allowed then ret s else raise ValidationError
  | _ => raise ValidationError
  end.

(** An [Optional[Literal[...]]] field with default [None]. *)
Definition validate_opt_literal (allowed : list str) (v : option value)
  : E (option str) :=
  match v with
  | None | Some VNone => ret None
  | Some v => (s <- validate_literal allowed v ;; ret (Some s))%err
  end.

(** An [Optional[str]] field with default [None]. *)
Definition validate_opt_str `{Runtime} (v : option value) : E (option str) :=
  match v with
  | None | Some VNone => ret None
  | Some (VStr s) => ret (Some s)
  | Some v =>
      match pydantic_str v with
      | Some s => ret (Some s)
      | None => raise ValidationError
      end
  end.

(** The constructor of [LLMCommand] on keyword arguments [kw]: fields are
    validated, other keys are ignored. *)
Definition LLMCommand_init `{Runtime} (kw : dict) : E LLMCommand :=
  (a <- match dict_get kw (py "action") with
        | Some v => validate_literal valid_actions v
        | None => raise ValidationError
        end ;;
   t <- validate_opt_str (dict_get kw (py "task_id")) ;;
   d <- validate_opt_str (dict_get kw (py "description")) ;;
   sd <- validate_opt_str (dict_get kw (py "start_date")) ;;
   st <- validate_opt_literal valid_statuses (dict_get kw (py "status")) ;;
   m <- validate_opt_str (dict_get kw (py "message")) ;;
   ret {| action := a; task_id := t; description := d; start_date := sd;
          status := st; message := m |})%err.

(** [LLMCommand(action="unknown", message=m)] *)
Definition unknown_command (m : str) : LLMCommand :=
  {| action := py "unknown"; task_id := None; description := None;
     start_date := None; status := None; message := Some m |}.

(* ================================================================== *)
(** * The prompt (main.py, lines 139-212) *)
(* ================================================================== *)

(** [prompt_template_lines], main.py lines 140-206. *)
Definition prompt_template_lines : list str :=
  [ py "Eres un asistente de gestión de tareas. Tu objetivo es interpretar los comandos del usuario y devolver UN OBJETO JSON que represente la acción y los datos de la tarea. NO INCLUYAS NINGÚN TEXTO ADICIONAL FUERA DEL JSON.";
    py "Las fechas deben estar en formato McClellan-MM-DD.";
    py "Los estados posibles de las tareas son: " ++ dq ++ py "pending" ++ dq ++ py ", " ++ dq ++ py "completed" ++ dq ++ py ", " ++ dq ++ py "in_progress" ++ dq ++ py ", " ++ dq ++ py "cancelled" ++ dq ++ py ".";
    [];
    py "Si no puedes determinar una acción clara, usa " ++ dq ++ py "unknown" ++ dq ++ py " para la acción y proporciona un mensaje útil en el campo " ++ dq ++ py "message" ++ dq ++ py ".";
    [];
    py "Ejemplos:";
    py "Comando de usuario: 'crear la tarea " ++ dq ++ py "realizar app" ++ dq ++ py " con fecha de inicio 03-07-2025 y estado " ++ dq ++ py "pendiente" ++ dq ++ py "'";
    py "JSON esperado:";
    py "```json";
    py "{{";
    py "  " ++ dq ++ py "action" ++ dq ++ py ": " ++ dq ++ py "create" ++ dq ++ py ",";
    py "  " ++ dq ++ py "description" ++ dq ++ py ": " ++ dq ++ py "realizar app" ++ dq ++ py ",";
    py "  " ++ dq ++ py "start_date" ++ dq ++ py ": " ++ dq ++ py "2025-07-03" ++ dq ++ py ",";
    py "  " ++ dq ++ py "status" ++ dq ++ py ": " ++ dq ++ py "pending" ++ dq;
    py "}}";
    py "```";
    [];
    py "Comando de usuario: 'marcar tarea 60c7b41b1d7d8f9c7b4c3e21 como completada'";
    py "JSON esperado:";
    py "```json";
    py "{{";
    py "  " ++ dq ++ py "action" ++ dq ++ py ": " ++ dq ++ py "update" ++ dq ++ py ",";
    py "  " ++ dq ++ py "task_id" ++ dq ++ py ": " ++ dq ++ py "60c7b41b1d7d8f9c7b4c3e21" ++ dq ++ py ",";
    py "  " ++ dq ++ py "status" ++ dq ++ py ": " ++ dq ++ py "completed" ++ dq;
    py "}}";
    py "```";
    [];
    py "Comando de usuario: 'actualizar la descripción de la tarea 60c7b41b1d7d8f9c7b4c3e21 a " ++ dq ++ py "Terminar informe" ++ dq ++ py "'";
    py "JSON esperado:";
    py "```json";
    py "{{";
    py "  " ++ dq ++ py "action" ++ dq ++ py ": " ++ dq ++ py "update" ++ dq ++ py ",";
    py "  " ++ dq ++ py "task_id" ++ dq ++ py ": " ++ dq ++ py "60c7b41b1d7d8f9c7b4c3e21" ++ dq ++ py ",";
    py "  " ++ dq ++ py "description" ++ dq ++ py ": " ++ dq ++ py "Terminar informe" ++ dq;
    py "}}";
    py "```";
    [];
    py "Comando de usuario: 'eliminar tarea 60c7b41b1d7d8f9c7b4c3e21'";
    py "JSON esperado:";
    py "```json";
    py "{{";
    py "  " ++ dq ++ py "action" ++ dq ++ py ": " ++ dq ++ py "delete" ++ dq ++ py ",";
    py "  " ++ dq ++ py "task_id" ++ dq ++ py ": " ++ dq ++ py "60c7b41b1d7d8f9c7b4c3e21" ++ dq;
    py "}}";
    py "```";
    [];
    py "Comando de usuario: 'mostrar todas mis tareas'";
    py "JSON esperado:";
    py "```json";
    py "{{";
    py "  " ++ dq ++ py "action" ++ dq ++ py ": " ++ dq ++ py "read" ++ dq;
    py "}}";
    py "```";
    [];
    py "Comando de usuario: '¿Qué tiempo hace hoy?'";
    py "JSON esperado:";
    py "```json";
    py "{{";
    py "  " ++ dq ++ py "action" ++ dq ++ py ": " ++ dq ++ py "unknown" ++ dq ++ py ",";
    py "  " ++ dq ++ py "message" ++ dq ++ py ": " ++ dq ++ py "Lo siento, solo puedo gestionar tareas. ¿Hay algo que pueda hacer con tus tareas?" ++ dq;
    py "}}";
    py "```";
    [];
    py "Comando de usuario: '{user_prompt}'" ].

Definition prompt_template : str := join [10%N] prompt_template_lines.

(** [template.format(user_prompt=v)].  [field] holds the name of the
    replacement field being read, last character first.  The fields of
    this template carry no conversion and no format specification. *)
Fixpoint format_from `{Runtime} (t : str) (field : option str) (v : value)
  : E str :=
  match t, field with
  | [], None => ret []
  | [], Some _ => raise ValueError
  | c :: r, None =>
      if char_eqb c 123%N then
        match r with
        | c' :: r' =>
            if char_eqb c' 123%N
            then (x <- format_from r' None v ;; ret (123%N :: x))%err
            else format_from r (Some []) v
        | [] => format_from r (Some []) v
        end
      else if char_eqb c 125%N then
        match r with
        | c' :: r' =>
            if char_eqb c' 125%N
            then (x <- format_from r' None v ;; ret (125%N :: x))%err
            else raise ValueError
        | [] => raise ValueError
        end
      else (x <- format_from r None v ;; ret (c :: x))%err
  | c :: r, Some acc =>
      if char_eqb c 125%N then
        if str_eqb (rev acc) (py "user_prompt")
        then (x <- format_from r None v ;; ret (format_value v ++ x))%err
        else raise KeyError
      else if char_eqb c 123%N then raise ValueError
      else format_from r (Some (c :: acc)) v
  end.

Definition format_prompt `{Runtime} (user_prompt : value) : E str :=
  format_from prompt_template None user_prompt.

(* ================================================================== *)
(** * Sanitizing and validating the model's JSON (main.py, 262-286) *)
(* ================================================================== *)

(** [\w] on text. *)
Definition is_word `{Runtime} (c : char) : bool :=
  if (c <? 128)%N
  then ((48 <=? c) && (c <=? 57) || (65 <=? c) && (c <=? 90)
        || (97 <=? c) && (c <=? 122) || (c =? 95))%N
  else unicode_isalnum c.

(** [re.sub(r'[^\w]', '', k).strip()] *)
Definition clean_key `{Runtime} (k : str) : str := strip (filter is_word k).

(** The loop of lines 266-270: the object it builds.  Its print is in
    [Printing.sanitize_keys]. *)
Definition sanitize_keys `{Runtime} (items : dict) : dict :=
  fold_left (fun clean kv => dict_set clean (clean_key (fst kv)) (snd kv))
            items [].

Definition msg_no_api_key : str :=
  py "Error de configuración: Clave API no encontrada.".
Definition msg_no_action : str :=
  py "No pude determinar la acción del LLM. Por favor, sé más específico.".
Definition msg_bad_action `{Runtime} (action_value : value) : str :=
  py "La acción '" ++ format_value action_value
  ++ py "' no es válida. Por favor, sé más específico.".
Definition msg_bad_json : str :=
  py "El LLM devolvió un formato JSON inválido. Inténtalo de nuevo.".
Definition msg_no_candidates : str :=
  py "No pude interpretar tu comando. Inténtalo de nuevo.".
Definition msg_http_status (status_code : Z) : str :=
  py "Error del servidor al procesar tu comando: " ++ str_of_int status_code
  ++ py ".".
Definition msg_unexpected : str :=
  py "Ocurrió un error inesperado al procesar tu comando.".

(** Lines 274-283: from the object with clean keys to the command.  With
    the prints: [Printing.interpret_clean]. *)
Definition interpret_clean `{Runtime} (clean_parsed_json : dict)
  : E LLMCommand :=
  let action_value :=
    match dict_get clean_parsed_json (py "action") with
    | Some v => v
    | None => VNone
    end in
  match action_value with
  | VNone => ret (unknown_command msg_no_action)
  | _ =>
      if negb (value_in_strs action_value valid_actions)
      then ret (unknown_command (msg_bad_action action_value))
      else LLMCommand_init clean_parsed_json
  end.

(** Lines 266-283.  With the prints: [Printing.interpret_parsed]. *)
Definition interpret_parsed `{Runtime} (parsed_json : value) : E LLMCommand :=
  (items <- py_items parsed_json ;;
   interpret_clean (sanitize_keys items))%err.

(** Lines 249-286: [re.search] takes text only; the inner [try] catches
    [json.JSONDecodeError] and nothing else.  With the prints:
    [Printing.interpret_text]. *)
Definition interpret_text `{Runtime} (raw_text : value) : E LLMCommand :=
  match raw_text with
  | VStr raw =>
      let json_string_to_parse := extract_json_body raw in
      match (parsed_json <- json_loads json_string_to_parse ;;
             interpret_parsed parsed_json)%err with
      | inl JSONDecodeError => ret (unknown_command msg_bad_json)
      | r => r
      end
  | _ => raise TypeError
  end.

(* ================================================================== *)
(** * The world: environment, LLM endpoint, MongoDB *)
(* ================================================================== *)

(** What [httpx] hands back for one POST. *)
Record http_response := {
  resp_status_code : Z;
  resp_text : str;
  resp_json : E value              (* [response.json()] *)
}.

Inductive http_outcome :=
| PostRaises (e : exn)             (* [client.post] raised *)
| Responds (r : http_response).

(** A stored document: its [_id] and its other fields. *)
Definition document : Type := value * dict.

(** The server side of the [tasks] collection.  [fault], when set, is what
    every driver call raises; [fault_after_write] tells whether the server
    has applied the command by then (a reply lost on the way) or not (a
    command that never arrived); [oid_counter] feeds the identifiers of
    new documents. *)
Record mongo := {
  tasks : list document;
  fault : option exn;
  fault_after_write : bool;
  oid_counter : N
}.

(** [MongoDBManager]: [self.db]. *)
Record MongoDBManager := {
  db : option mongo
}.

(** Calls that leave the process. *)
Inductive event :=
| EvLlmPost (api_key prompt : str)
| EvClock
| EvInsert (doc : dict)
| EvFind
| EvUpdate (oid : list N) (fields : list (str * str))
| EvDelete (oid : list N).

Record world := {
  GEMINI_API_KEY : option str;     (* the environment variable *)
  llm : str -> str -> http_outcome; (* the endpoint: key, prompt *)
  db_manager : option MongoDBManager; (* the module-level handle *)
  clock : Z;                       (* [datetime.now()], in microseconds *)
  trace : list event               (* calls made so far, oldest first *)
}.

(** A computation on the world that returns or raises. *)
Definition M (A : Type) : Type := world -> E A * world.

Definition mret {A : Type} (a : A) : M A := fun w => (inr a, w).
Definition mraise {A : Type} (e : exn) : M A := fun w => (inl e, w).
Definition mbind {A B : Type} (m : M A) (k : A -> M B) : M B :=
  fun w =>
    match m w with
    | (inl e, w') => (inl e, w')
    | (inr a, w') => k a w'
    end.
Definition lift {A : Type} (m : E A) : M A := fun w => (m, w).

(** [try: body except Exception as e: handler e] *)
Definition try_except {A : Type} (body : M A) (handler : exn -> M A) : M A :=
  fun w =>
    match body w with
    | (inl e, w') => handler e w'
    | r => r
    end.

Declare Scope proc_scope.
Delimit Scope proc_scope with proc.
Notation "x <- m ;; k" := (mbind m (fun x => k))
  (at level 61, m at next level, right associativity) : proc_scope.

Definition log (ev : event) (w : world) : world :=
  {| GEMINI_API_KEY := GEMINI_API_KEY w; llm := llm w;
     db_manager := db_manager w; clock := clock w;
     trace := trace w ++ [ev] |}.

Definition set_mongo (m : mongo) (w : world) : world :=
  {| GEMINI_API_KEY := GEMINI_API_KEY w; llm := llm w;
     db_manager := Some {| db := Some m |}; clock := clock w;
     trace := trace w |}.

(** [os.getenv("GEMINI_API_KEY", "")] *)
Definition api_key_of (w : world) : str :=
  match GEMINI_API_KEY w with
  | Some k => k
  | None => []
  end.

Definition getenv_api_key : M str := fun w => (inr (api_key_of w), w).

(** [await client.post(api_url, ..., json=payload)] *)
Definition client_post (api_key prompt : str) : M http_response :=
  fun w =>
    let w' := log (EvLlmPost api_key prompt) w in
    match llm w api_key prompt with
    | PostRaises e => (inl e, w')
    | Responds r => (inr r, w')
    end.

(** [datetime.now()] *)
Definition datetime_now : M Z := fun w => (inr (clock w), log EvClock w).

(* ================================================================== *)
(** * call_llm_for_command (main.py, lines 99-295) *)
(* ================================================================== *)

(** [response.raise_for_status()] *)
Definition raise_for_status (r : http_response) : E unit :=
  if ((200 <=? resp_status_code r) && (resp_status_code r <? 300))%Z
  then ret tt
  else raise (HTTPStatusError (resp_status_code r) (resp_text r)).

(** [a and b] under [if]. *)
Definition and_then (a b : E bool) : E bool :=
  (x <- a ;; if x then b else ret false)%err.

Definition candidates0 (result : value) : E value :=
  (c <- py_getitem result (VStr (py "candidates")) ;;
   py_getitem c (VInt 0))%err.

Definition content0 (result : value) : E value :=
  (c0 <- candidates0 result ;; py_getitem c0 (VStr (py "content")))%err.

Definition parts0 (result : value) : E value :=
  (ct <- content0 result ;; py_getitem ct (VStr (py "parts")))%err.

(** The condition of lines 244-247. *)
Definition has_text_part (result : value) : E bool :=
  and_then (x <- py_get result (py "candidates") ;; ret (truthy x))%err
 (and_then (c <- py_getitem result (VStr (py "candidates")) ;;
            n <- py_len c ;; ret (0 <? n))%err
 (and_then (c0 <- candidates0 result ;;
            x <- py_get c0 (py "content") ;; ret (truthy x))%err
 (and_then (ct <- content0 result ;;
            x <- py_get ct (py "parts") ;; ret (truthy x))%err
           (ps <- parts0 result ;; n <- py_len ps ;; ret (0 <? n))%err))).

(** [result["candidates"][0]["content"]["parts"][0]["text"]] *)
Definition raw_text_of (result : value) : E value :=
  (ps <- parts0 result ;;
   p0 <- py_getitem ps (VInt 0) ;;
   py_getitem p0 (VStr (py "text")))%err.

(** The body of the outer [try], from the response on (lines 239-289).
    With the prints: [Printing.interpret_response]. *)
Definition interpret_response `{Runtime} (response : http_response)
  : E LLMCommand :=
  (_ <- raise_for_status response ;;
   result <- resp_json response ;;
   ok <- has_text_part result ;;
   if ok : bool then
     raw_text <- raw_text_of result ;;
     interpret_text raw_text
   else ret (unknown_command msg_no_candidates))%err.

(** The two handlers of the outer [try] (lines 290-295): the command each
    returns.  With the prints: [Printing.llm_handlers]. *)
Definition handled (e : exn) : LLMCommand :=
  match e with
  | HTTPStatusError status_code _ =>
      unknown_command (msg_http_status status_code)
  | _ => unknown_command msg_unexpected
  end.

Definition llm_handlers (e : exn) : M LLMCommand := mret (handled e).

(** [call_llm_for_command] on a stream that encodes every character.  With
    the prints: [Printing.call_llm_for_command]. *)
Definition call_llm_for_command `{Runtime} (user_prompt : value)
  : M LLMCommand :=
  (formatted_prompt <- lift (format_prompt user_prompt) ;;
   api_key <- getenv_api_key ;;
   if negb (truthy (VStr api_key))
   then mret (unknown_command msg_no_api_key)
   else
     try_except
       (response <- client_post api_key formatted_prompt ;;
        lift (interpret_response response))
       llm_handlers)%proc.

(* ================================================================== *)
(** * The driver: bson and pymongo *)
(* ================================================================== *)

Definition hex_value (c : char) : option N :=
  if ((48 <=? c) && (c <=? 57))%N then Some (c - 48)%N
  else if ((97 <=? c) && (c <=? 102))%N then Some (c - 87)%N
  else if ((65 <=? c) && (c <=? 70))%N then Some (c - 55)%N
  else None.

(** The blanks [bytes.fromhex] skips. *)
Definition is_ascii_blank (c : char) : bool :=
  ((9 <=? c) && (c <=? 13) || (c =? 32))%N.

(** [bytes.fromhex] on text: pairs of digits, blanks allowed between
    pairs. *)
Fixpoint fromhex (s : str) : option (list N) :=
  match s with
  | [] => Some []
  | c :: r =>
      if is_ascii_blank c then fromhex r
      else
        match hex_value c, r with
        | Some hi, d :: r' =>
            match hex_value d with
            | Some lo => option_map (cons (16 * hi + lo)%N) (fromhex r')
            | None => None
            end
        | _, _ => None
        end
  end.

(** [ObjectId(task_id)] on text. *)
Definition ObjectId (oid : str) : E (list N) :=
  if Nat.eqb (List.length oid) 24
  then match fromhex oid with
       | Some b => ret b
       | None => raise InvalidId
       end
  else raise InvalidId.

(** The twelve bytes of a generated identifier. *)
Fixpoint bytes_of (width : nat) (n : N) : list N :=
  match width with
  | O => []
  | S w => bytes_of w (n / 256) ++ [n mod 256]%N
  end.

Definition is_id (oid : list N) (doc : document) : bool :=
  match fst doc with
  | VObjectId o => str_eqb o oid
  | _ => false
  end.

(** The dictionary the driver builds from a stored document. *)
Definition doc_dict (doc : document) : dict :=
  (py "_id", fst doc) :: snd doc.

(** [$set]: the fields are written one by one. *)
Definition apply_set (doc : document) (fields : list (str * str))
  : document :=
  (fst doc,
   fold_left (fun d kv => dict_set d (fst kv) (VStr (snd kv)))
             fields (snd doc)).

(** Whether [$set] would change the document. *)
Definition set_changes (doc : document) (fields : list (str * str))
  : bool :=
  existsb (fun kv =>
             match dict_get (snd doc) (fst kv) with
             | Some (VStr s) => negb (str_eqb s (snd kv))
             | _ => true
             end) fields.

(** [update_one({"_id": oid}, {"$set": fields})] on the documents: the
    first match is updated; the count is [modified_count]. *)
Fixpoint update_first (oid : list N) (fields : list (str * str))
  (docs : list document) : nat * list document :=
  match docs with
  | [] => (0, [])
  | doc :: rest =>
      if is_id oid doc
      then if set_changes doc fields
           then (1, apply_set doc fields :: rest)
           else (0, docs)
      else let (n, rest') := update_first oid fields rest in (n, doc :: rest')
  end.

(** [delete_one({"_id": oid})] on the documents; the count is
    [deleted_count]. *)
Fixpoint delete_first (oid : list N) (docs : list document)
  : nat * list document :=
  match docs with
  | [] => (0, [])
  | doc :: rest =>
      if is_id oid doc then (1, rest)
      else let (n, rest') := delete_first oid rest in (n, doc :: rest')
  end.

(** The world after a driver call that raised. *)
Definition after_fault (m m' : mongo) (w : world) : world :=
  if fault_after_write m then set_mongo m' w else w.

(** A call on [self.db.tasks]: the command is sent, and the server
    answers or the driver raises. *)
Definition driver_call {A : Type} (ev : event) (run : mongo -> A * mongo)
  : M A :=
  fun w =>
    match db_manager w with
    | Some {| db := Some m |} =>
        let w' := log ev w in
        let (a, m') := run m in
        match fault m with
        | Some e => (inl e, after_fault m m' w')
        | None => (inr a, set_mongo m' w')
        end
    | _ => (inl AttributeError, w)
    end.

(** A BSON date holds milliseconds: the microseconds of a [datetime] are
    cut off when it is encoded. *)
Definition bson_datetime (t : Z) : Z := (t / 1000 * 1000)%Z.

(** A value as the server holds it once encoded. *)
Fixpoint bson_value (v : value) : value :=
  match v with
  | VDatetime t => VDatetime (bson_datetime t)
  | VList l => VList (List.map bson_value l)
  | VDict d => VDict (List.map (fun '(k, x) => (k, bson_value x)) d)
  | _ => v
  end.

Definition bson_doc (doc : dict) : dict :=
  List.map (fun '(k, x) => (k, bson_value x)) doc.

(** [insert_one(doc).inserted_id] *)
Definition insert_one (doc : dict) : M (list N) :=
  driver_call (EvInsert doc)
    (fun m =>
       let oid := bytes_of 12 (oid_counter m) in
       (oid, {| tasks := tasks m ++ [(VObjectId oid, bson_doc doc)];
                fault := fault m;
                fault_after_write := fault_after_write m;
              oid_counter := (oid_counter m + 1)%N |})).

(** [find()], read to the end. *)
Definition find_all : M (list dict) :=
  driver_call EvFind (fun m => (List.map doc_dict (tasks m), m)).

(** [update_one(...).modified_count] *)
Definition update_one (oid : list N) (fields : list (str * str)) : M nat :=
  driver_call (EvUpdate oid fields)
    (fun m =>
       let (n, docs) := update_first oid fields (tasks m) in
       (n, {| tasks := docs; fault := fault m;
              fault_after_write := fault_after_write m;
              oid_counter := oid_counter m |})).

(** [delete_one(...).deleted_count] *)
Definition delete_one (oid : list N) : M nat :=
  driver_call (EvDelete oid)
    (fun m =>
       let (n, docs) := delete_first oid (tasks m) in
       (n, {| tasks := docs; fault := fault m;
              fault_after_write := fault_after_write m;
              oid_counter := oid_counter m |})).

(* ================================================================== *)
(** * MongoDBManager (db.py) *)
(* ================================================================== *)

(** [self] of a method call on the module-level handle: a call on [None]
    raises. *)
Definition self_db : M (option mongo) :=
  fun w =>
    match db_manager w with
    | Some self => (inr (db self), w)
    | None => (inl AttributeError, w)
    end.

Definition opt_value (o : option str) : value :=
  match o with
  | Some s => VStr s
  | None => VNone
  end.

(** [add_task] (lines 35-55), called with all three arguments, as the
    one call of main.py does: the default of [status] is not used.  With
    the print of the handler: [Printing.add_task]. *)
Definition add_task (description : str) (start_date status : option str)
  : M (option str) :=
  (self_db <- self_db ;;
   match self_db with
   | None => mret None
   | Some _ =>
       now <- datetime_now ;;
       let task_data :=
         [(py "description", VStr description);
          (py "created_at", VDatetime now);
          (py "status", opt_value status)] in
       let task_data :=
         if truthy_opt start_date
         then dict_set task_data (py "start_date") (opt_value start_date)
         else task_data in
       try_except
         (inserted_id <- insert_one task_data ;;
          mret (Some (hexlify inserted_id)))
         (fun _ => mret None)
   end)%proc.

(** [x in valid_statuses], a set: of the values modelled, a list and a
    dict cannot be hashed. *)
Definition in_status_set (v : value) : E bool :=
  match v with
  | VList _ | VDict _ => raise TypeError
  | _ => ret (value_in_strs v valid_statuses)
  end.

(** The body of the loop of [get_all_tasks] (lines 71-84).  With the
    warning of line 77: [Printing.task_view]. *)
Definition task_view `{Runtime} (task_doc : dict) : E dict :=
  (id <- py_getitem (VDict task_doc) (VStr (py "_id")) ;;
   let task_doc := dict_set task_doc (py "_id") (VStr (format_value id)) in
   let current_status :=
     match dict_get task_doc (py "status") with
     | Some v => v
     | None => VNone
     end in
   valid <- in_status_set current_status ;;
   let task_doc :=
     if negb valid
     then dict_set task_doc (py "status") (VStr (py "pending"))
     else task_doc in
   let task_doc :=
     match dict_get task_doc (py "created_at") with
     | Some (VDatetime t) =>
         dict_set task_doc (py "created_at") (VStr (isoformat t))
     | _ => task_doc
     end in
   ret task_doc)%err.

Fixpoint task_views `{Runtime} (docs : list dict) : E (list dict) :=
  match docs with
  | [] => ret []
  | doc :: rest =>
      (v <- task_view doc ;; vs <- task_views rest ;; ret (v :: vs))%err
  end.

(** [get_all_tasks] (lines 57-88) on a stream that encodes every
    character.  With the prints: [Printing.get_all_tasks]. *)
Definition get_all_tasks `{Runtime} : M (list dict) :=
  (self_db <- self_db ;;
   match self_db with
   | None => mret []
   | Some _ =>
       try_except
         (docs <- find_all ;; lift (task_views docs))
         (fun _ => mret [])
   end)%proc.

(** [update_task] (lines 90-122).  [Some fields] is the dictionary built
    by lines 97-106, [None] the early [return False] of line 109. *)
Definition update_fields (description start_date status : option str)
  : option (list (str * str)) :=
  let fields := [] in
  let fields :=
    match description with
    | Some ((_ :: _) as d) => dict_set fields (py "description") d
    | _ => fields
    end in
  let fields :=
    match start_date with
    | Some ((_ :: _) as d) => dict_set fields (py "start_date") d
    | _ => fields
    end in
  match status with
  | Some ((_ :: _) as st) =>
      if in_strs st valid_statuses
      then Some (dict_set fields (py "status") st)
      else None
  | _ => Some fields
  end.

(** [update_task] on a stream that encodes every character.  With the
    prints of lines 108 and 121: [Printing.update_task]. *)
Definition update_task (task_id : str)
  (description start_date status : option str) : M bool :=
  (self_db <- self_db ;;
   match self_db with
   | None => mret false
   | Some _ =>
       match update_fields description start_date status with
       | None => mret false
       | Some [] => mret false
       | Some fields =>
           try_except
             (oid <- lift (ObjectId task_id) ;;
              modified_count <- update_one oid fields ;;
              mret (0 <? modified_count))
             (fun _ => mret false)
       end
   end)%proc.

(** [delete_task] (lines 124-135) on a stream that encodes every
    character.  With the print of line 134: [Printing.delete_task]. *)
Definition delete_task (task_id : str) : M bool :=
  (self_db <- self_db ;;
   match self_db with
   | None => mret false
   | Some _ =>
       try_except
         (oid <- lift (ObjectId task_id) ;;
          deleted_count <- delete_one oid ;;
          mret (0 <? deleted_count))
         (fun _ => mret false)
   end)%proc.

(* ================================================================== *)
(** * process_command (main.py, lines 305-376) *)
(* ================================================================== *)

Record Request := {
  request_json : E value           (* [await request.json()] *)
}.

Record CommandResponse := {
  llm_interpretation : LLMCommand;
  action_result : dict
}.

Definition result (st msg : str) : dict :=
  [(py "status", VStr st); (py "message", VStr msg)].

Definition msg_field_required : str := py "El campo 'command' es requerido.".
Definition msg_no_db : str :=
  py "Error de base de datos: Conexión no establecida.".
Definition msg_need_description : str :=
  py "Para crear una tarea, necesito una descripción.".
Definition msg_created (description task_id : option str) : str :=
  py "Tarea '" ++ format_opt description ++ py "' creada con ID: "
  ++ format_opt task_id.
Definition msg_listing : str := py "Listando todas las tareas.".
Definition msg_update_need_id : str :=
  py "Para actualizar una tarea, necesito el ID de la tarea.".
Definition msg_update_need_field : str :=
  py "Para actualizar, necesito al menos una descripción, fecha o estado.".
Definition msg_updated (task_id : option str) : str :=
  py "Tarea " ++ format_opt task_id ++ py " actualizada correctamente.".
Definition msg_update_failed (task_id : option str) : str :=
  py "No se pudo actualizar la tarea " ++ format_opt task_id
  ++ py ". ¿El ID es correcto?".
Definition msg_delete_need_id : str :=
  py "Para eliminar una tarea, necesito el ID de la tarea.".
Definition msg_deleted (task_id : option str) : str :=
  py "Tarea " ++ format_opt task_id ++ py " eliminada correctamente.".
Definition msg_delete_failed (task_id : option str) : str :=
  py "No se pudo eliminar la tarea " ++ format_opt task_id
  ++ py ". ¿El ID es correcto?".
Definition msg_not_understood : str :=
  py "No pude entender tu comando. Por favor, sé más específico.".
Definition msg_unrecognized : str := py "Acción no reconocida por el sistema.".

Definition text_of (o : option str) : str :=
  match o with
  | Some s => s
  | None => []
  end.

(** Step 2 of [process_command] (lines 320-374), over the store without
    its prints.  Over the store with them: [Printing.execute_action]. *)
Definition execute_action (llm_response : LLMCommand) : M dict :=
  fun w =>
  let action_result := result (py "success") (py "Comando procesado.") in
  match db_manager w with
  | None => mret (result (py "error") msg_no_db) w
  | Some _ =>
    if str_eqb (action llm_response) (py "create") then
      if negb (truthy_opt (description llm_response))
      then mret (result (py "error") msg_need_description) w
      else
        (task_id <- add_task (text_of (description llm_response))
                             (start_date llm_response)
                             (status llm_response) ;;
         let action_result :=
           dict_set action_result (py "message")
             (VStr (msg_created (description llm_response) task_id)) in
         mret (dict_set action_result (py "task_id") (opt_value task_id))
        )%proc w
    else if str_eqb (action llm_response) (py "read") then
      mret (dict_set action_result (py "message") (VStr msg_listing)) w
    else if str_eqb (action llm_response) (py "update") then
      if negb (truthy_opt (task_id llm_response))
      then mret (result (py "error") msg_update_need_id) w
      else if negb (truthy_opt (description llm_response)
                    || truthy_opt (start_date llm_response)
                    || truthy_opt (status llm_response))
      then mret (result (py "error") msg_update_need_field) w
      else
        (success <- update_task (text_of (task_id llm_response))
                                (description llm_response)
                                (start_date llm_response)
                                (status llm_response) ;;
         if success : bool
         then mret (dict_set action_result (py "message")
                      (VStr (msg_updated (task_id llm_response))))
         else mret (result (py "error")
                      (msg_update_failed (task_id llm_response))))%proc w
    else if str_eqb (action llm_response) (py "delete") then
      if negb (truthy_opt (task_id llm_response))
      then mret (result (py "error") msg_delete_need_id) w
      else
        (success <- delete_task (text_of (task_id llm_response)) ;;
         if success : bool
         then mret (dict_set action_result (py "message")
                      (VStr (msg_deleted (task_id llm_response))))
         else mret (result (py "error")
                      (msg_delete_failed (task_id llm_response))))%proc w
    else if str_eqb (action llm_response) (py "unknown") then
      mret (result (py "info")
              (if truthy_opt (message llm_response)
               then text_of (message llm_response)
               else msg_not_understood)) w
    else mret (result (py "error") msg_unrecognized) w
  end.

(** [process_command] on a stream that encodes every character.  With the
    prints of what it calls: [Printing.process_command]. *)
Definition process_command `{Runtime} (request : Request)
  : M CommandResponse :=
  (data <- lift (request_json request) ;;
   user_input <- lift (py_get data (py "command")) ;;
   if negb (truthy user_input)
   then mraise (HTTPException 400 msg_field_required)
   else
     llm_response <- call_llm_for_command user_input ;;
     action_result <- execute_action llm_response ;;
     mret {| llm_interpretation := llm_response;
             action_result := action_result |})%proc.

(* ================================================================== *)
(** * Vocabulary of the statements *)
(* ================================================================== *)

(** The command the outer [try] ends with, by cases on the endpoint. *)
Definition outcome_command `{Runtime} (o : http_outcome) : LLMCommand :=
  match o with
  | PostRaises e => handled e
  | Responds r =>
      match interpret_response r with
      | inl e => handled e
      | inr c => c
      end
  end.

(** What tells two results apart: the status, and the first character of
    the message. *)
Definition result_mark (r : E dict) : option (option value * option char) :=
  match r with
  | inr d =>
      Some (dict_get d (py "status"),
            match dict_get d (py "message") with
            | Some (VStr (c :: _)) => Some c
            | _ => None
            end)
  | inl _ => None
  end.

(** A command whose enumerated fields hold permitted values. *)
Definition well_formed (c : LLMCommand) : Prop :=
  In (action c) valid_actions
  /\ match status c with
     | Some s => In s valid_statuses
     | None => True
     end.

(** The messages of the failure paths of [call_llm_for_command]. *)
Definition failure_message `{Runtime} (m : str) : Prop :=
  m = msg_no_api_key
  \/ m = msg_no_candidates
  \/ m = msg_bad_json
  \/ m = msg_no_action
  \/ (exists v, m = msg_bad_action v)
  \/ (exists c, m = msg_http_status c)
  \/ m = msg_unexpected.

(** The path without failure: a 2xx response whose body is JSON with a
    text part, whose JSON body parses to an object, whose sanitized form
    validates into [cmd]. *)
Definition interpreted `{Runtime} (r : http_response) (cmd : LLMCommand)
  : Prop :=
  (200 <= resp_status_code r < 300)%Z
  /\ exists result raw items,
      resp_json r = inr result
      /\ has_text_part result = inr true
      /\ raw_text_of result = inr (VStr raw)
      /\ json_loads (extract_json_body raw) = inr (VDict items)
      /\ LLMCommand_init (sanitize_keys items) = inr cmd.

(** The words of the specification: the status a task is listed with. *)
Definition listed_status (stored : option value) : str :=
  match stored with
  | Some (VStr s) => if in_strs s valid_statuses then s else py "pending"
  | _ => py "pending"
  end.

(** The words of the specification: the creation time a task is listed
    with. *)
Definition listed_created_at `{Runtime} (stored : option value)
  : option value :=
  match stored with
  | Some (VDatetime t) => Some (VStr (isoformat t))
  | o => o
  end.

(** A stored status that a set membership test accepts. *)
Definition hashable_status (doc : document) : Prop :=
  match dict_get (snd doc) (py "status") with
  | Some (VList _) | Some (VDict _) => False
  | _ => True
  end.

(** What a listing owes one stored document. *)
Definition lists_as `{Runtime} (doc : document) (view : dict) : Prop :=
  dict_get view (py "_id") = Some (VStr (format_value (fst doc)))
  /\ dict_get view (py "status")
     = Some (VStr (listed_status (dict_get (snd doc) (py "status"))))
  /\ dict_get view (py "created_at")
     = listed_created_at (dict_get (snd doc) (py "created_at"))
  /\ forall k, k <> py "_id" -> k <> py "status" -> k <> py "created_at" ->
               dict_get view k = dict_get (snd doc) k.

(* ================================================================== *)
(** * Instances for the examples *)
(* ================================================================== *)

(** The text [{"action": "read"}]. *)
Definition demo_json_read : str :=
  py "{" ++ dq ++ py "action" ++ dq ++ py ": " ++ dq ++ py "read" ++ dq
  ++ py "}".

(** A small instance of the libraries: its JSON reader knows one text,
    its tables are empty. *)
Definition demo_runtime : Runtime := {|
  unicode_isalnum := fun _ => false;
  json_loads := fun s =>
    if str_eqb s demo_json_read
    then inr (VDict [(py "action", VStr (py "read"))])
    else inl JSONDecodeError;
  py_str := fun _ => py "<value>";
  pydantic_str := fun _ => None;
  isoformat := fun t => py "T" ++ str_of_int t
|}.

Definition demo_world (m : option MongoDBManager) : world :=
  {| GEMINI_API_KEY := Some (py "key");
     llm := fun _ _ => PostRaises TransportError;
     db_manager := m; clock := 1751500800; trace := [] |}.

Definition empty_mongo : mongo :=
  {| tasks := []; fault := None; fault_after_write := false;
     oid_counter := 0 |}.

Definition demo_task : document :=
  (VObjectId (bytes_of 12 7),
   [(py "description", VStr (py "comprar pan"));
    (py "created_at", VDatetime 1751500800);
    (py "status", VStr (py "archived"))]).

Definition one_task_mongo : mongo :=
  {| tasks := [demo_task]; fault := None; fault_after_write := false;
     oid_counter := 8 |}.

Definition list_status_task : document :=
  (VObjectId (bytes_of 12 9),
   [(py "description", VStr (py "regar")); (py "status", VList [])]).

Definition list_status_mongo : mongo :=
  {| tasks := [demo_task; list_status_task]; fault := None;
     fault_after_write := false;
     oid_counter := 10 |}.

Definition down_mongo : mongo :=
  {| tasks := [demo_task]; fault := Some PyMongoError;
     fault_after_write := false; oid_counter := 8 |}.

Definition connected (m : mongo) : option MongoDBManager :=
  Some {| db := Some m |}.

Definition disconnected : option MongoDBManager := Some {| db := None |}.

Definition create_command (d : str) (st : option str) : LLMCommand :=
  {| action := py "create"; task_id := None; description := Some d;
     start_date := None; status := st; message := None |}.

(* ================================================================== *)
(** * The remaining handlers and further vocabulary *)
(* ================================================================== *)

(** The document [add_task] hands to the driver (db.py, lines 42-48). *)
Definition new_task_data (description : str) (start_date status : option str)
  (now : Z) : dict :=
  let task_data :=
    [(py "description", VStr description);
     (py "created_at", VDatetime now);
     (py "status", opt_value status)] in
  if truthy_opt start_date
  then dict_set task_data (py "start_date") (opt_value start_date)
  else task_data.

(** [get_tasks] (main.py, lines 378-388): what the handler returns. *)
Definition get_tasks `{Runtime} : M (list dict) :=
  fun w =>
    match db_manager w with
    | None => mraise (HTTPException 500 msg_no_db) w
    | Some _ => get_all_tasks w
    end.

(** A field as [update_task] takes it: given when it is a non-empty
    text. *)
Definition supplied (o : option str) : option str :=
  if truthy_opt o then o else None.

(** The text an update asks for under key [k], if any. *)
Definition requested (d sd st : option str) (k : str) : option str :=
  if str_eqb (py "status") k then supplied st
  else if str_eqb (py "start_date") k then supplied sd
  else if str_eqb (py "description") k then supplied d
  else None.

(** The statuses of a result of the dispatcher. *)
Definition result_statuses : list str := [py "success"; py "error"; py "info"].

(** A result with a status of the three and a text message. *)
Definition result_shaped (r : dict) : Prop :=
  (exists s, dict_get r (py "status") = Some (VStr s) /\ In s result_statuses)
  /\ exists m, dict_get r (py "message") = Some (VStr m).

(** The response envelope with one candidate and one part. *)
Definition envelope (text : value) : value :=
  VDict [(py "candidates",
          VList [VDict [(py "content",
                         VDict [(py "parts",
                                 VList [VDict [(py "text", text)]])])]])].

(** A world whose endpoint answers 200 with the given body. *)
Definition answering_world (body : value) (m : option MongoDBManager)
  : world :=
  {| GEMINI_API_KEY := Some (py "key");
     llm := fun _ _ =>
       Responds {| resp_status_code := 200; resp_text := [];
                   resp_json := inr body |};
     db_manager := m; clock := 1751500800; trace := [] |}.

Definition read_command : LLMCommand :=
  {| action := py "read"; task_id := None; description := None;
     start_date := None; status := None; message := None |}.

(** The value of the last item whose key cleans to [k]. *)
Definition last_cleaned `{Runtime} (items : dict) (k : str) : option value :=
  fold_left (fun acc kv =>
               if str_eqb (clean_key (fst kv)) k then Some (snd kv) else acc)
            items None.

(** The formatted prompt up to the user's text. *)
Definition prompt_head : str :=
  Eval vm_compute in
    match @format_from demo_runtime prompt_template None (VStr []) with
    | inr s => removelast s
    | inl _ => []
    end.

(* ================================================================== *)
(** * Standard output: the functions with their prints *)
(* ================================================================== *)

(** What a [print] depends on. *)
Class Diagnostics := {
  (** Whether the encoding of [sys.stdout] has the character. *)
  stdout_encodes : char -> bool;
  (** [repr(s)] for a text. *)
  py_repr : str -> str;
  (** [str(e)] for the exception at hand. *)
  exc_str : exn -> str
}.

(** A subclass of [ValueError]; no handler of the program names either. *)
Definition UnicodeEncodeError : exn :=
  OtherException (py "UnicodeEncodeError").

Definition encodable `{Diagnostics} (s : str) : bool :=
  forallb stdout_encodes s.

(** [print(f"...")]: the text is encoded for the stream, and a character
    the encoding lacks raises.  [texts] are the texts the f-string
    interpolates, in order; its fixed parts are taken to be encodable, and
    the prints of a fixed text (main.py, lines 209 and 227; db.py, the
    messages about the connection) are left out. *)
Definition py_print `{Diagnostics} (texts : list str) : E unit :=
  if forallb encodable texts then ret tt else raise UnicodeEncodeError.

(** [repr(v)]: for a value that is not text it is what [str(v)] is. *)
Definition repr_value `{Runtime} `{Diagnostics} (v : value) : str :=
  match v with
  | VStr s => py_repr s
  | _ => format_value v
  end.

Module Printing.

(** The loop of lines 266-270, with the print of line 269. *)
Fixpoint sanitize_keys `{Runtime} `{Diagnostics}
  (items clean_parsed_json : dict) : E dict :=
  match items with
  | [] => ret clean_parsed_json
  | (k, v) :: rest =>
      let cleaned_key := clean_key k in
      (_ <- py_print [k; py_repr k; cleaned_key; py_repr cleaned_key] ;;
       sanitize_keys rest (dict_set clean_parsed_json cleaned_key v))%err
  end.

(** Lines 274-283, with the prints of lines 276 and 280. *)
Definition interpret_clean `{Runtime} `{Diagnostics}
  (raw_text : value) (clean_parsed_json : dict) : E LLMCommand :=
  let action_value :=
    match dict_get clean_parsed_json (py "action") with
    | Some v => v
    | None => VNone
    end in
  match action_value with
  | VNone =>
      (_ <- py_print [format_value raw_text;
                      format_value (VDict clean_parsed_json)] ;;
       ret (unknown_command msg_no_action))%err
  | _ =>
      if negb (value_in_strs action_value valid_actions)
      then
        (_ <- py_print [format_value action_value;
                        format_value (VDict clean_parsed_json)] ;;
         ret (unknown_command (msg_bad_action action_value)))%err
      else LLMCommand_init clean_parsed_json
  end.

(** Lines 264-283, with the prints of lines 264 and 272. *)
Definition interpret_parsed `{Runtime} `{Diagnostics}
  (raw_text parsed_json : value) : E LLMCommand :=
  (_ <- py_print [format_value parsed_json] ;;
   items <- py_items parsed_json ;;
   clean_parsed_json <- sanitize_keys items [] ;;
   _ <- py_print [format_value (VDict clean_parsed_json)] ;;
   interpret_clean raw_text clean_parsed_json)%err.

(** Lines 249-286, with the prints of lines 250, 257 or 260, and 285. *)
Definition interpret_text `{Runtime} `{Diagnostics} (raw_text : value)
  : E LLMCommand :=
  (_ <- py_print [format_value raw_text; repr_value raw_text] ;;
   match raw_text with
   | VStr raw =>
       let json_string_to_parse := extract_json_body raw in
       _ <- py_print [json_string_to_parse] ;;
       match (parsed_json <- json_loads json_string_to_parse ;;
              interpret_parsed raw_text parsed_json) with
       | inl JSONDecodeError =>
           _ <- py_print [exc_str JSONDecodeError; json_string_to_parse;
                          py_repr json_string_to_parse] ;;
           ret (unknown_command msg_bad_json)
       | r => r
       end
   | _ => raise TypeError
   end)%err.

(** The body of the outer [try], from the response on (lines 239-289),
    with the prints of lines 242 and 288. *)
Definition interpret_response `{Runtime} `{Diagnostics}
  (response : http_response) : E LLMCommand :=
  (_ <- raise_for_status response ;;
   result <- resp_json response ;;
   _ <- py_print [format_value result] ;;
   ok <- has_text_part result ;;
   if ok : bool then
     raw_text <- raw_text_of result ;;
     interpret_text raw_text
   else
     _ <- py_print [format_value result] ;;
     ret (unknown_command msg_no_candidates))%err.

(** The two handlers of the outer [try] (lines 290-295): each prints, then
    returns. *)
Definition llm_handlers `{Diagnostics} (e : exn) : E LLMCommand :=
  match e with
  | HTTPStatusError status_code text =>
      (_ <- py_print [str_of_int status_code; text] ;;
       ret (unknown_command (msg_http_status status_code)))%err
  | _ =>
      (_ <- py_print [exc_str e] ;;
       ret (unknown_command msg_unexpected))%err
  end.

(** [call_llm_for_command], with the print of line 212 before the [try]. *)
Definition call_llm_for_command `{Runtime} `{Diagnostics}
  (user_prompt : value) : M LLMCommand :=
  (formatted_prompt <- lift (format_prompt user_prompt) ;;
   _ <- lift (py_print [py_repr formatted_prompt]) ;;
   api_key <- getenv_api_key ;;
   if negb (truthy (VStr api_key))
   then mret (unknown_command msg_no_api_key)
   else
     try_except
       (response <- client_post api_key formatted_prompt ;;
        lift (interpret_response response))
       (fun e => lift (llm_handlers e)))%proc.

(** [add_task] (db.py, lines 35-55), with the print of line 54. *)
Definition add_task `{Diagnostics} (description : str)
  (start_date status : option str) : M (option str) :=
  (self_db <- self_db ;;
   match self_db with
   | None => mret None
   | Some _ =>
       now <- datetime_now ;;
       let task_data :=
         [(py "description", VStr description);
          (py "created_at", VDatetime now);
          (py "status", opt_value status)] in
       let task_data :=
         if truthy_opt start_date
         then dict_set task_data (py "start_date") (opt_value start_date)
         else task_data in
       try_except
         (inserted_id <- insert_one task_data ;;
          mret (Some (hexlify inserted_id)))
         (fun e => _ <- lift (py_print [exc_str e]) ;; mret None)
   end)%proc.

(** The body of the loop of [get_all_tasks] (lines 71-84), with the print
    of line 77. *)
Definition task_view `{Runtime} `{Diagnostics} (task_doc : dict) : E dict :=
  (id <- py_getitem (VDict task_doc) (VStr (py "_id")) ;;
   let task_doc := dict_set task_doc (py "_id") (VStr (format_value id)) in
   let current_status :=
     match dict_get task_doc (py "status") with
     | Some v => v
     | None => VNone
     end in
   valid <- in_status_set current_status ;;
   _ <- (if negb valid
         then py_print [format_value id; format_value current_status]
         else ret tt) ;;
   let task_doc :=
     if negb valid
     then dict_set task_doc (py "status") (VStr (py "pending"))
     else task_doc in
   let task_doc :=
     match dict_get task_doc (py "created_at") with
     | Some (VDatetime t) =>
         dict_set task_doc (py "created_at") (VStr (isoformat t))
     | _ => task_doc
     end in
   ret task_doc)%err.

Fixpoint task_views `{Runtime} `{Diagnostics} (docs : list dict)
  : E (list dict) :=
  match docs with
  | [] => ret []
  | doc :: rest =>
      (v <- task_view doc ;; vs <- task_views rest ;; ret (v :: vs))%err
  end.

(** [get_all_tasks] (lines 57-88), with the prints of lines 77 and 87. *)
Definition get_all_tasks `{Runtime} `{Diagnostics} : M (list dict) :=
  (self_db <- self_db ;;
   match self_db with
   | None => mret []
   | Some _ =>
       try_except
         (docs <- find_all ;; lift (task_views docs))
         (fun e => _ <- lift (py_print [exc_str e]) ;; mret [])
   end)%proc.

(** [update_task] (lines 90-122), with the prints of lines 108 and 121. *)
Definition update_task `{Diagnostics} (task_id : str)
  (description start_date status : option str) : M bool :=
  (self_db <- self_db ;;
   match self_db with
   | None => mret false
   | Some _ =>
       match update_fields description start_date status with
       | None =>
           _ <- lift (py_print [task_id; format_opt status]) ;;
           mret false
       | Some [] => mret false
       | Some fields =>
           try_except
             (oid <- lift (ObjectId task_id) ;;
              modified_count <- update_one oid fields ;;
              mret (0 <? modified_count))
             (fun e => _ <- lift (py_print [task_id; exc_str e]) ;;
                       mret false)
       end
   end)%proc.

(** [delete_task] (lines 124-135), with the print of line 134. *)
Definition delete_task `{Diagnostics} (task_id : str) : M bool :=
  (self_db <- self_db ;;
   match self_db with
   | None => mret false
   | Some _ =>
       try_except
         (oid <- lift (ObjectId task_id) ;;
          deleted_count <- delete_one oid ;;
          mret (0 <? deleted_count))
         (fun e => _ <- lift (py_print [task_id; exc_str e]) ;; mret false)
   end)%proc.

(** Step 2 of [process_command] (lines 320-374): the calls of lines 330,
    349 and 364 stand under no [try]. *)
Definition execute_action `{Diagnostics} (llm_response : LLMCommand)
  : M dict :=
  fun w =>
  let action_result := result (py "success") (py "Comando procesado.") in
  match db_manager w with
  | None => mret (result (py "error") msg_no_db) w
  | Some _ =>
    if str_eqb (action llm_response) (py "create") then
      if negb (truthy_opt (description llm_response))
      then mret (result (py "error") msg_need_description) w
      else
        (task_id <- add_task (text_of (description llm_response))
                             (start_date llm_response)
                             (status llm_response) ;;
         let action_result :=
           dict_set action_result (py "message")
             (VStr (msg_created (description llm_response) task_id)) in
         mret (dict_set action_result (py "task_id") (opt_value task_id))
        )%proc w
    else if str_eqb (action llm_response) (py "read") then
      mret (dict_set action_result (py "message") (VStr msg_listing)) w
    else if str_eqb (action llm_response) (py "update") then
      if negb (truthy_opt (task_id llm_response))
      then mret (result (py "error") msg_update_need_id) w
      else if negb (truthy_opt (description llm_response)
                    || truthy_opt (start_date llm_response)
                    || truthy_opt (status llm_response))
      then mret (result (py "error") msg_update_need_field) w
      else
        (success <- update_task (text_of (task_id llm_response))
                                (description llm_response)
                                (start_date llm_response)
                                (status llm_response) ;;
         if success : bool
         then mret (dict_set action_result (py "message")
                      (VStr (msg_updated (task_id llm_response))))
         else mret (result (py "error")
                      (msg_update_failed (task_id llm_response))))%proc w
    else if str_eqb (action llm_response) (py "delete") then
      if negb (truthy_opt (task_id llm_response))
      then mret (result (py "error") msg_delete_need_id) w
      else
        (success <- delete_task (text_of (task_id llm_response)) ;;
         if success : bool
         then mret (dict_set action_result (py "message")
                      (VStr (msg_deleted (task_id llm_response))))
         else mret (result (py "error")
                      (msg_delete_failed (task_id llm_response))))%proc w
    else if str_eqb (action llm_response) (py "unknown") then
      mret (result (py "info")
              (if truthy_opt (message llm_response)
               then text_of (message llm_response)
               else msg_not_understood)) w
    else mret (result (py "error") msg_unrecognized) w
  end.

(** [process_command] (main.py, lines 305-376). *)
Definition process_command `{Runtime} `{Diagnostics} (request : Request)
  : M CommandResponse :=
  (data <- lift (request_json request) ;;
   user_input <- lift (py_get data (py "command")) ;;
   if negb (truthy user_input)
   then mraise (HTTPException 400 msg_field_required)
   else
     llm_response <- call_llm_for_command user_input ;;
     action_result <- execute_action llm_response ;;
     mret {| llm_interpretation := llm_response;
             action_result := action_result |})%proc.

(** [get_tasks] (main.py, lines 378-388). *)
Definition get_tasks `{Runtime} `{Diagnostics} : M (list dict) :=
  fun w =>
    match db_manager w with
    | None => mraise (HTTPException 500 msg_no_db) w
    | Some _ => get_all_tasks w
    end.

End Printing.

(** ** Instances of standard output for the examples *)

(** A lone surrogate. *)
Definition is_surrogate (c : char) : bool :=
  ((55296 <=? c) && (c <=? 57343))%N.

(** [repr] on text, as far as the examples go: between quotes, a lone
    surrogate escaped, every other character kept. *)
Definition demo_repr (s : str) : str :=
  py "'"
  ++ flat_map (fun c =>
                 if is_surrogate c
                 then py "\u" ++ hexlify [c / 256; c mod 256]%N
                 else [c]) s
  ++ py "'".

(** The class name stands for the text of an exception. *)
Definition demo_exc_str (e : exn) : str :=
  match e with
  | OtherException name => name
  | HTTPStatusError _ _ => py "HTTPStatusError"
  | JSONDecodeError => py "JSONDecodeError"
  | InvalidId => py "InvalidId"
  | PyMongoError => py "PyMongoError"
  | TypeError => py "TypeError"
  | _ => py "Exception"
  end.

(** A stream in strict UTF-8: everything but lone surrogates. *)
Definition utf8_stdout : Diagnostics := {|
  stdout_encodes := fun c => negb (is_surrogate c);
  py_repr := demo_repr;
  exc_str := demo_exc_str
|}.

(** A stream in Latin-1: the code points below 256. *)
Definition latin1_stdout : Diagnostics := {|
  stdout_encodes := fun c => (c <? 256)%N;
  py_repr := demo_repr;
  exc_str := demo_exc_str
|}.

(** A stream that encodes every character. *)
Definition lenient_stdout : Diagnostics := {|
  stdout_encodes := fun _ => true;
  py_repr := demo_repr;
  exc_str := demo_exc_str
|}.

(** U+1F600, a character Latin-1 lacks. *)
Definition emoji : str := [128512%N].

(** A text with the lone surrogate U+D800. *)
Definition lone_surrogate : str := [55296%N].

(** The text [{"action": "\ud800"}], the surrogate written as its JSON
    escape. *)
Definition surrogate_action_json : str :=
  py "{" ++ dq ++ py "action" ++ dq ++ py ": " ++ dq ++ py "\ud800" ++ dq
  ++ py "}".

(** An instance of the libraries whose JSON reader knows that text. *)
Definition surrogate_runtime : Runtime := {|
  unicode_isalnum := fun _ => false;
  json_loads := fun s =>
    if str_eqb s surrogate_action_json
    then inr (VDict [(py "action", VStr lone_surrogate)])
    else inl JSONDecodeError;
  py_str := fun _ => py "<value>";
  pydantic_str := fun _ => None;
  isoformat := fun t => py "T" ++ str_of_int t
|}.

(** A world whose endpoint answers 500 with the given body text. *)
Definition failing_world (text : str) : world :=
  {| GEMINI_API_KEY := Some (py "key");
     llm := fun _ _ =>
       Responds {| resp_status_code := 500; resp_text := text;
                   resp_json := inl JSONDecodeError |};
     db_manager := None; clock := 1751500800; trace := [] |}.

(** A stored task whose status is a text outside the four, with a
    character Latin-1 lacks. *)
Definition emoji_status_mongo : mongo :=
  {| tasks := [(VObjectId (bytes_of 12 7),
                [(py "description", VStr (py "comprar pan"));
                 (py "status", VStr emoji)])];
     fault := None; fault_after_write := false;
     oid_counter := 8 |}.

(** The computation [p] does what [q] does, or raises from a print. *)
Definition or_print_raises {A : Type} (p q : E A) : Prop :=
  p = q \/ p = inl UnicodeEncodeError.

(** A run that returns, or raises what a print raises. *)
Definition returns_or_print_raises {A : Type} (run : E A * world) : Prop :=
  match fst run with
  | inr _ => True
  | inl e => e = UnicodeEncodeError
  end.

(** The outcome of [print(...)] followed by [return a]. *)
Definition print_then_return {A : Type} `{Diagnostics} (texts : list str)
  (a : A) : E A :=
  if forallb encodable texts then inr a else inl UnicodeEncodeError.

(* ================================================================== *)
(** * Theorems *)
(* ================================================================== *)

(** ** Text lemmas *)

Lemma char_eqb_eq (a b : char) : char_eqb a b = true <-> a = b.
Proof. unfold char_eqb. apply N.eqb_eq. Qed.

Lemma str_eqb_eq (a b : str) : str_eqb a b = true <-> a = b.
Proof.
  revert b. induction a as [|x a IH]; intros [|y b]; simpl;
    try (split; [discriminate | congruence]); try tauto.
  rewrite andb_true_iff, char_eqb_eq, IH. split.
  - intros [-> ->]. reflexivity.
  - intros H. inversion H. auto.
Qed.

Lemma str_eqb_refl (a : str) : str_eqb a a = true.
Proof. apply str_eqb_eq. reflexivity. Qed.

Lemma startswith_app (p s : str) :
  startswith p s = true <-> exists r, s = p ++ r.
Proof.
  revert s. induction p as [|a p IH]; intros s; simpl.
  - split; eauto.
  - destruct s as [|b s].
    + split; [discriminate | intros [r H]; discriminate].
    + rewrite andb_true_iff, char_eqb_eq, IH. split.
      * intros [-> [r ->]]. eauto.
      * intros [r H]. inversion H. eauto.
Qed.

Lemma startswith_skipn (p s : str) :
  startswith p s = true -> s = p ++ skipn (List.length p) s.
Proof.
  intros H. apply startswith_app in H. destruct H as [r ->].
  rewrite skipn_app, skipn_all, Nat.sub_diag. reflexivity.
Qed.

Lemma lstrip_space (c : char) (s : str) :
  isspace c = true -> lstrip (c :: s) = lstrip s.
Proof. intros H. simpl. rewrite H. reflexivity. Qed.

Lemma lstrip_nonspace (c : char) (s : str) :
  isspace c = false -> lstrip (c :: s) = c :: s.
Proof. intros H. simpl. rewrite H. reflexivity. Qed.

Lemma rstrip_cons (c : char) (s : str) :
  rstrip (c :: s) =
  match rstrip s with
  | [] => if isspace c then [] else [c]
  | r => c :: r
  end.
Proof. reflexivity. Qed.

Lemma rstrip_idem (s : str) : rstrip (rstrip s) = rstrip s.
Proof.
  induction s as [|c s IH]; [reflexivity|].
  rewrite rstrip_cons. destruct (rstrip s) as [|y r] eqn:E.
  - destruct (isspace c) eqn:Ec; [reflexivity|].
    simpl. rewrite Ec. reflexivity.
  - rewrite rstrip_cons, IH. reflexivity.
Qed.

Lemma lstrip_rstrip (s : str) : lstrip (rstrip s) = rstrip (lstrip s).
Proof.
  induction s as [|c s IH]; [reflexivity|].
  destruct (isspace c) eqn:Ec.
  - rewrite (lstrip_space c _ Ec), <- IH, rstrip_cons.
    destruct (rstrip s) as [|y r]; [rewrite Ec; reflexivity|].
    apply (lstrip_space c _ Ec).
  - rewrite (lstrip_nonspace c _ Ec), rstrip_cons.
    destruct (rstrip s); rewrite ?Ec; apply (lstrip_nonspace c _ Ec).
Qed.

Lemma strip_idem (s : str) : strip (strip s) = strip s.
Proof.
  unfold strip. rewrite lstrip_rstrip, rstrip_idem.
  rewrite <- lstrip_rstrip, <- lstrip_rstrip.
  assert (L : forall t, lstrip (lstrip t) = lstrip t).
  { induction t as [|c t IHt]; [reflexivity|].
    destruct (isspace c) eqn:Ec.
    - rewrite (lstrip_space c _ Ec). exact IHt.
    - rewrite (lstrip_nonspace c _ Ec). apply (lstrip_nonspace c _ Ec). }
  apply L.
Qed.

Lemma strip_space (c : char) (s : str) :
  isspace c = true -> strip (c :: s) = strip s.
Proof. intros H. unfold strip. rewrite (lstrip_space c _ H). reflexivity. Qed.

Lemma find_Some (p s : str) (i : nat) :
  find p s = Some i <-> first_occ p s i.
Proof.
  unfold first_occ, occurs_at. revert i.
  induction s as [|x s IH]; intros i.
  - simpl. destruct (startswith p []) eqn:E.
    + split.
      * intros [= <-]. repeat split; auto. intros j Hj. lia.
      * intros [[Hi _] _]. simpl in Hi. f_equal. lia.
    + split; [discriminate|]. intros [[Hi H] _].
      simpl in Hi. assert (i = 0) by lia. subst. simpl in H. congruence.
  - cbn [find]. destruct (startswith p (x :: s)) eqn:E.
    + split.
      * intros [= <-]. split; [split; [simpl; lia | exact E]|].
        intros j Hj. lia.
      * intros [_ H]. destruct i as [|i]; [reflexivity|].
        exfalso. apply (H 0); [lia|]. split; [simpl; lia | exact E].
    + destruct (find p s) as [k|] eqn:F; simpl.
      * destruct (proj1 (IH k) eq_refl) as [[Hk1 Hk2] Hk3]. split.
        -- intros [= <-]. split; [split; [simpl; lia | exact Hk2]|].
           intros [|j] Hj [Hj1 Hj2]; [simpl in Hj2; congruence|].
           apply (Hk3 j); [lia|]. split; [simpl in Hj1; lia | exact Hj2].
        -- intros [[Hi1 Hi2] Hi3]. destruct i as [|i];
             [simpl in Hi2; congruence|].
           f_equal. f_equal. symmetry.
           assert (Hi : find p s = Some i).
           { rewrite <- F in IH. apply IH. split; [split; [simpl in Hi1; lia | exact Hi2]|].
             intros j Hj [Hj1 Hj2]. apply (Hi3 (S j)); [lia|].
             split; [simpl; lia | exact Hj2]. }
           congruence.
      * split; [discriminate|]. intros [[Hi1 Hi2] Hi3].
        destruct i as [|i]; [simpl in Hi2; congruence|].
        assert (Hi : find p s = Some i).
        { rewrite <- F in IH. apply IH. split; [split; [simpl in Hi1; lia | exact Hi2]|].
          intros j Hj [Hj1 Hj2]. apply (Hi3 (S j)); [lia|].
          split; [simpl; lia | exact Hj2]. }
        congruence.
Qed.

Lemma find_None (p s : str) :
  find p s = None <-> forall i, ~ occurs_at p s i.
Proof.
  unfold occurs_at. induction s as [|x s IH].
  - simpl. destruct (startswith p []) eqn:E.
    + split; [discriminate|]. intros H. exfalso. apply (H 0). auto.
    + split; [|reflexivity]. intros _ i [Hi H]. simpl in Hi.
      assert (i = 0) by lia. subst. simpl in H. congruence.
  - cbn [find]. destruct (startswith p (x :: s)) eqn:E.
    + split; [discriminate|]. intros H. exfalso. apply (H 0).
      split; [simpl; lia | exact E].
    + destruct (find p s) as [k|] eqn:F; simpl.
      * split; [discriminate|]. intros H. exfalso.
        destruct (proj1 (find_Some p s k) F) as [[Hk1 Hk2] _].
        apply (H (S k)). split; [simpl; lia | exact Hk2].
      * split; [|reflexivity]. intros _ [|i] [Hi1 Hi2];
          [simpl in Hi2; congruence|].
        apply (proj1 IH eq_refl i). split; [simpl in Hi1; lia | exact Hi2].
Qed.

(** ** The regular expression *)

Lemma greedy_eq (p : char -> bool) (re : list Re.node) (g : bool) (s : str) :
  Re.match_here (Re.StarGreedy p :: re) g s =
  match s with
  | x :: s' =>
      if p x then
        match Re.match_here (Re.StarGreedy p :: re) g s' with
        | Some r => Some (Re.keep g x r)
        | None => Re.match_here re g s
        end
      else Re.match_here re g s
  | [] => Re.match_here re g s
  end.
Proof. destruct s; reflexivity. Qed.

Lemma lazy_eq (p : char -> bool) (re : list Re.node) (g : bool) (s : str) :
  Re.match_here (Re.StarLazy p :: re) g s =
  match Re.match_here re g s with
  | Some r => Some r
  | None =>
      match s with
      | x :: s' =>
          if p x
          then option_map (Re.keep g x)
                 (Re.match_here (Re.StarLazy p :: re) g s')
          else None
      | [] => None
      end
  end.
Proof. destruct s; reflexivity. Qed.

Lemma lits_eq (p : str) (re : list Re.node) (s : str) :
  Re.match_here (Re.lits p ++ re) false s =
  if startswith p s then Re.match_here re false (skipn (List.length p) s)
  else None.
Proof.
  revert s. induction p as [|a p IH]; intros s; [reflexivity|].
  destruct s as [|x s]; [reflexivity|].
  cbn [Re.lits List.map app Re.match_here startswith List.length skipn].
  unfold char_eqb. rewrite (N.eqb_sym x a).
  destruct (N.eqb a x); [|reflexivity].
  cbn [andb]. fold (Re.lits p). rewrite IH.
  destruct (startswith p s); [|reflexivity].
  destruct (Re.match_here re false (skipn (List.length p) s)); reflexivity.
Qed.

Lemma close_lits (s : str) :
  Re.match_here (Re.lits fence_close) false s =
  if startswith fence_close s then Some [] else None.
Proof.
  rewrite <- (app_nil_r (Re.lits fence_close)), lits_eq. reflexivity.
Qed.

Lemma closes_space (c : char) (s : str) :
  isspace c = true -> startswith fence_close (c :: s) = false.
Proof.
  intros H. change fence_close with [96; 96; 96]%N.
  cbn [startswith]. destruct (char_eqb 96%N c) eqn:E; [|reflexivity].
  apply char_eqb_eq in E. subst c. vm_compute in H. discriminate.
Qed.

Lemma tail_re_eq (s : str) :
  Re.match_here tail_re false s =
  if startswith fence_close (lstrip s) then Some [] else None.
Proof.
  unfold tail_re. induction s as [|x s IH].
  - rewrite greedy_eq, close_lits. reflexivity.
  - rewrite greedy_eq, IH, close_lits. destruct (isspace x) eqn:Ex.
    + rewrite (lstrip_space x s Ex), (closes_space x s Ex).
      destruct (startswith fence_close (lstrip s)); reflexivity.
    + rewrite (lstrip_nonspace x s Ex). reflexivity.
Qed.

Lemma closes_lstrip_find (s : str) :
  startswith fence_close (lstrip s) = true ->
  exists k, find fence_close s = Some k /\ rstrip (firstn k s) = [].
Proof.
  induction s as [|c s IH]; intros H.
  - vm_compute in H. discriminate.
  - destruct (isspace c) eqn:Ec.
    + rewrite (lstrip_space c s Ec) in H. destruct (IH H) as [k [Hk1 Hk2]].
      exists (S k). cbn [find]. rewrite (closes_space c s Ec), Hk1.
      split; [reflexivity|]. cbn [firstn]. rewrite rstrip_cons, Hk2, Ec.
      reflexivity.
    + rewrite (lstrip_nonspace c s Ec) in H. exists 0. cbn [find].
      rewrite H. split; reflexivity.
Qed.

Lemma find_rstrip_closes (s : str) (k : nat) :
  find fence_close s = Some k -> rstrip (firstn k s) = [] ->
  startswith fence_close (lstrip s) = true.
Proof.
  revert k. induction s as [|c s IH]; intros k Hf Hr.
  - vm_compute in Hf. discriminate.
  - cbn [find] in Hf. destruct (startswith fence_close (c :: s)) eqn:E.
    + destruct (isspace c) eqn:Ec.
      * rewrite (closes_space c s Ec) in E. discriminate.
      * rewrite (lstrip_nonspace c s Ec). exact E.
    + destruct (find fence_close s) as [k'|] eqn:F; [|discriminate].
      simpl in Hf. injection Hf as <-. cbn [firstn] in Hr.
      rewrite rstrip_cons in Hr.
      destruct (rstrip (firstn k' s)) eqn:R; [|discriminate].
      destruct (isspace c) eqn:Ec; [|discriminate].
      rewrite (lstrip_space c s Ec). apply (IH k'); auto.
Qed.

Lemma lazy_re_eq (s : str) :
  Re.match_here lazy_re true s =
  option_map (fun k => rstrip (firstn k s)) (find fence_close s).
Proof.
  unfold lazy_re. induction s as [|x s IH].
  - rewrite lazy_eq. cbn [Re.match_here]. fold tail_re.
    rewrite tail_re_eq. reflexivity.
  - rewrite lazy_eq. change (Re.match_here (Re.GroupClose :: tail_re) true (x :: s))
      with (Re.match_here tail_re false (x :: s)).
    rewrite tail_re_eq.
    destruct (startswith fence_close (lstrip (x :: s))) eqn:C.
    + destruct (closes_lstrip_find _ C) as [k [-> Hk]]. simpl. rewrite Hk.
      reflexivity.
    + assert (E : startswith fence_close (x :: s) = false).
      { destruct (isspace x) eqn:Ex; [apply (closes_space x s Ex)|].
        rewrite (lstrip_nonspace x s Ex) in C. exact C. }
      cbn [find Re.dot_all]. rewrite E, IH.
      destruct (find fence_close s) as [k|] eqn:F; [|reflexivity].
      cbn [option_map firstn Re.keep]. rewrite rstrip_cons.
      destruct (rstrip (firstn k s)) eqn:R; [|reflexivity].
      destruct (isspace x) eqn:Ex; [|reflexivity].
      rewrite (lstrip_space x s Ex), (find_rstrip_closes s k F R) in C.
      discriminate.
Qed.

Lemma body_re_eq (s : str) :
  Re.match_here body_re false s =
  option_map (fun k => strip (firstn k s)) (find fence_close s).
Proof.
  unfold body_re. induction s as [|x s IH].
  - rewrite greedy_eq.
    change (Re.match_here (Re.GroupOpen :: lazy_re) false [])
      with (Re.match_here lazy_re true []).
    rewrite lazy_re_eq. reflexivity.
  - rewrite greedy_eq, IH.
    change (Re.match_here (Re.GroupOpen :: lazy_re) false (x :: s))
      with (Re.match_here lazy_re true (x :: s)).
    rewrite lazy_re_eq. destruct (isspace x) eqn:Ex.
    + cbn [find]. rewrite (closes_space x s Ex).
      destruct (find fence_close s) as [k|]; [|reflexivity].
      cbn [option_map firstn Re.keep]. rewrite (strip_space x _ Ex).
      reflexivity.
    + destruct (find fence_close (x :: s)) as [[|k]|]; try reflexivity.
      cbn [option_map firstn]. unfold strip.
      rewrite (lstrip_nonspace x _ Ex). reflexivity.
Qed.

Lemma json_block_re_eq (s : str) :
  Re.match_here json_block_re false s =
  if startswith fence_open s
  then let rest := skipn (List.length fence_open) s in
       option_map (fun k => strip (firstn k rest)) (find fence_close rest)
  else None.
Proof.
  change json_block_re with (Re.lits fence_open ++ body_re).
  rewrite lits_eq, body_re_eq. reflexivity.
Qed.

Lemma find_close_tail (x : char) (s : str) :
  find fence_close (x :: s) = None -> find fence_close s = None.
Proof.
  cbn [find]. destruct (startswith fence_close (x :: s)); [discriminate|].
  destruct (find fence_close s); [discriminate | reflexivity].
Qed.

Lemma search_no_close (s : str) :
  find fence_close s = None -> Re.search json_block_re s = None.
Proof.
  induction s as [|x s IH]; intros H.
  - reflexivity.
  - cbn [Re.search]. rewrite json_block_re_eq.
    destruct (startswith fence_open (x :: s)) eqn:E.
    + exfalso. apply startswith_app in E. destruct E as [r E].
      rewrite E in H. vm_compute in H. discriminate.
    + apply IH. apply (find_close_tail _ _ H).
Qed.

Lemma open_then_no_close (s : str) :
  startswith fence_open s = true ->
  find fence_close (skipn (List.length fence_open) s) = None ->
  find fence_close (tl s) = None.
Proof.
  intros E H. rewrite (startswith_skipn _ _ E).
  change fence_open with [96; 96; 96; 106; 115; 111; 110]%N.
  change fence_open with [96; 96; 96; 106; 115; 111; 110]%N in H.
  cbn [app tl]. change fence_close with [96; 96; 96]%N in *.
  cbn. cbn in H. rewrite H. reflexivity.
Qed.

Lemma search_fenced (s : str) :
  option_map strip (Re.search json_block_re s) = fenced_content s.
Proof.
  induction s as [|x s IH]; [reflexivity|].
  cbn [Re.search]. rewrite json_block_re_eq. unfold fenced_content.
  cbn [find]. destruct (startswith fence_open (x :: s)) eqn:E.
  - cbn zeta. cbn [Nat.add].
    destruct (find fence_close (skipn (List.length fence_open) (x :: s)))
      as [k|] eqn:F.
    + cbn [option_map]. rewrite strip_idem. reflexivity.
    + cbn [option_map]. rewrite (search_no_close s); [reflexivity|].
      apply (open_then_no_close (x :: s) E F).
  - rewrite IH. unfold fenced_content.
    destruct (find fence_open s) as [i|]; reflexivity.
Qed.

Lemma startswith_length (p s : str) :
  startswith p s = true -> List.length p <= List.length s.
Proof.
  intros H. apply startswith_app in H. destruct H as [r ->].
  rewrite length_app. lia.
Qed.

Lemma fenced_content_None (raw : str) :
  (forall i k, occurs_at fence_open raw i -> occurs_at fence_close raw k ->
               i + 7 <= k -> False) ->
  fenced_content raw = None.
Proof.
  intros H. unfold fenced_content.
  destruct (find fence_open raw) as [i|] eqn:Fo; [|reflexivity].
  cbn zeta.
  destruct (find fence_close (skipn (i + List.length fence_open) raw))
    as [k|] eqn:Fc; [|reflexivity].
  exfalso. apply find_Some in Fo. apply find_Some in Fc.
  destruct Fo as [[Hi1 Hi2] _]. destruct Fc as [[Hk1 Hk2] _].
  change (List.length fence_open) with 7 in *.
  apply startswith_length in Hi2 as Hl. rewrite length_skipn in Hl, Hk1.
  change (List.length fence_open) with 7 in Hl.
  apply (H i (i + 7 + k)).
  - split; assumption.
  - split; [lia|]. rewrite skipn_skipn in Hk2.
    replace (i + 7 + k) with (k + (i + 7)) by lia. exact Hk2.
  - lia.
Qed.

(** C5.  Extraction of the JSON body from the model's text.  When the text
    holds a fenced pair, with [i] the first index of the opening marker
    and [k] the offset of the first closing marker after it, the body is
    the text between the two, trimmed, whatever surrounds the pair; when
    no opening marker is followed by a closing one, the body is the whole
    text, trimmed. *)
Theorem extract_json_body_spec (raw : str) :
  (forall i k,
      first_occ fence_open raw i ->
      first_occ fence_close (skipn (i + 7) raw) k ->
      extract_json_body raw = strip (slice raw (i + 7) (i + 7 + k)))
  /\ ((forall i k, occurs_at fence_open raw i -> occurs_at fence_close raw k ->
                   i + 7 <= k -> False) ->
      extract_json_body raw = strip raw).
Proof.
  split.
  - intros i k Hi Hk. unfold extract_json_body.
    pose proof (search_fenced raw) as S. unfold fenced_content in S.
    apply find_Some in Hi. apply find_Some in Hk.
    rewrite Hi in S. cbn zeta in S.
    change (List.length fence_open) with 7 in S. rewrite Hk in S.
    unfold slice. replace (i + 7 + k - (i + 7)) with k by lia.
    destruct (Re.search json_block_re raw) as [g|]; [|discriminate].
    simpl in S. congruence.
  - intros H. unfold extract_json_body.
    pose proof (search_fenced raw) as S.
    rewrite (fenced_content_None raw H) in S.
    destruct (Re.search json_block_re raw); [discriminate | reflexivity].
Qed.

Lemma extract_json_body_spec_witness :
  extract_json_body (py "Claro: ```json { } ``` y ```json [] ```")
  = strip (slice (py "Claro: ```json { } ``` y ```json [] ```") 14 19).
Proof.
  apply (proj1 (extract_json_body_spec _) 7 5).
  - apply find_Some. vm_compute. reflexivity.
  - apply find_Some. vm_compute. reflexivity.
Defined.

Example extract_fenced :
  extract_json_body
    (py "Claro:
```json
{ }
```
listo ``` fin") = py "{ }".
Proof. vm_compute. reflexivity. Qed.

(** ** Membership *)

Lemma in_strs_In (s : str) (l : list str) : in_strs s l = true <-> In s l.
Proof.
  unfold in_strs. rewrite existsb_exists. split.
  - intros [x [Hx E]]. apply str_eqb_eq in E. subst. exact Hx.
  - intros H. exists s. split; [exact H | apply str_eqb_refl].
Qed.

Lemma in_strs_false (s : str) (l : list str) :
  ~ In s l -> in_strs s l = false.
Proof.
  intros H. destruct (in_strs s l) eqn:E; [|reflexivity].
  apply in_strs_In in E. contradiction.
Qed.

(** ** The store without a connection *)

(** C8.  With [self.db] equal to [None], each of the four operations
    returns its failure value ([None], the empty list, [False], [False])
    without raising, whatever its arguments, and leaves the world as it
    was: no clock read, no identifier parsed into a driver call, no driver
    call. *)
Theorem no_connection_fails_first `{Runtime} (w : world) :
  db_manager w = disconnected ->
  (forall d sd st, add_task d sd st w = (inr None, w))
  /\ get_all_tasks w = (inr [], w)
  /\ (forall tid d sd st, update_task tid d sd st w = (inr false, w))
  /\ (forall tid, delete_task tid w = (inr false, w)).
Proof.
  intros Hdb.
  unfold add_task, get_all_tasks, update_task, delete_task, mbind, self_db.
  rewrite Hdb. repeat split; reflexivity.
Qed.

Lemma no_connection_fails_first_witness :
  add_task (py "comprar pan") None None (demo_world disconnected)
    = (inr None, demo_world disconnected)
  /\ @get_all_tasks demo_runtime (demo_world disconnected)
    = (inr [], demo_world disconnected)
  /\ update_task (py "no-id") (Some (py "x")) None None
       (demo_world disconnected)
    = (inr false, demo_world disconnected)
  /\ delete_task (py "no-id") (demo_world disconnected)
    = (inr false, demo_world disconnected).
Proof.
  destruct (@no_connection_fails_first demo_runtime
              (demo_world disconnected) eq_refl) as [A [G [U D]]].
  split; [apply A | split; [exact G | split; [apply U | apply D]]].
Defined.

(** ** The endpoint's guard *)

(** C9.  When the body is a JSON object whose [command] is absent or
    falsy (the empty text and every other falsy value), the endpoint raises
    HTTP 400 and the world is as it was: the interpreter was not entered
    and nothing was sent to the LLM. *)
Theorem process_command_requires_command `{Runtime}
  (request : Request) (data : dict) (w : world) :
  request_json request = inr (VDict data) ->
  (dict_get data (py "command") = None
   \/ exists v, dict_get data (py "command") = Some v /\ truthy v = false) ->
  process_command request w
  = (inl (HTTPException 400 msg_field_required), w).
Proof.
  intros Hj Hc. unfold process_command, mbind, lift. rewrite Hj.
  unfold py_get, ret. destruct Hc as [-> | [v [-> Hv]]].
  - reflexivity.
  - rewrite Hv. reflexivity.
Qed.

Lemma process_command_requires_command_witness :
  @process_command demo_runtime
    {| request_json := inr (VDict [(py "command", VStr [])]) |}
    (demo_world (connected empty_mongo))
  = (inl (HTTPException 400 msg_field_required),
     demo_world (connected empty_mongo)).
Proof.
  apply (@process_command_requires_command demo_runtime _
           [(py "command", VStr [])]).
  - reflexivity.
  - right. exists (VStr []). split; reflexivity.
Defined.

(** ** The create path *)

Lemma result_set_message (st msg : str) (v : value) :
  dict_set (result st msg) (py "message") v
  = [(py "status", VStr st); (py "message", v)].
Proof.
  unfold result. cbn [dict_set].
  replace (str_eqb (py "status") (py "message")) with false
    by (vm_compute; reflexivity).
  rewrite str_eqb_refl. reflexivity.
Qed.

Lemma result_set_task_id (st : str) (msg v : value) :
  dict_set [(py "status", VStr st); (py "message", msg)] (py "task_id") v
  = [(py "status", VStr st); (py "message", msg); (py "task_id", v)].
Proof.
  cbn [dict_set].
  replace (str_eqb (py "status") (py "task_id")) with false
    by (vm_compute; reflexivity).
  replace (str_eqb (py "message") (py "task_id")) with false
    by (vm_compute; reflexivity).
  reflexivity.
Qed.

Lemma truthy_opt_Some (d : str) : d <> [] -> truthy_opt (Some d) = true.
Proof. destruct d; [contradiction | reflexivity]. Qed.

Lemma execute_create (w : world) (self : MongoDBManager) (cmd : LLMCommand)
  (d : str) :
  db_manager w = Some self ->
  action cmd = py "create" ->
  description cmd = Some d -> d <> [] ->
  execute_action cmd w
  = match add_task d (start_date cmd) (status cmd) w with
    | (inl e, w') => (inl e, w')
    | (inr task_id, w') =>
        (inr [(py "status", VStr (py "success"));
              (py "message", VStr (msg_created (Some d) task_id));
              (py "task_id", opt_value task_id)], w')
    end.
Proof.
  intros Hdb Ha Hd Hne. unfold execute_action.
  rewrite Hdb, Ha, str_eqb_refl, Hd, (truthy_opt_Some d Hne).
  cbn [negb text_of]. unfold mbind.
  destruct (add_task d (start_date cmd) (status cmd) w) as [[e|tid] w'];
    [reflexivity|].
  unfold mret. rewrite result_set_message, result_set_task_id. reflexivity.
Qed.

(** C4.  A create command with a non-empty description whose store call
    returns [None] still gets a result of status [success]; its message
    ends with the text of the null identifier, and [task_id] is null. *)
Theorem create_passes_null_id_through
  (w w' : world) (self : MongoDBManager) (cmd : LLMCommand) (d : str) :
  db_manager w = Some self ->
  action cmd = py "create" ->
  description cmd = Some d -> d <> [] ->
  add_task d (start_date cmd) (status cmd) w = (inr None, w') ->
  execute_action cmd w
  = (inr [(py "status", VStr (py "success"));
          (py "message",
           VStr (py "Tarea '" ++ d ++ py "' creada con ID: " ++ py "None"));
          (py "task_id", VNone)], w').
Proof.
  intros Hdb Ha Hd Hne Hadd.
  rewrite (execute_create w self cmd d Hdb Ha Hd Hne), Hadd. reflexivity.
Qed.

Lemma create_passes_null_id_through_witness :
  exists w',
    add_task (py "comprar pan") None None (demo_world (connected down_mongo))
    = (inr None, w')
    /\ execute_action (create_command (py "comprar pan") None)
         (demo_world (connected down_mongo))
       = (inr [(py "status", VStr (py "success"));
               (py "message",
                VStr (py "Tarea '" ++ py "comprar pan"
                      ++ py "' creada con ID: " ++ py "None"));
               (py "task_id", VNone)], w').
Proof.
  eexists. split.
  - vm_compute. reflexivity.
  - apply (create_passes_null_id_through
             (demo_world (connected down_mongo)) _
             {| db := Some down_mongo |}
             (create_command (py "comprar pan") None) (py "comprar pan")).
    + reflexivity.
    + reflexivity.
    + reflexivity.
    + discriminate.
    + vm_compute. reflexivity.
Defined.

Lemma bson_doc_get (d : dict) (k : str) :
  dict_get (bson_doc d) k = option_map bson_value (dict_get d k).
Proof.
  induction d as [|[k0 v0] d IH]; [reflexivity|].
  cbn [bson_doc List.map dict_get]. destruct (str_eqb k0 k); [reflexivity|].
  exact IH.
Qed.

Lemma bson_opt_value (o : option str) : bson_value (opt_value o) = opt_value o.
Proof. destruct o; reflexivity. Qed.

(** What [add_task] stores on a working connection: the status it was
    given, [None] included. *)
Lemma add_task_stores_given_status (w : world) (m : mongo) (d : str)
  (sd st : option str) :
  db_manager w = connected m -> fault m = None ->
  exists w' fields,
    add_task d sd st w
    = (inr (Some (hexlify (bytes_of 12 (oid_counter m)))), w')
    /\ db_manager w'
       = connected
           {| tasks := tasks m
                       ++ [(VObjectId (bytes_of 12 (oid_counter m)), fields)];
              fault := None; fault_after_write := fault_after_write m;
              oid_counter := (oid_counter m + 1)%N |}
    /\ dict_get fields (py "status") = Some (opt_value st).
Proof.
  intros Hdb Hf.
  unfold add_task, mbind, self_db, try_except, datetime_now, insert_one,
    driver_call.
  rewrite Hdb. cbn [connected db log db_manager]. rewrite Hdb.
  cbn [connected]. rewrite Hf. cbn [set_mongo db_manager mret connected].
  match goal with
  | |- context [(VObjectId _, ?f)] => set (F := f)
  end.
  eexists. exists F. split; [reflexivity|].
  split; [cbn [set_mongo db_manager]; reflexivity|]. subst F.
  assert (K : forall t : dict,
             dict_get t (py "status") = Some (opt_value st) ->
             dict_get (if truthy_opt sd
                       then dict_set t (py "start_date") (opt_value sd)
                       else t) (py "status") = Some (opt_value st)).
  { intros t Ht. destruct (truthy_opt sd); [|exact Ht].
    clear - Ht. induction t as [|[k v] t IH]; [discriminate|].
    cbn [dict_set dict_get] in *.
    destruct (str_eqb k (py "start_date")) eqn:E1.
    - apply str_eqb_eq in E1. subst k. cbn [dict_get].
      replace (str_eqb (py "start_date") (py "status")) with false in *
        by (vm_compute; reflexivity).
      exact Ht.
    - cbn [dict_get]. destruct (str_eqb k (py "status")); [exact Ht|].
      apply IH. exact Ht. }
  rewrite bson_doc_get.
  erewrite K; [cbn [option_map]; rewrite bson_opt_value; reflexivity|].
  cbn [dict_get].
  replace (str_eqb (py "description") (py "status")) with false
    by (vm_compute; reflexivity).
  replace (str_eqb (py "created_at") (py "status")) with false
    by (vm_compute; reflexivity).
  rewrite str_eqb_refl. reflexivity.
Qed.

(** C3.  A create command without a status, on an empty collection with
    a working connection: the document stored has the status [None], not
    [pending]. *)
Theorem create_without_status_stores_none :
  match db_manager
          (snd (execute_action (create_command (py "comprar pan") None)
                  (demo_world (connected empty_mongo)))) with
  | Some {| db := Some m |} =>
      List.map (fun doc => dict_get (snd doc) (py "status")) (tasks m)
      = [Some VNone]
  | _ => False
  end.
Proof. vm_compute. reflexivity. Qed.

(** ** The action check *)

Lemma not_valid_action (v : value) :
  (forall a, In a valid_actions -> v <> VStr a) ->
  value_in_strs v valid_actions = false.
Proof.
  intros H. destruct v; try reflexivity. cbn [value_in_strs].
  apply in_strs_false. intros Hin. apply (H s Hin). reflexivity.
Qed.

(** ** Dictionaries *)

Lemma str_eqb_neq (a b : str) : a <> b -> str_eqb a b = false.
Proof.
  intros H. destruct (str_eqb a b) eqn:E; [|reflexivity].
  apply str_eqb_eq in E. contradiction.
Qed.

Lemma dict_get_set {V : Type} (d : list (str * V)) (k k' : str) (v : V) :
  dict_get (dict_set d k v) k'
  = if str_eqb k k' then Some v else dict_get d k'.
Proof.
  induction d as [|[k0 v0] d IH]; cbn [dict_set dict_get].
  - reflexivity.
  - destruct (str_eqb k0 k) eqn:E0; cbn [dict_get].
    + apply str_eqb_eq in E0. subst k0.
      destruct (str_eqb k k'); reflexivity.
    + destruct (str_eqb k0 k') eqn:E1.
      * apply str_eqb_eq in E1. subst k0.
        rewrite str_eqb_neq; [reflexivity|].
        intros ->. rewrite str_eqb_refl in E0. discriminate.
      * exact IH.
Qed.

Ltac key_false :=
  repeat match goal with
    | |- context [str_eqb (py ?a) (py ?b)] =>
        let t := constr:(str_eqb (py a) (py b)) in
        let r := eval vm_compute in t in
        replace t with r by (vm_compute; reflexivity)
    end.

(** ** Listing *)

Lemma task_view_lists `{Runtime} (doc : document) :
  hashable_status doc ->
  exists view, task_view (doc_dict doc) = inr view /\ lists_as doc view.
Proof.
  destruct doc as [id fields]. unfold hashable_status, task_view, doc_dict.
  cbn [fst snd]. intros Hh.
  cbn [py_getitem dict_get]. rewrite str_eqb_refl. cbn [bind ret].
  cbn [dict_set]. rewrite str_eqb_refl. cbn [dict_get]. key_false.
  set (st := dict_get fields (py "status")) in *.
  set (d1 := (py "_id", VStr (format_value id)) :: fields).
  assert (G1 : forall k, k <> py "_id" -> dict_get d1 k = dict_get fields k).
  { intros k Hk. unfold d1. cbn [dict_get].
    rewrite str_eqb_neq; [reflexivity | congruence]. }
  assert (G0 : dict_get d1 (py "_id") = Some (VStr (format_value id))).
  { unfold d1. cbn [dict_get]. rewrite str_eqb_refl. reflexivity. }
  assert (Hin : exists b,
             in_status_set (match st with Some v => v | None => VNone end)
             = inr b
             /\ (if b then exists s, st = Some (VStr s)
                                     /\ in_strs s valid_statuses = true
                 else listed_status st = py "pending")).
  { unfold in_status_set, listed_status, ret.
    destruct st as [[| | | |s| | | |]|]; try contradiction;
      try (exists false; split; reflexivity).
    cbn [value_in_strs]. destruct (in_strs s valid_statuses) eqn:E.
    - exists true. split; [reflexivity|]. exists s. auto.
    - exists false. split; reflexivity. }
  destruct Hin as [b [-> Hb]]. cbn [bind].
  set (d2 := if negb b then dict_set d1 (py "status") (VStr (py "pending"))
             else d1).
  assert (G2 : forall k, k <> py "status" -> dict_get d2 k = dict_get d1 k).
  { intros k Hk. unfold d2. destruct b; cbn [negb]; [reflexivity|].
    rewrite dict_get_set, str_eqb_neq; [reflexivity | congruence]. }
  assert (S2 : dict_get d2 (py "status") = Some (VStr (listed_status st))).
  { unfold d2. destruct b; cbn [negb].
    - destruct Hb as [s [Hs Hv]]. rewrite G1 by (vm_compute; discriminate).
      fold st. rewrite Hs. unfold listed_status. rewrite Hv. reflexivity.
    - rewrite dict_get_set, str_eqb_refl, Hb. reflexivity. }
  assert (C2 : dict_get d2 (py "created_at")
               = dict_get fields (py "created_at")).
  { rewrite G2, G1 by (vm_compute; discriminate). reflexivity. }
  eexists. split; [reflexivity|].
  unfold lists_as. cbn [fst snd]. fold st. rewrite C2.
  destruct (dict_get fields (py "created_at")) as [[| | | | | | |t|]|] eqn:Ec;
    cbn [listed_created_at];
    try (repeat split;
         [ rewrite G2 by (vm_compute; discriminate); exact G0
         | exact S2
         | rewrite G2, G1 by (vm_compute; discriminate); exact Ec
         | intros k K1 K2 K3; rewrite G2, G1 by assumption; reflexivity ]).
  repeat split.
  - rewrite dict_get_set. key_false.
    rewrite G2 by (vm_compute; discriminate). exact G0.
  - rewrite dict_get_set. key_false. exact S2.
  - rewrite dict_get_set, str_eqb_refl. reflexivity.
  - intros k K1 K2 K3. rewrite dict_get_set, str_eqb_neq by congruence.
    rewrite G2, G1 by assumption. reflexivity.
Qed.

Lemma task_views_list `{Runtime} (docs : list document) :
  Forall hashable_status docs ->
  exists views,
    task_views (List.map doc_dict docs) = inr views
    /\ Forall2 lists_as docs views.
Proof.
  induction 1 as [|doc docs Hd _ IH].
  - exists []. split; [reflexivity | constructor].
  - destruct (task_view_lists doc Hd) as [v [Ev Lv]].
    destruct IH as [vs [Evs Lvs]]. exists (v :: vs).
    cbn [List.map task_views]. rewrite Ev. cbn [bind]. rewrite Evs.
    split; [reflexivity | constructor; assumption].
Qed.



Lemma get_all_tasks_connected `{Runtime} (w : world) (m : mongo) :
  db_manager w = connected m -> fault m = None ->
  Forall hashable_status (tasks m) ->
  exists views,
    get_all_tasks w = (inr views, log EvFind w)
    /\ Forall2 lists_as (tasks m) views
    /\ task_views (List.map doc_dict (tasks m)) = inr views.
Proof.
  intros Hdb Hf Hh. destruct (task_views_list (tasks m) Hh) as [vs [Ev Lv]].
  exists vs. split; [|split; [exact Lv | exact Ev]].
  unfold get_all_tasks, mbind, self_db, try_except, find_all, driver_call,
    lift, mret.
  rewrite Hdb. cbn [connected db]. rewrite Hdb. cbn [connected].
  rewrite Hf, Ev. f_equal. unfold set_mongo, log. cbn. rewrite Hdb.
  reflexivity.
Qed.

(** ** The interpreter *)

Lemma bind_inr {A B : Type} (m : E A) (k : A -> E B) (b : B) :
  bind m k = inr b -> exists a, m = inr a /\ k a = inr b.
Proof. destruct m as [e|a]; [discriminate|]. intros Hk. exists a. auto. Qed.

(** The template's braces are balanced: formatting never raises. *)
Lemma format_prompt_returns `{Runtime} (user_prompt : value) :
  exists formatted_prompt, format_prompt user_prompt = inr formatted_prompt.
Proof. eexists. vm_compute. reflexivity. Qed.

Lemma failure_message_nonempty `{Runtime} (m : str) :
  failure_message m -> m <> [].
Proof.
  intros [-> | [-> | [-> | [-> | [[v ->] | [[c ->] | ->]]]]]];
    vm_compute; discriminate.
Qed.

Lemma unknown_well_formed (m : str) : well_formed (unknown_command m).
Proof.
  split; [|exact I]. cbn [action unknown_command]. unfold valid_actions.
  do 4 right. left. reflexivity.
Qed.

Lemma handled_failure `{Runtime} (e : exn) :
  exists m, handled e = unknown_command m /\ failure_message m.
Proof.
  destruct e; cbn [handled];
    try (exists msg_unexpected; split; [reflexivity|];
         do 6 right; reflexivity).
  exists (msg_http_status status_code). split; [reflexivity|].
  do 5 right. left. exists status_code. reflexivity.
Qed.

Lemma validate_literal_In (allowed : list str) (v : value) (s : str) :
  validate_literal allowed v = inr s -> In s allowed.
Proof.
  destruct v; try discriminate. cbn [validate_literal].
  destruct (in_strs s0 allowed) eqn:E; [|discriminate].
  intros [= <-]. apply in_strs_In. exact E.
Qed.

Lemma LLMCommand_init_well_formed `{Runtime} (kw : dict) (c : LLMCommand) :
  LLMCommand_init kw = inr c -> well_formed c.
Proof.
  unfold LLMCommand_init. intros H0.
  apply bind_inr in H0. destruct H0 as [a [Ha H0]].
  apply bind_inr in H0. destruct H0 as [t [_ H0]].
  apply bind_inr in H0. destruct H0 as [d [_ H0]].
  apply bind_inr in H0. destruct H0 as [sd [_ H0]].
  apply bind_inr in H0. destruct H0 as [st [Hst H0]].
  apply bind_inr in H0. destruct H0 as [m [_ H0]].
  injection H0 as <-. split; cbn [action status].
  - destruct (dict_get kw (py "action")); [|discriminate].
    apply (validate_literal_In _ _ _ Ha).
  - unfold validate_opt_literal in Hst.
    destruct (dict_get kw (py "status")) as [v|]; [|injection Hst as <-; exact I].
    destruct v; try (injection Hst as <-; exact I);
      apply bind_inr in Hst; destruct Hst as [s' [Hs' Hst]];
      injection Hst as <-; apply (validate_literal_In _ _ _ Hs').
Qed.

Lemma interpret_clean_cases `{Runtime} (clean : dict) (c : LLMCommand) :
  interpret_clean clean = inr c ->
  (exists m, c = unknown_command m /\ failure_message m)
  \/ LLMCommand_init clean = inr c.
Proof.
  unfold interpret_clean.
  assert (A : @inr exn _ (unknown_command msg_no_action) = inr c ->
              (exists m, c = unknown_command m /\ failure_message m)
              \/ LLMCommand_init clean = inr c).
  { intros [= <-]. left. exists msg_no_action. split; [reflexivity|].
    do 3 right. left. reflexivity. }
  destruct (dict_get clean (py "action")) as [v|]; [|exact A].
  destruct v; try exact A;
    match goal with
    | |- context [value_in_strs ?v _] =>
        destruct (value_in_strs v valid_actions); cbn [negb];
        [ intros Hc; right; exact Hc
        | intros [= <-]; left; exists (msg_bad_action v);
          split; [reflexivity|]; do 4 right; left; exists v; reflexivity ]
    end.
Qed.

Lemma interpret_text_cases `{Runtime} (raw_text : value) (c : LLMCommand) :
  interpret_text raw_text = inr c ->
  (exists m, c = unknown_command m /\ failure_message m)
  \/ exists raw items,
      raw_text = VStr raw
      /\ json_loads (extract_json_body raw) = inr (VDict items)
      /\ LLMCommand_init (sanitize_keys items) = inr c.
Proof.
  destruct raw_text as [| | | |raw| | | |]; try discriminate.
  unfold interpret_text.
  assert (J : @inr exn _ (unknown_command msg_bad_json) = inr c ->
              exists m, c = unknown_command m /\ failure_message m).
  { intros [= <-]. exists msg_bad_json. split; [reflexivity|].
    do 2 right. left. reflexivity. }
  destruct (json_loads (extract_json_body raw)) as [e|parsed] eqn:L;
    cbn [bind].
  - destruct e; try discriminate. intros Hc. left. exact (J Hc).
  - unfold interpret_parsed.
    destruct parsed as [| | | | | |items| |]; cbn [py_items bind raise ret];
      try discriminate.
    destruct (interpret_clean (sanitize_keys items)) as [e|c'] eqn:C.
    + destruct e; try discriminate. intros Hc. left. exact (J Hc).
    + intros [= <-]. destruct (interpret_clean_cases _ _ C) as [F|I].
      * left. exact F.
      * right. exists raw, items. auto.
Qed.

Lemma raise_for_status_2xx (r : http_response) :
  (200 <= resp_status_code r < 300)%Z -> raise_for_status r = inr tt.
Proof.
  intros [H1 H2]. unfold raise_for_status.
  apply Z.leb_le in H1. apply Z.ltb_lt in H2. rewrite H1, H2. reflexivity.
Qed.

Lemma raise_for_status_other (r : http_response) :
  ~ (200 <= resp_status_code r < 300)%Z ->
  raise_for_status r = inl (HTTPStatusError (resp_status_code r) (resp_text r)).
Proof.
  intros Hn. unfold raise_for_status.
  destruct (200 <=? resp_status_code r)%Z eqn:H1;
    destruct (resp_status_code r <? 300)%Z eqn:H2; try reflexivity.
  exfalso. apply Hn. split; [apply Z.leb_le | apply Z.ltb_lt]; assumption.
Qed.

Lemma interpret_response_cases `{Runtime} (r : http_response)
  (c : LLMCommand) :
  interpret_response r = inr c ->
  (exists m, c = unknown_command m /\ failure_message m)
  \/ interpreted r c.
Proof.
  unfold interpret_response. intros H0.
  apply bind_inr in H0. destruct H0 as [[] [Hs H0]].
  apply bind_inr in H0. destruct H0 as [result [Hj H0]].
  apply bind_inr in H0. destruct H0 as [ok [Hok H0]].
  destruct ok.
  - apply bind_inr in H0. destruct H0 as [raw_text [Ht H0]].
    destruct (interpret_text_cases _ _ H0) as [F|[raw [items [-> [L I]]]]].
    + left. exact F.
    + right. split.
      * unfold raise_for_status in Hs.
        destruct (200 <=? resp_status_code r)%Z eqn:H1;
          destruct (resp_status_code r <? 300)%Z eqn:H2; try discriminate.
        split; [apply Z.leb_le | apply Z.ltb_lt]; assumption.
      * exists result, raw, items. auto.
  - injection H0 as <-. left. exists msg_no_candidates.
    split; [reflexivity|]. right. left. reflexivity.
Qed.

Lemma interpret_response_well_formed `{Runtime} (r : http_response)
  (c : LLMCommand) :
  interpret_response r = inr c -> well_formed c.
Proof.
  intros H0. destruct (interpret_response_cases _ _ H0) as [[m [-> _]]|I].
  - apply unknown_well_formed.
  - destruct I as [_ [result [raw [items [_ [_ [_ [_ I]]]]]]]].
    apply (LLMCommand_init_well_formed _ _ I).
Qed.

Lemma call_llm_for_command_eq `{Runtime} (user_prompt : value) (w : world) :
  exists formatted_prompt,
    format_prompt user_prompt = inr formatted_prompt
    /\ call_llm_for_command user_prompt w
       = match api_key_of w with
         | [] => (inr (unknown_command msg_no_api_key), w)
         | _ :: _ =>
             (inr (outcome_command
                     (llm w (api_key_of w) formatted_prompt)),
              log (EvLlmPost (api_key_of w) formatted_prompt) w)
         end.
Proof.
  destruct (format_prompt_returns user_prompt) as [fp Hfp].
  exists fp. split; [exact Hfp|].
  unfold call_llm_for_command, mbind, lift, getenv_api_key. rewrite Hfp.
  destruct (api_key_of w) as [|k0 key] eqn:K; [reflexivity|].
  cbn [truthy negb]. unfold try_except, client_post, mbind, lift,
    llm_handlers, mret, outcome_command.
  destruct (llm w (k0 :: key) fp) as [e|r]; [reflexivity|].
  destruct (interpret_response r); reflexivity.
Qed.

(** Without the prints, [call_llm_for_command] returns a command on
    every input and for every behaviour of the environment and of the
    endpoint.  The command is well formed.  Without an API key it is
    [unknown] with the configuration message, and nothing is sent; when
    the POST raises, or the status is not 2xx, or the body is not JSON, it
    is [unknown] with the message of the handler (the status for an HTTP
    status error, the generic one otherwise); and in every case but the
    one where each stage succeeds, it is [unknown] with a non-empty
    message of the failure paths. *)
Lemma call_llm_for_command_quiet_total `{Runtime}
  (user_prompt : value) (w : world) :
  exists cmd formatted_prompt,
    let key := api_key_of w in
    call_llm_for_command user_prompt w
    = (inr cmd,
       if truthy (VStr key) then log (EvLlmPost key formatted_prompt) w
       else w)
    /\ well_formed cmd
    /\ ((exists m, cmd = unknown_command m /\ failure_message m /\ m <> [])
        \/ (exists r, key <> []
                      /\ llm w key formatted_prompt = Responds r
                      /\ interpreted r cmd))
    /\ (key = [] -> cmd = unknown_command msg_no_api_key)
    /\ (key <> [] -> forall e,
          llm w key formatted_prompt = PostRaises e -> cmd = handled e)
    /\ (key <> [] -> forall r,
          llm w key formatted_prompt = Responds r ->
          ~ (200 <= resp_status_code r < 300)%Z ->
          cmd = unknown_command (msg_http_status (resp_status_code r)))
    /\ (key <> [] -> forall r e,
          llm w key formatted_prompt = Responds r ->
          (200 <= resp_status_code r < 300)%Z ->
          resp_json r = inl e -> cmd = handled e).
Proof.
  destruct (call_llm_for_command_eq user_prompt w) as [fp [Hfp Hcall]].
  cbn zeta. rewrite Hcall. clear Hcall.
  destruct (api_key_of w) as [|k0 key] eqn:K.
  - exists (unknown_command msg_no_api_key), fp.
    split; [reflexivity|]. split; [apply unknown_well_formed|].
    split; [left; exists msg_no_api_key; split; [reflexivity|];
            split; [left; reflexivity | vm_compute; discriminate]|].
    split; [reflexivity|].
    repeat split; intros Hk; contradiction.
  - exists (outcome_command (llm w (k0 :: key) fp)), fp.
    split; [reflexivity|].
    assert (F : forall e,
               well_formed (handled e)
               /\ exists m, handled e = unknown_command m
                            /\ failure_message m /\ m <> []).
    { intros e. destruct (handled_failure e) as [m [-> Fm]].
      split; [apply unknown_well_formed|]. exists m.
      split; [reflexivity|]. split; [exact Fm|].
      apply (failure_message_nonempty m Fm). }
    unfold outcome_command.
    destruct (llm w (k0 :: key) fp) as [e|r] eqn:L.
    + split; [apply F|]. split; [left; apply F|].
      split; [discriminate|]. split; [intros _ e' [= <-]; reflexivity|].
      split; intros _ r'; intros; discriminate.
    + destruct (interpret_response r) as [e|c] eqn:I.
      * split; [apply F|]. split; [left; apply F|].
        split; [discriminate|]. split; [intros _ e'; discriminate|].
        split.
        -- intros _ r' [= <-] Hn. unfold interpret_response in I.
           rewrite (raise_for_status_other r Hn) in I.
           injection I as <-. reflexivity.
        -- intros _ r' e' [= <-] Hs Hj. unfold interpret_response in I.
           rewrite (raise_for_status_2xx r Hs), Hj in I.
           injection I as <-. reflexivity.
      * split; [apply (interpret_response_well_formed r c I)|].
        split.
        -- destruct (interpret_response_cases r c I) as [[m [-> Fm]]|Hi].
           ++ left. exists m. split; [reflexivity|]. split; [exact Fm|].
              apply (failure_message_nonempty m Fm).
           ++ right. exists r. split; [discriminate|]. auto.
        -- split; [discriminate|]. split; [intros _ e'; discriminate|].
           split.
           ++ intros _ r' [= <-] Hn. unfold interpret_response in I.
              rewrite (raise_for_status_other r Hn) in I. discriminate.
           ++ intros _ r' e' [= <-] Hs Hj. unfold interpret_response in I.
              rewrite (raise_for_status_2xx r Hs), Hj in I. discriminate.
Qed.

(** ** The dispatcher *)

Ltac differs :=
  let E := fresh "E" in
  intros E; apply (f_equal result_mark) in E; vm_compute in E;
  discriminate E.

Lemma execute_action_dispatched (cmd : LLMCommand) (w : world) :
  In (action cmd) valid_actions ->
  fst (execute_action cmd w) <> inr (result (py "error") msg_unrecognized).
Proof.
  intros Hin. unfold execute_action.
  destruct (db_manager w) as [self|]; [|cbn [mret fst]; differs].
  unfold valid_actions in Hin. cbn [In] in Hin.
  destruct Hin as [<- | [<- | [<- | [<- | [<- | []]]]]]; key_false;
    cbv iota.
  - destruct (truthy_opt (description cmd)); cbn [negb];
      [|cbn [mret fst]; differs].
    unfold mbind.
    destruct (add_task _ _ _ w) as [[e|tid] w']; cbn [mret fst];
      [discriminate | differs].
  - cbn [mret fst]. differs.
  - destruct (truthy_opt (task_id cmd)); cbn [negb];
      [|cbn [mret fst]; differs].
    destruct (truthy_opt (description cmd) || truthy_opt (start_date cmd)
              || truthy_opt (status cmd)); cbn [negb];
      [|cbn [mret fst]; differs].
    unfold mbind.
    destruct (update_task _ _ _ _ w) as [[e|[|]] w']; cbn [mret fst];
      [discriminate | differs | differs].
  - destruct (truthy_opt (task_id cmd)); cbn [negb];
      [|cbn [mret fst]; differs].
    unfold mbind.
    destruct (delete_task _ w) as [[e|[|]] w']; cbn [mret fst];
      [discriminate | differs | differs].
  - cbn [mret fst]. differs.
Qed.

(** The catch-all branch is there: a command whose action is none of the
    five reaches it. *)
Lemma execute_action_catch_all (cmd : LLMCommand) (w : world)
  (self : MongoDBManager) :
  db_manager w = Some self -> ~ In (action cmd) valid_actions ->
  execute_action cmd w = (inr (result (py "error") msg_unrecognized), w).
Proof.
  intros Hdb Hn. unfold execute_action. rewrite Hdb.
  assert (N : forall a, In a valid_actions -> str_eqb (action cmd) a = false).
  { intros a Ha. apply str_eqb_neq. intros E. apply Hn. rewrite E. exact Ha. }
  unfold valid_actions in N.
  rewrite (N (py "create")) by (left; reflexivity).
  rewrite (N (py "read")) by (right; left; reflexivity).
  rewrite (N (py "update")) by (do 2 right; left; reflexivity).
  rewrite (N (py "delete")) by (do 3 right; left; reflexivity).
  rewrite (N (py "unknown")) by (do 4 right; left; reflexivity).
  reflexivity.
Qed.

Lemma call_llm_for_command_well_formed `{Runtime}
  (user_prompt : value) (w : world) :
  exists cmd w',
    call_llm_for_command user_prompt w = (inr cmd, w') /\ well_formed cmd.
Proof.
  destruct (call_llm_for_command_eq user_prompt w) as [fp [_ Hcall]].
  destruct (api_key_of w) as [|k0 key].
  - exists (unknown_command msg_no_api_key), w.
    split; [exact Hcall | apply unknown_well_formed].
  - exists (outcome_command (llm w (k0 :: key) fp)),
      (log (EvLlmPost (k0 :: key) fp) w).
    split; [exact Hcall|].
    destruct (llm w (k0 :: key) fp) as [e|r]; cbn [outcome_command].
    + destruct (handled_failure e) as [m [-> _]]. apply unknown_well_formed.
    + destruct (interpret_response r) as [e|c] eqn:I.
      * destruct (handled_failure e) as [m [-> _]].
        apply unknown_well_formed.
      * apply (interpret_response_well_formed r c I).
Qed.

(** C10.  Every run of the interpreter ends with a command whose action
    is one of the five values, and on such a command the dispatcher never
    returns the result of its last branch (status [error], message
    [msg_unrecognized]), whatever the world. *)
Theorem catch_all_unreachable `{Runtime} (user_prompt : value) (w : world) :
  exists cmd w',
    call_llm_for_command user_prompt w = (inr cmd, w')
    /\ In (action cmd) valid_actions
    /\ forall w2,
        fst (execute_action cmd w2)
        <> inr (result (py "error") msg_unrecognized).
Proof.
  destruct (call_llm_for_command_well_formed user_prompt w)
    as [cmd [w' [Hcall [Ha _]]]].
  exists cmd, w'. split; [exact Hcall|]. split; [exact Ha|].
  intros w2. exact (execute_action_dispatched cmd w2 Ha).
Qed.

(** An empty status is no status: the description is written. *)
Example update_task_empty_status :
  fst (update_task (hexlify (bytes_of 12 7)) (Some (py "comprar leche")) None
         (Some []) (demo_world (connected one_task_mongo)))
  = inr true.
Proof. vm_compute. reflexivity. Qed.

(* ================================================================== *)
(** * Further properties of the store *)
(* ================================================================== *)

Lemma add_task_connected (w : world) (m : mongo) (d : str)
  (sd st : option str) :
  db_manager w = connected m ->
  add_task d sd st w
  = let td := new_task_data d sd st (clock w) in
    let w1 := log (EvInsert td) (log EvClock w) in
    let m1 := {| tasks := tasks m
                          ++ [(VObjectId (bytes_of 12 (oid_counter m)),
                               bson_doc td)];
                 fault := fault m;
                 fault_after_write := fault_after_write m;
                 oid_counter := (oid_counter m + 1)%N |} in
    match fault m with
    | Some _ => (inr None, after_fault m m1 w1)
    | None =>
        (inr (Some (hexlify (bytes_of 12 (oid_counter m)))), set_mongo m1 w1)
    end.
Proof.
  intros Hdb.
  unfold add_task, mbind, self_db, try_except, datetime_now, insert_one,
    driver_call, new_task_data.
  rewrite Hdb. cbn [connected db log db_manager]. rewrite Hdb.
  cbn [connected]. destruct (fault m); reflexivity.
Qed.

Lemma update_task_connected (w : world) (m : mongo) (tid : str)
  (d sd st : option str) :
  db_manager w = connected m ->
  update_task tid d sd st w
  = match update_fields d sd st with
    | None => (inr false, w)
    | Some [] => (inr false, w)
    | Some fields =>
        match ObjectId tid with
        | inl _ => (inr false, w)
        | inr oid =>
            let w1 := log (EvUpdate oid fields) w in
            let (n, docs) := update_first oid fields (tasks m) in
            let m1 := {| tasks := docs; fault := fault m;
                         fault_after_write := fault_after_write m;
                         oid_counter := oid_counter m |} in
            match fault m with
            | Some _ => (inr false, after_fault m m1 w1)
            | None => (inr (0 <? n), set_mongo m1 w1)
            end
        end
    end.
Proof.
  intros Hdb. unfold update_task, mbind, self_db. rewrite Hdb.
  cbn [connected db].
  destruct (update_fields d sd st) as [[|f fs]|]; try reflexivity.
  unfold try_except, mbind, lift, update_one, driver_call, mret.
  destruct (ObjectId tid) as [e|oid]; [reflexivity|].
  rewrite Hdb. cbn [connected].
  destruct (update_first oid (f :: fs) (tasks m)).
  destruct (fault m); reflexivity.
Qed.

Lemma delete_task_connected (w : world) (m : mongo) (tid : str) :
  db_manager w = connected m ->
  delete_task tid w
  = match ObjectId tid with
    | inl _ => (inr false, w)
    | inr oid =>
        let w1 := log (EvDelete oid) w in
        let (n, docs) := delete_first oid (tasks m) in
        let m1 := {| tasks := docs; fault := fault m;
                     fault_after_write := fault_after_write m;
                     oid_counter := oid_counter m |} in
        match fault m with
        | Some _ => (inr false, after_fault m m1 w1)
        | None => (inr (0 <? n), set_mongo m1 w1)
        end
    end.
Proof.
  intros Hdb. unfold delete_task, mbind, self_db. rewrite Hdb.
  cbn [connected db].
  unfold try_except, mbind, lift, delete_one, driver_call, mret.
  destruct (ObjectId tid) as [e|oid]; [reflexivity|].
  rewrite Hdb. cbn [connected].
  destruct (delete_first oid (tasks m)).
  destruct (fault m); reflexivity.
Qed.

Lemma get_all_tasks_eq `{Runtime} (w : world) (m : mongo) :
  db_manager w = connected m ->
  get_all_tasks w
  = match fault m with
    | Some _ => (inr [], after_fault m m (log EvFind w))
    | None =>
        (inr match task_views (List.map doc_dict (tasks m)) with
             | inr views => views
             | inl _ => []
             end, log EvFind w)
    end.
Proof.
  intros Hdb.
  unfold get_all_tasks, mbind, self_db, try_except, find_all, driver_call,
    lift, mret.
  rewrite Hdb. cbn [connected db]. rewrite Hdb. cbn [connected].
  destruct (fault m) eqn:Hf; [reflexivity|].
  assert (Hw : set_mongo m (log EvFind w) = log EvFind w).
  { unfold set_mongo, log. cbn. rewrite Hdb. reflexivity. }
  rewrite Hw. destruct (task_views (List.map doc_dict (tasks m))); reflexivity.
Qed.

Lemma connected_cases (w : world) (self : MongoDBManager) :
  db_manager w = Some self ->
  db_manager w = disconnected \/ exists m, db_manager w = connected m.
Proof.
  intros ->. destruct self as [[m|]]; [right; exists m | left]; reflexivity.
Qed.

Lemma store_returns `{Runtime}
  (w : world) (self : MongoDBManager) :
  db_manager w = Some self ->
  (forall d sd st, exists r w', add_task d sd st w = (inr r, w'))
  /\ (exists r w', get_all_tasks w = (inr r, w'))
  /\ (forall tid d sd st, exists r w', update_task tid d sd st w = (inr r, w'))
  /\ (forall tid, exists r w', delete_task tid w = (inr r, w')).
Proof.
  intros Hdb. destruct (connected_cases w self Hdb) as [Hd | [m Hm]].
  - unfold add_task, get_all_tasks, update_task, delete_task, mbind, self_db.
    rewrite Hd. cbn [disconnected db]. unfold mret.
    split; [intros; eauto|]. split; [eauto|]. split; intros; eauto.
  - split; [|split; [|split]].
    + intros d sd st. rewrite (add_task_connected w m d sd st Hm). cbn zeta.
      destruct (fault m); eauto.
    + rewrite (get_all_tasks_eq w m Hm). destruct (fault m); eauto.
    + intros tid d sd st. rewrite (update_task_connected w m tid d sd st Hm).
      destruct (update_fields d sd st) as [[|f fs]|]; eauto.
      destruct (ObjectId tid); eauto. cbn zeta.
      destruct (update_first l (f :: fs) (tasks m)). destruct (fault m); eauto.
    + intros tid. rewrite (delete_task_connected w m tid Hm).
      destruct (ObjectId tid); eauto. cbn zeta.
      destruct (delete_first l (tasks m)). destruct (fault m); eauto.
Qed.

Lemma ObjectId_length (task_id : str) :
  List.length task_id <> 24 -> ObjectId task_id = inl InvalidId.
Proof.
  intros Hn. unfold ObjectId.
  destruct (Nat.eqb (List.length task_id) 24) eqn:E; [|reflexivity].
  apply Nat.eqb_eq in E. contradiction.
Qed.

(** X4.  An update that names no non-empty field returns [False] with the
    world as it was, whatever the identifier. *)
Theorem update_without_fields_is_refused
  (w : world) (self : MongoDBManager) (task_id : str)
  (d sd st : option str) :
  db_manager w = Some self ->
  truthy_opt d = false -> truthy_opt sd = false -> truthy_opt st = false ->
  update_task task_id d sd st w = (inr false, w).
Proof.
  intros Hdb Hd Hsd Hst. unfold update_task, mbind, self_db. rewrite Hdb.
  destruct (db self); [|reflexivity].
  unfold update_fields.
  destruct d as [[|? ?]|]; try discriminate;
    destruct sd as [[|? ?]|]; try discriminate;
    destruct st as [[|? ?]|]; try discriminate; reflexivity.
Qed.

Lemma update_without_fields_is_refused_witness :
  update_task (hexlify (bytes_of 12 7)) (Some []) None None
    (demo_world (connected one_task_mongo))
  = (inr false, demo_world (connected one_task_mongo)).
Proof.
  apply (update_without_fields_is_refused
           (demo_world (connected one_task_mongo))
           {| db := Some one_task_mongo |}); reflexivity.
Defined.

(** ** What an update and a deletion change *)

Lemma is_id_true (oid : list N) (doc : document) :
  is_id oid doc = true <-> fst doc = VObjectId oid.
Proof.
  unfold is_id. destruct (fst doc); try (split; [discriminate | congruence]).
  rewrite str_eqb_eq. split; [congruence | intros [= ->]; reflexivity].
Qed.

Lemma is_id_false (oid : list N) (doc : document) :
  is_id oid doc = false <-> fst doc <> VObjectId oid.
Proof.
  rewrite <- is_id_true. destruct (is_id oid doc); split; congruence.
Qed.

Lemma update_first_spec (oid : list N) (fields : list (str * str))
  (docs : list document) :
  let (n, docs') := update_first oid fields docs in
  List.map fst docs' = List.map fst docs
  /\ ((n = 0 /\ docs' = docs)
      \/ (n = 1 /\ exists pre doc post,
             docs = pre ++ doc :: post
             /\ Forall (fun x => fst x <> VObjectId oid) pre
             /\ fst doc = VObjectId oid
             /\ docs' = pre ++ apply_set doc fields :: post)).
Proof.
  induction docs as [|doc rest IH]; cbn [update_first].
  - split; [reflexivity | left; auto].
  - destruct (is_id oid doc) eqn:Hid.
    + destruct (set_changes doc fields).
      * split; [reflexivity|]. right. split; [reflexivity|].
        exists [], doc, rest. repeat split; try constructor.
        apply is_id_true. exact Hid.
      * split; [reflexivity | left; auto].
    + destruct (update_first oid fields rest) as [n rest'].
      destruct IH as [Hm IH]. split; [cbn [List.map]; congruence|].
      destruct IH as [[-> ->] | [-> [pre [d0 [post [-> [Hp [Hd ->]]]]]]]].
      * left. auto.
      * right. split; [reflexivity|]. exists (doc :: pre), d0, post.
        repeat split; auto. constructor; [apply is_id_false; exact Hid|].
        exact Hp.
Qed.

Lemma delete_first_spec (oid : list N) (docs : list document) :
  let (n, docs') := delete_first oid docs in
  (n = 0 /\ docs' = docs /\ Forall (fun x => fst x <> VObjectId oid) docs)
  \/ (n = 1 /\ exists pre doc post,
         docs = pre ++ doc :: post
         /\ Forall (fun x => fst x <> VObjectId oid) pre
         /\ fst doc = VObjectId oid
         /\ docs' = pre ++ post).
Proof.
  induction docs as [|doc rest IH]; cbn [delete_first].
  - left. auto.
  - destruct (is_id oid doc) eqn:Hid.
    + right. split; [reflexivity|]. exists [], doc, rest.
      repeat split; try constructor. apply is_id_true. exact Hid.
    + destruct (delete_first oid rest) as [n rest'].
      apply is_id_false in Hid.
      destruct IH as [[-> [-> Hf]] | [-> [pre [d0 [post [-> [Hp [Hd ->]]]]]]]].
      * left. auto.
      * right. split; [reflexivity|]. exists (doc :: pre), d0, post.
        repeat split; auto.
Qed.

Lemma dict_get_app {V : Type} (a b : list (str * V)) (k : str) :
  dict_get (a ++ b) k
  = match dict_get a k with
    | Some v => Some v
    | None => dict_get b k
    end.
Proof.
  induction a as [|[k0 v0] a IH]; [reflexivity|].
  cbn [app dict_get]. destruct (str_eqb k0 k); [reflexivity | exact IH].
Qed.

Lemma fold_set_get (fields : list (str * str)) (d : dict) (k : str) :
  dict_get (fold_left (fun d kv => dict_set d (fst kv) (VStr (snd kv)))
                      fields d) k
  = match dict_get (rev fields) k with
    | Some v => Some (VStr v)
    | None => dict_get d k
    end.
Proof.
  revert d. induction fields as [|[k0 v0] rest IH]; intros d; [reflexivity|].
  cbn [fold_left rev fst snd]. rewrite IH, dict_get_app, dict_get_set.
  destruct (dict_get (rev rest) k); [reflexivity|].
  cbn [dict_get]. destruct (str_eqb k0 k); reflexivity.
Qed.

Lemma update_fields_lookup (d sd st : option str) (fields : list (str * str))
  (k : str) :
  update_fields d sd st = Some fields ->
  dict_get (rev fields) k = requested d sd st k.
Proof.
  unfold update_fields, requested, supplied.
  destruct d as [[|d0 d1]|]; destruct sd as [[|s0 s1]|];
    destruct st as [[|t0 t1]|]; cbn [truthy_opt dict_set];
    key_false; cbv iota; cbn [dict_set]; key_false; cbv iota;
    try (destruct (in_strs (t0 :: t1) valid_statuses); [|discriminate]);
    intros [= <-]; cbn [rev app dict_get];
    (destruct (str_eqb (py "status") k) eqn:E1;
     [apply str_eqb_eq in E1; subst k; key_false; reflexivity|]);
    (destruct (str_eqb (py "start_date") k) eqn:E2;
     [apply str_eqb_eq in E2; subst k; key_false; reflexivity|]);
    destruct (str_eqb (py "description") k); reflexivity.
Qed.

(** X5.  On a working connection, [update_task] keeps the number, the
    order and the identifiers of the stored documents.  When it returns
    [False] the documents are as they were.  When it returns [True], the
    first document with the given identifier, and no other, has changed:
    each field given as a non-empty text holds that text, its other fields
    are as before. *)
Theorem update_task_effect
  (w : world) (m : mongo) (task_id : str) (d sd st : option str) :
  db_manager w = connected m -> fault m = None ->
  exists b w' m',
    update_task task_id d sd st w = (inr b, w')
    /\ db_manager w' = connected m'
    /\ List.map fst (tasks m') = List.map fst (tasks m)
    /\ (b = false -> tasks m' = tasks m)
    /\ (b = true ->
        exists oid pre doc post fields',
          ObjectId task_id = inr oid
          /\ tasks m = pre ++ doc :: post
          /\ Forall (fun x => fst x <> VObjectId oid) pre
          /\ fst doc = VObjectId oid
          /\ tasks m' = pre ++ (VObjectId oid, fields') :: post
          /\ forall k,
              dict_get fields' k
              = match requested d sd st k with
                | Some v => Some (VStr v)
                | None => dict_get (snd doc) k
                end).
Proof.
  intros Hdb Hf. rewrite (update_task_connected w m task_id d sd st Hdb).
  assert (Same : exists b w' m',
             (inr false, w) = (@inr exn bool b, w')
             /\ db_manager w' = connected m'
             /\ List.map fst (tasks m') = List.map fst (tasks m)
             /\ (b = false -> tasks m' = tasks m)
             /\ (b = true ->
                 exists oid pre doc post fields',
                   ObjectId task_id = inr oid
                   /\ tasks m = pre ++ doc :: post
                   /\ Forall (fun x => fst x <> VObjectId oid) pre
                   /\ fst doc = VObjectId oid
                   /\ tasks m' = pre ++ (VObjectId oid, fields') :: post
                   /\ forall k,
                       dict_get fields' k
                       = match requested d sd st k with
                         | Some v => Some (VStr v)
                         | None => dict_get (snd doc) k
                         end)).
  { exists false, w, m. repeat split; auto. discriminate. }
  destruct (update_fields d sd st) as [[|f fs]|] eqn:Hu; try exact Same.
  destruct (ObjectId task_id) as [e|oid] eqn:Ho; [exact Same|].
  clear Same. cbn zeta. rewrite Hf.
  pose proof (update_first_spec oid (f :: fs) (tasks m)) as S.
  destruct (update_first oid (f :: fs) (tasks m)) as [n docs'].
  destruct S as [Hm S].
  exists (0 <? n). eexists.
  exists {| tasks := docs'; fault := None;
              fault_after_write := fault_after_write m;
              oid_counter := oid_counter m |}.
  split; [reflexivity|]. split; [reflexivity|]. cbn [tasks].
  split; [exact Hm|].
  destruct S as [[-> ->] | [-> [pre [doc [post [Ht [Hp [Hd ->]]]]]]]].
  - split; [reflexivity | discriminate].
  - split; [discriminate|]. intros _.
    exists oid, pre, doc, post, (snd (apply_set doc (f :: fs))).
    split; [reflexivity|]. split; [exact Ht|]. split; [exact Hp|].
    split; [exact Hd|]. split.
    + unfold apply_set. cbn [fst snd]. rewrite Hd. reflexivity.
    + intros k. unfold apply_set. cbn [snd].
      rewrite fold_set_get, (update_fields_lookup d sd st _ k Hu).
      reflexivity.
Qed.

Lemma update_task_effect_witness :
  exists b w' m',
    update_task (hexlify (bytes_of 12 7)) (Some (py "comprar leche")) None
      (Some (py "completed")) (demo_world (connected one_task_mongo))
    = (inr b, w')
    /\ db_manager w' = connected m'
    /\ List.map fst (tasks m') = List.map fst (tasks one_task_mongo).
Proof.
  destruct (update_task_effect (demo_world (connected one_task_mongo))
              one_task_mongo (hexlify (bytes_of 12 7))
              (Some (py "comprar leche")) None (Some (py "completed"))
              eq_refl eq_refl) as [b [w' [m' [E [D [I _]]]]]].
  exists b, w', m'. auto.
Defined.

Lemma NoDup_keys_lookup {V : Type} (l : list (str * V)) (k : str) (v : V) :
  NoDup (List.map fst l) -> In (k, v) l -> dict_get l k = Some v.
Proof.
  induction l as [|[k0 v0] l IH]; intros Hn Hin; [contradiction|].
  cbn [List.map fst] in Hn. inversion Hn as [|? ? Hk Hn']; subst.
  cbn [dict_get]. destruct Hin as [[= -> ->] | Hin].
  - rewrite str_eqb_refl. reflexivity.
  - rewrite str_eqb_neq; [apply IH; assumption|].
    intros ->. apply Hk. apply (in_map fst _ _ Hin).
Qed.

Lemma update_fields_NoDup (d sd st : option str) (fields : list (str * str)) :
  update_fields d sd st = Some fields -> NoDup (List.map fst fields).
Proof.
  unfold update_fields.
  destruct d as [[|d0 d1]|]; destruct sd as [[|s0 s1]|];
    destruct st as [[|t0 t1]|]; cbn [truthy_opt dict_set];
    key_false; cbv iota; cbn [dict_set]; key_false; cbv iota;
    try (destruct (in_strs (t0 :: t1) valid_statuses); [|discriminate]);
    intros [= <-]; cbn [List.map fst];
    repeat (constructor;
            [cbn [In]; intros K;
             repeat (destruct K as [K|K];
                     [vm_compute in K; discriminate K|]);
             exact K|]);
    constructor.
Qed.

Lemma set_changes_after (doc : document) (fields : list (str * str)) :
  NoDup (List.map fst fields) ->
  set_changes (apply_set doc fields) fields = false.
Proof.
  intros Hn. unfold set_changes.
  destruct (existsb _ fields) eqn:E; [|reflexivity]. exfalso.
  apply existsb_exists in E. destruct E as [[k v] [Hin Hc]].
  unfold apply_set in Hc. cbn [fst snd] in Hc. rewrite fold_set_get in Hc.
  assert (L : dict_get (rev fields) k = Some v).
  { apply NoDup_keys_lookup.
    - rewrite map_rev. apply NoDup_rev. exact Hn.
    - apply in_rev in Hin. exact Hin. }
  rewrite L, str_eqb_refl in Hc. discriminate.
Qed.

Lemma update_first_again (oid : list N) (fields : list (str * str))
  (docs : list document) :
  NoDup (List.map fst fields) ->
  update_first oid fields (snd (update_first oid fields docs))
  = (0, snd (update_first oid fields docs)).
Proof.
  intros Hn. induction docs as [|doc rest IH]; [reflexivity|].
  cbn [update_first]. destruct (is_id oid doc) eqn:Hid.
  - destruct (set_changes doc fields) eqn:Hc; cbn [snd update_first].
    + assert (Hid' : is_id oid (apply_set doc fields) = true) by exact Hid.
      rewrite Hid', (set_changes_after doc fields Hn). reflexivity.
    + rewrite Hid, Hc. reflexivity.
  - destruct (update_first oid fields rest) as [n rest'] eqn:U.
    cbn [snd update_first] in *. rewrite Hid, IH. reflexivity.
Qed.

(** X6.  On a working connection, repeating an update that has just been
    made returns [False] and changes no stored document: [True] reports a
    change, not a match. *)
Theorem update_task_twice
  (w w1 : world) (m : mongo) (task_id : str) (d sd st : option str)
  (b : bool) :
  db_manager w = connected m -> fault m = None ->
  update_task task_id d sd st w = (inr b, w1) ->
  exists w2,
    update_task task_id d sd st w1 = (inr false, w2)
    /\ db_manager w2 = db_manager w1.
Proof.
  intros Hdb Hf H1.
  rewrite (update_task_connected w m task_id d sd st Hdb) in H1.
  destruct (update_fields d sd st) as [[|f fs]|] eqn:Hu;
    try (injection H1 as <- <-; exists w;
         rewrite (update_task_connected w m task_id d sd st Hdb), Hu;
         split; reflexivity).
  destruct (ObjectId task_id) as [e|oid] eqn:Ho;
    [injection H1 as <- <-; exists w;
     rewrite (update_task_connected w m task_id d sd st Hdb), Hu, Ho;
     split; reflexivity|].
  cbn zeta in H1. rewrite Hf in H1.
  pose proof (update_first_again oid (f :: fs) (tasks m)
                (update_fields_NoDup d sd st _ Hu)) as A.
  destruct (update_first oid (f :: fs) (tasks m)) as [n docs'].
  cbn [snd] in A. injection H1 as <- <-.
  set (m1 := {| tasks := docs'; fault := None;
                fault_after_write := fault_after_write m;
                oid_counter := oid_counter m |}).
  set (w1 := set_mongo m1 (log (EvUpdate oid (f :: fs)) w)).
  assert (Hdb1 : db_manager w1 = connected m1) by reflexivity.
  rewrite (update_task_connected w1 m1 task_id d sd st Hdb1), Hu, Ho.
  cbn zeta. cbn [fault m1 tasks]. rewrite A.
  eexists. split; [reflexivity|]. cbn [set_mongo db_manager log].
  unfold connected, m1. reflexivity.
Qed.

Lemma update_task_twice_witness :
  exists w1 w2,
    update_task (hexlify (bytes_of 12 7)) (Some (py "comprar leche")) None
      None (demo_world (connected one_task_mongo)) = (inr true, w1)
    /\ update_task (hexlify (bytes_of 12 7)) (Some (py "comprar leche")) None
         None w1 = (inr false, w2)
    /\ db_manager w2 = db_manager w1.
Proof.
  eexists.
  assert (E : update_task (hexlify (bytes_of 12 7))
                (Some (py "comprar leche")) None None
                (demo_world (connected one_task_mongo))
              = (inr true,
                 snd (update_task (hexlify (bytes_of 12 7))
                        (Some (py "comprar leche")) None None
                        (demo_world (connected one_task_mongo)))))
    by (vm_compute; reflexivity).
  destruct (update_task_twice (demo_world (connected one_task_mongo)) _
              one_task_mongo _ _ _ _ _ eq_refl eq_refl E) as [w2 [E2 D2]].
  exists w2. split; [exact E|]. split; [exact E2 | exact D2].
Defined.

(** X7.  On a working connection, [delete_task] returns [True] exactly
    when a stored document has the given identifier; it then removes the
    first such document and no other.  When it returns [False] the
    documents are as they were. *)
Theorem delete_task_effect (w : world) (m : mongo) (task_id : str) :
  db_manager w = connected m -> fault m = None ->
  exists b w' m',
    delete_task task_id w = (inr b, w')
    /\ db_manager w' = connected m'
    /\ (b = false ->
        tasks m' = tasks m
        /\ forall oid, ObjectId task_id = inr oid ->
                       Forall (fun x => fst x <> VObjectId oid) (tasks m))
    /\ (b = true ->
        exists oid pre doc post,
          ObjectId task_id = inr oid
          /\ tasks m = pre ++ doc :: post
          /\ Forall (fun x => fst x <> VObjectId oid) pre
          /\ fst doc = VObjectId oid
          /\ tasks m' = pre ++ post).
Proof.
  intros Hdb Hf. rewrite (delete_task_connected w m task_id Hdb).
  destruct (ObjectId task_id) as [e|oid] eqn:Ho.
  - exists false, w, m. split; [reflexivity|]. split; [exact Hdb|].
    split; [|discriminate]. intros _. split; [reflexivity|]. discriminate.
  - cbn zeta. rewrite Hf.
    pose proof (delete_first_spec oid (tasks m)) as S.
    destruct (delete_first oid (tasks m)) as [n docs'].
    exists (0 <? n). eexists.
    exists {| tasks := docs'; fault := None;
              fault_after_write := fault_after_write m;
              oid_counter := oid_counter m |}.
    split; [reflexivity|]. split; [reflexivity|]. cbn [tasks].
    destruct S as [[-> [-> Hall]] | [-> [pre [doc [post [Ht [Hp [Hd ->]]]]]]]].
    + split; [|discriminate]. intros _. split; [reflexivity|].
      intros oid' [= <-]. exact Hall.
    + split; [discriminate|]. intros _. exists oid, pre, doc, post. auto.
Qed.

Lemma delete_task_effect_witness :
  exists b w' m',
    delete_task (hexlify (bytes_of 12 7))
      (demo_world (connected one_task_mongo)) = (inr b, w')
    /\ db_manager w' = connected m'.
Proof.
  destruct (delete_task_effect (demo_world (connected one_task_mongo))
              one_task_mongo (hexlify (bytes_of 12 7)) eq_refl eq_refl)
    as [b [w' [m' [E [D _]]]]].
  exists b, w', m'. auto.
Defined.

(** ** Creating, then listing *)

Lemma new_task_data_lookup (d : str) (sd st : option str) (now : Z) :
  dict_get (new_task_data d sd st now) (py "description") = Some (VStr d)
  /\ dict_get (new_task_data d sd st now) (py "created_at")
     = Some (VDatetime now)
  /\ dict_get (new_task_data d sd st now) (py "status") = Some (opt_value st)
  /\ dict_get (new_task_data d sd st now) (py "start_date")
     = if truthy_opt sd then Some (opt_value sd) else None.
Proof.
  unfold new_task_data. destruct (truthy_opt sd).
  - rewrite !dict_get_set. cbn [dict_get]. key_false. cbv iota. auto.
  - cbn [dict_get]. key_false. cbv iota. auto.
Qed.

(** ** Listing a listing *)

Lemma dict_set_same {V : Type} (d : list (str * V)) (k : str) (v : V) :
  dict_get d k = Some v -> dict_set d k v = d.
Proof.
  induction d as [|[k0 v0] d IH]; [discriminate|].
  cbn [dict_get dict_set]. destruct (str_eqb k0 k).
  - intros [= ->]. reflexivity.
  - intros Hg. rewrite (IH Hg). reflexivity.
Qed.

Lemma listed_status_valid (o : option value) :
  in_strs (listed_status o) valid_statuses = true.
Proof.
  assert (P : in_strs (py "pending") valid_statuses = true)
    by (vm_compute; reflexivity).
  unfold listed_status. destruct o as [[]|]; try exact P.
  destruct (in_strs s valid_statuses) eqn:E; [exact E | exact P].
Qed.

Lemma task_view_fixed `{Runtime} (doc : document) (v : dict) :
  lists_as doc v -> task_view v = inr v.
Proof.
  intros [Hid [Hst [Hca _]]]. unfold task_view.
  cbn [py_getitem]. rewrite Hid. cbn [bind ret format_value].
  rewrite (dict_set_same v _ _ Hid), Hst.
  cbn [in_status_set value_in_strs]. rewrite listed_status_valid.
  cbn [bind ret negb]. rewrite Hca.
  destruct (dict_get (snd doc) (py "created_at")) as [[]|];
    cbn [listed_created_at]; reflexivity.
Qed.

(** X9.  The repair of a listing is idempotent: the tasks [get_all_tasks]
    returns, normalized once more by the loop of the listing, come out as
    they are. *)
Theorem task_views_idempotent `{Runtime}
  (docs : list document) (views : list dict) :
  Forall2 lists_as docs views -> task_views views = inr views.
Proof.
  induction 1 as [|doc v docs views Lv _ IH]; [reflexivity|].
  cbn [task_views]. rewrite (task_view_fixed doc v Lv). cbn [bind].
  rewrite IH. reflexivity.
Qed.

Lemma task_views_idempotent_witness :
  exists views,
    fst (@get_all_tasks demo_runtime (demo_world (connected one_task_mongo)))
    = inr views
    /\ @task_views demo_runtime views = inr views.
Proof.
  destruct (@get_all_tasks_connected demo_runtime
              (demo_world (connected one_task_mongo)) one_task_mongo
              eq_refl eq_refl) as [views [E [L _]]].
  - repeat constructor.
  - exists views. split; [rewrite E; reflexivity|].
    apply (@task_views_idempotent demo_runtime (tasks one_task_mongo)).
    exact L.
Defined.

(** ** The dispatcher *)

Lemma result_shaped_result (st msg : str) :
  In st result_statuses -> result_shaped (result st msg).
Proof.
  intros Hin. unfold result_shaped, result. cbn [dict_get].
  key_false. cbv iota.
  split; [exists st; auto | exists msg; reflexivity].
Qed.

Lemma result_shaped_success (msg : str) :
  result_shaped
    (dict_set (result (py "success") (py "Comando procesado."))
       (py "message") (VStr msg)).
Proof.
  rewrite result_set_message. unfold result_shaped. cbn [dict_get].
  key_false. cbv iota.
  split; [exists (py "success"); split; [reflexivity | left; reflexivity]
         | exists msg; reflexivity].
Qed.

(** X10.  A command that lacks what its action needs is answered with an
    error result and the world as it was; the store is not called: a
    create without a non-empty description, an update without a task id
    or without any non-empty field, a delete without a task id. *)
Theorem execute_action_checks_first
  (cmd : LLMCommand) (w : world) (self : MongoDBManager) :
  db_manager w = Some self ->
  (action cmd = py "create" -> truthy_opt (description cmd) = false ->
   execute_action cmd w = (inr (result (py "error") msg_need_description), w))
  /\ (action cmd = py "update" -> truthy_opt (task_id cmd) = false ->
      execute_action cmd w = (inr (result (py "error") msg_update_need_id), w))
  /\ (action cmd = py "update" -> truthy_opt (task_id cmd) = true ->
      truthy_opt (description cmd) = false ->
      truthy_opt (start_date cmd) = false ->
      truthy_opt (status cmd) = false ->
      execute_action cmd w
      = (inr (result (py "error") msg_update_need_field), w))
  /\ (action cmd = py "delete" -> truthy_opt (task_id cmd) = false ->
      execute_action cmd w = (inr (result (py "error") msg_delete_need_id), w)).
Proof.
  intros Hdb. unfold execute_action. rewrite Hdb.
  split; [|split; [|split]].
  - intros -> ->. key_false. reflexivity.
  - intros -> ->. key_false. reflexivity.
  - intros -> -> -> -> ->. key_false. reflexivity.
  - intros -> ->. key_false. reflexivity.
Qed.

Lemma execute_action_checks_first_witness :
  execute_action (create_command [] None) (demo_world (connected empty_mongo))
  = (inr (result (py "error") msg_need_description),
     demo_world (connected empty_mongo)).
Proof.
  apply (proj1 (execute_action_checks_first (create_command [] None)
                  (demo_world (connected empty_mongo))
                  {| db := Some empty_mongo |} eq_refl));
    reflexivity.
Defined.

(** X11.  Without a handle, and for the actions [read], [unknown] and any
    action that is none of the five, the dispatcher leaves the world as it
    was: it reads nothing from the store, the listing of [read] included.
    An [unknown] command is answered with its own message, or with the
    stock one when it has none. *)
Theorem execute_action_without_store (cmd : LLMCommand) (w : world) :
  (db_manager w = None ->
   execute_action cmd w = (inr (result (py "error") msg_no_db), w))
  /\ (action cmd = py "read" -> snd (execute_action cmd w) = w)
  /\ (action cmd = py "unknown" ->
      snd (execute_action cmd w) = w
      /\ (db_manager w <> None ->
          fst (execute_action cmd w)
          = inr (result (py "info")
                   (match message cmd with
                    | Some (c :: m) => c :: m
                    | _ => msg_not_understood
                    end))))
  /\ (~ In (action cmd) valid_actions -> snd (execute_action cmd w) = w).
Proof.
  unfold execute_action. split; [|split; [|split]].
  - intros ->. reflexivity.
  - intros ->. key_false. destruct (db_manager w); reflexivity.
  - intros ->. key_false. split.
    + destruct (db_manager w); reflexivity.
    + destruct (db_manager w); [|congruence]. intros _.
      destruct (message cmd) as [[|c0 m0]|]; reflexivity.
  - intros Hn. destruct (db_manager w) as [self|] eqn:Hdb; [|reflexivity].
    pose proof (execute_action_catch_all cmd w self Hdb Hn) as C.
    unfold execute_action in C. rewrite Hdb in C. rewrite C. reflexivity.
Qed.

Lemma execute_action_without_store_witness :
  snd (execute_action
         {| action := py "read"; task_id := None; description := None;
            start_date := None; status := None; message := None |}
         (demo_world (connected one_task_mongo)))
  = demo_world (connected one_task_mongo).
Proof.
  apply (proj1 (proj2 (execute_action_without_store _ _))). reflexivity.
Defined.

Lemma execute_action_shaped (cmd : LLMCommand) (w : world) :
  exists r w', execute_action cmd w = (inr r, w') /\ result_shaped r.
Proof.
  assert (Err : forall msg, result_shaped (result (py "error") msg)).
  { intros msg. apply result_shaped_result. right. left. reflexivity. }
  unfold execute_action. destruct (db_manager w) as [self|] eqn:Hdb.
  2:{ eexists. eexists. split; [reflexivity | apply Err]. }
  destruct (str_eqb (action cmd) (py "create")).
  { destruct (truthy_opt (description cmd)); cbn [negb].
    2:{ eexists. eexists. split; [reflexivity | apply Err]. }
    unfold mbind.
    destruct (connected_cases w self Hdb) as [Hd | [m Hm]].
    - unfold add_task, mbind, self_db. rewrite Hd. cbn [disconnected db mret].
      eexists. eexists. split; [reflexivity|].
      rewrite result_set_message, result_set_task_id.
      unfold result_shaped. cbn [dict_get]. key_false. cbv iota.
      split; [exists (py "success"); split; [reflexivity | left; reflexivity]
             | eexists; reflexivity].
    - rewrite (add_task_connected w m _ _ _ Hm). cbn zeta.
      destruct (fault m); cbn [mret];
        (eexists; eexists; split; [reflexivity|];
         rewrite result_set_message, result_set_task_id;
         unfold result_shaped; cbn [dict_get]; key_false; cbv iota;
         split; [exists (py "success");
                 split; [reflexivity | left; reflexivity]
                | eexists; reflexivity]). }
  destruct (str_eqb (action cmd) (py "read")).
  { eexists. eexists. split; [reflexivity | apply result_shaped_success]. }
  destruct (str_eqb (action cmd) (py "update")).
  { destruct (truthy_opt (task_id cmd)); cbn [negb].
    2:{ eexists. eexists. split; [reflexivity | apply Err]. }
    destruct (truthy_opt (description cmd) || truthy_opt (start_date cmd)
              || truthy_opt (status cmd)); cbn [negb].
    2:{ eexists. eexists. split; [reflexivity | apply Err]. }
    unfold mbind.
    destruct (proj1 (proj2 (proj2 (@store_returns
                                     demo_runtime w self Hdb)))
                (text_of (task_id cmd)) (description cmd) (start_date cmd)
                (status cmd)) as [b [w' ->]].
    destruct b; cbn [mret]; eexists; eexists;
      (split; [reflexivity|]); [apply result_shaped_success | apply Err]. }
  destruct (str_eqb (action cmd) (py "delete")).
  { destruct (truthy_opt (task_id cmd)); cbn [negb].
    2:{ eexists. eexists. split; [reflexivity | apply Err]. }
    unfold mbind.
    destruct (proj2 (proj2 (proj2 (@store_returns
                                     demo_runtime w self Hdb)))
                (text_of (task_id cmd))) as [b [w' ->]].
    destruct b; cbn [mret]; eexists; eexists;
      (split; [reflexivity|]); [apply result_shaped_success | apply Err]. }
  destruct (str_eqb (action cmd) (py "unknown")).
  { eexists. eexists. split; [reflexivity|].
    apply result_shaped_result. do 2 right. left. reflexivity. }
  eexists. eexists. split; [reflexivity | apply Err].
Qed.

(* ================================================================== *)
(** * Further properties of the interpreter *)
(* ================================================================== *)

Lemma LLMCommand_init_action `{Runtime} (kw : dict) (c : LLMCommand) :
  LLMCommand_init kw = inr c ->
  exists a, dict_get kw (py "action") = Some (VStr a)
            /\ in_strs a valid_actions = true.
Proof.
  unfold LLMCommand_init. intros H0.
  apply bind_inr in H0. destruct H0 as [a [Ha _]].
  destruct (dict_get kw (py "action")) as [v|]; [|discriminate].
  destruct v; try discriminate. cbn [validate_literal] in Ha.
  destruct (in_strs s valid_actions) eqn:E; [|discriminate].
  exists s. auto.
Qed.

Lemma interpreted_response `{Runtime} (r : http_response) (c : LLMCommand) :
  interpreted r c -> interpret_response r = inr c.
Proof.
  intros [Hs [result [raw [items [Hj [Hok [Ht [Hl Hi]]]]]]]].
  unfold interpret_response.
  rewrite (raise_for_status_2xx r Hs), Hj. cbn [bind].
  rewrite Hok. cbn [bind]. rewrite Ht. cbn [bind].
  unfold interpret_text. rewrite Hl. cbn [bind].
  unfold interpret_parsed. cbn [py_items bind ret].
  destruct (LLMCommand_init_action _ _ Hi) as [a [Ha Hin]].
  unfold interpret_clean. rewrite Ha. cbn [value_in_strs]. rewrite Hin.
  cbn [negb]. rewrite Hi. reflexivity.
Qed.

(** Without the prints: on the path where each stage succeeds the
    validated command is returned, after one POST. *)
Lemma interpreted_command_is_returned_quiet `{Runtime}
  (user_prompt : value) (w : world) (formatted_prompt : str)
  (r : http_response) (cmd : LLMCommand) :
  format_prompt user_prompt = inr formatted_prompt ->
  api_key_of w <> [] ->
  llm w (api_key_of w) formatted_prompt = Responds r ->
  interpreted r cmd ->
  call_llm_for_command user_prompt w
  = (inr cmd, log (EvLlmPost (api_key_of w) formatted_prompt) w).
Proof.
  intros Hfp Hk Hl Hi.
  destruct (call_llm_for_command_eq user_prompt w) as [fp [Hfp' ->]].
  assert (fp = formatted_prompt) by congruence. subst fp.
  destruct (api_key_of w) as [|k0 key]; [contradiction|].
  rewrite Hl. cbn [outcome_command].
  rewrite (interpreted_response r cmd Hi). reflexivity.
Qed.

(** X14.  One call of the interpreter sends at most one request, and none
    without a key: there is no retry.  It leaves the store handle, the
    environment and the clock as they were. *)
Theorem call_llm_for_command_frame `{Runtime}
  (user_prompt : value) (w : world) :
  exists cmd w',
    call_llm_for_command user_prompt w = (inr cmd, w')
    /\ db_manager w' = db_manager w
    /\ GEMINI_API_KEY w' = GEMINI_API_KEY w
    /\ clock w' = clock w
    /\ (api_key_of w = [] -> w' = w)
    /\ (api_key_of w <> [] ->
        exists prompt,
          format_prompt user_prompt = inr prompt
          /\ trace w' = trace w ++ [EvLlmPost (api_key_of w) prompt]).
Proof.
  destruct (call_llm_for_command_eq user_prompt w) as [fp [Hfp ->]].
  destruct (api_key_of w) as [|k0 key].
  - eexists. eexists. split; [reflexivity|]. repeat split; auto.
    intros Hn. contradiction.
  - eexists. eexists. split; [reflexivity|]. repeat split.
    + discriminate.
    + intros _. exists fp. split; [exact Hfp | reflexivity].
Qed.

(** ** The JSON body *)

Lemma lstrip_suffix (s : str) : exists a, s = a ++ lstrip s.
Proof.
  induction s as [|c s [a IH]]; [exists []; reflexivity|].
  cbn [lstrip]. destruct (isspace c).
  - exists (c :: a). cbn [app]. f_equal. exact IH.
  - exists []. reflexivity.
Qed.

Lemma rstrip_prefix (s : str) : exists b, s = rstrip s ++ b.
Proof.
  induction s as [|c s [b IH]]; [exists []; reflexivity|].
  rewrite rstrip_cons. destruct (rstrip s) as [|y r].
  - destruct (isspace c).
    + exists (c :: s). reflexivity.
    + exists s. reflexivity.
  - exists b. cbn [app]. f_equal. exact IH.
Qed.

Lemma startswith_app_l (p a b : str) :
  startswith p a = true -> startswith p (a ++ b) = true.
Proof.
  intros H. apply startswith_app in H. destruct H as [r ->].
  apply startswith_app. exists (r ++ b). rewrite app_assoc. reflexivity.
Qed.

Lemma find_None_app_l (p a b : str) :
  find p (a ++ b) = None -> find p a = None.
Proof.
  induction a as [|x a IH]; cbn [app find].
  - intros H. destruct p as [|c p]; [|reflexivity].
    destruct b; discriminate H.
  - destruct (startswith p (x :: a)) eqn:E.
    + pose proof (startswith_app_l p (x :: a) b E) as Q.
      cbn [app] in Q. rewrite Q. discriminate.
    + destruct (startswith p (x :: a ++ b)); [discriminate|].
      destruct (find p (a ++ b)); [discriminate|].
      intros _. rewrite IH; reflexivity.
Qed.

Lemma find_None_app_r (p a b : str) :
  find p (a ++ b) = None -> find p b = None.
Proof.
  induction a as [|x a IH]; [auto|]. cbn [app find].
  destruct (startswith p (x :: a ++ b)); [discriminate|].
  destruct (find p (a ++ b)); [discriminate|]. intros _. apply IH.
  reflexivity.
Qed.

Lemma find_strip_None (p s : str) :
  find p s = None -> find p (strip s) = None.
Proof.
  intros H. unfold strip. destruct (lstrip_suffix s) as [a Ha].
  destruct (rstrip_prefix (lstrip s)) as [b Hb].
  rewrite Ha in H. apply find_None_app_r in H.
  rewrite Hb in H. apply find_None_app_l in H. exact H.
Qed.

Lemma startswith_firstn (p s : str) (n : nat) :
  startswith p (firstn n s) = true ->
  startswith p s = true /\ List.length p <= n.
Proof.
  revert s n. induction p as [|a p IH]; intros s n H.
  - split; [reflexivity | cbn; lia].
  - destruct n as [|n]; [destruct s; discriminate|].
    destruct s as [|b s]; [discriminate|].
    cbn [firstn startswith] in *. apply andb_true_iff in H.
    destruct H as [H1 H2]. destruct (IH s n H2) as [I1 I2].
    rewrite H1, I1. split; [reflexivity | cbn [List.length]; lia].
Qed.

Lemma find_before_first (p s : str) (k : nat) :
  p <> [] -> find p s = Some k -> find p (firstn k s) = None.
Proof.
  intros Hp Hf. apply find_None. intros j [Hj Hs].
  apply find_Some in Hf. destruct Hf as [_ Hmin].
  rewrite length_firstn in Hj.
  assert (E : skipn j (firstn k s) = firstn (k - j) (skipn j s))
    by apply skipn_firstn_comm.
  rewrite E in Hs. apply startswith_firstn in Hs. destruct Hs as [Hs Hl].
  assert (0 < List.length p) by (destruct p; [contradiction | cbn; lia]).
  apply (Hmin j); [lia|]. split; [lia | exact Hs].
Qed.

(** X15.  The JSON body is always trimmed: trimming it again changes
    nothing.  When it comes from a fenced block it holds no closing
    marker: the non-greedy match stops at the first one. *)
Theorem extract_json_body_shape (raw : str) :
  strip (extract_json_body raw) = extract_json_body raw
  /\ (fenced_content raw <> None ->
      find fence_close (extract_json_body raw) = None).
Proof.
  unfold extract_json_body. pose proof (search_fenced raw) as S.
  destruct (Re.search json_block_re raw) as [g|]; cbn [option_map] in S.
  - split; [apply strip_idem|]. intros _.
    unfold fenced_content in S.
    destruct (find fence_open raw) as [i|]; [|discriminate].
    cbn zeta in S.
    destruct (find fence_close (skipn (i + List.length fence_open) raw))
      as [k|] eqn:F; [|discriminate].
    injection S as S. rewrite S. apply find_strip_None.
    assert (Hne : fence_close <> []) by (vm_compute; discriminate).
    apply (find_before_first _ _ _ Hne F).
  - split; [apply strip_idem|]. rewrite <- S. congruence.
Qed.

Lemma extract_json_body_shape_witness :
  find fence_close
    (extract_json_body (py "Claro: ```json { } ``` y ```json [] ```")) = None.
Proof.
  apply (proj2 (extract_json_body_shape _)). vm_compute. discriminate.
Defined.

(** ** Sanitized keys *)

Lemma Forall_lstrip (P : char -> Prop) (s : str) :
  Forall P s -> Forall P (lstrip s).
Proof.
  induction 1 as [|c s Hc Hs IH]; [constructor|].
  cbn [lstrip]. destruct (isspace c); [exact IH | constructor; assumption].
Qed.

Lemma Forall_rstrip (P : char -> Prop) (s : str) :
  Forall P s -> Forall P (rstrip s).
Proof.
  induction 1 as [|c s Hc Hs IH]; [constructor|].
  rewrite rstrip_cons. destruct (rstrip s) as [|y r].
  - destruct (isspace c); constructor; [exact Hc | constructor].
  - constructor; assumption.
Qed.

Lemma clean_key_words `{Runtime} (k : str) :
  Forall (fun c => is_word c = true) (clean_key k).
Proof.
  unfold clean_key, strip. apply Forall_rstrip, Forall_lstrip.
  apply Forall_forall. intros c Hc. apply filter_In in Hc. apply Hc.
Qed.

Lemma dict_set_keys {V : Type} (P : str -> Prop) (d : list (str * V))
  (k : str) (v : V) :
  Forall (fun kv => P (fst kv)) d -> P k ->
  Forall (fun kv => P (fst kv)) (dict_set d k v).
Proof.
  intros Hd Hk. induction Hd as [|[k0 v0] d H0 Hd IH]; cbn [dict_set].
  - constructor; [exact Hk | constructor].
  - destruct (str_eqb k0 k); constructor; assumption.
Qed.

(** X16.  In the sanitized object every key is made of word characters
    only, and the value under a key is that of the last item of the parsed
    object whose key cleans to it: when two keys differ by stray
    characters only, the later one wins. *)
Theorem sanitize_keys_lookup `{Runtime} (items : dict) :
  Forall (fun kv => Forall (fun c => is_word c = true) (fst kv))
         (sanitize_keys items)
  /\ forall k, dict_get (sanitize_keys items) k = last_cleaned items k.
Proof.
  unfold sanitize_keys, last_cleaned. split.
  - assert (G : forall acc : dict,
               Forall (fun kv => Forall (fun c => is_word c = true) (fst kv))
                      acc ->
               Forall (fun kv => Forall (fun c => is_word c = true) (fst kv))
                      (fold_left
                         (fun clean kv =>
                            dict_set clean (clean_key (fst kv)) (snd kv))
                         items acc)).
    { induction items as [|kv items IH]; intros acc Ha; [exact Ha|].
      cbn [fold_left]. apply IH.
      apply (dict_set_keys (fun k => Forall (fun c => is_word c = true) k));
        [exact Ha | apply clean_key_words]. }
    apply G. constructor.
  - intros k.
    assert (G : forall (acc : dict),
               dict_get
                 (fold_left
                    (fun clean kv =>
                       dict_set clean (clean_key (fst kv)) (snd kv))
                    items acc) k
               = fold_left
                   (fun a kv =>
                      if str_eqb (clean_key (fst kv)) k then Some (snd kv)
                      else a)
                   items (dict_get acc k)).
    { induction items as [|kv items IH]; intros acc; [reflexivity|].
      cbn [fold_left]. rewrite IH, dict_get_set. reflexivity. }
    apply G.
Qed.

(** ** The prompt *)

(** X17.  The user's text enters the prompt once, as it is, between the
    fixed text and a closing quote: braces in it are not read as
    replacement fields, and nothing before it depends on it. *)
Theorem format_prompt_verbatim `{Runtime} (user_prompt : value) :
  format_prompt user_prompt
  = inr (prompt_head ++ format_value user_prompt ++ [39%N])
  /\ exists mid,
      prompt_head
      = py "Eres un asistente de gestión de tareas." ++ mid
        ++ py "Comando de usuario: '".
Proof.
  split.
  - unfold format_prompt. vm_compute. reflexivity.
  - exists (firstn (List.length prompt_head - 39 - 21) (skipn 39 prompt_head)).
    vm_compute. reflexivity.
Qed.

(** ** The response envelope *)

Lemma py_getitem_first (x : value) (l : list value) :
  py_getitem (VList (x :: l)) (VInt 0) = inr x.
Proof.
  cbn [py_getitem index_of]. unfold seq_index.
  cbn [List.length]. rewrite Nat2Z.inj_succ.
  replace (0 <=? 0)%Z with true by reflexivity.
  replace (0 <? Z.succ (Z.of_nat (List.length l)))%Z with true
    by (symmetry; apply Z.ltb_lt; lia).
  reflexivity.
Qed.

Lemma dict_get_nonempty {V : Type} (d : list (str * V)) (k : str) (v : V) :
  dict_get d k = Some v -> d <> [].
Proof. destruct d; [discriminate | discriminate]. Qed.

(** X18.  In a response object whose [candidates] is a list starting with
    an object, whose [content] is an object, whose [parts] is a list
    starting with an object with a [text], the text part is found and is
    that [text], whatever else the objects and lists hold.  When
    [candidates] is absent or falsy (null, empty), no text part is found
    and nothing raises.  A response that is not an object raises. *)
Theorem text_part_lookup (result : value) :
  (forall d c0 cs ct p0 ps t,
      result = VDict d ->
      dict_get d (py "candidates") = Some (VList (VDict c0 :: cs)) ->
      dict_get c0 (py "content") = Some (VDict ct) ->
      dict_get ct (py "parts") = Some (VList (VDict p0 :: ps)) ->
      dict_get p0 (py "text") = Some t ->
      has_text_part result = inr true /\ raw_text_of result = inr t)
  /\ (forall d,
         result = VDict d ->
         (dict_get d (py "candidates") = None
          \/ exists v, dict_get d (py "candidates") = Some v
                       /\ truthy v = false) ->
         has_text_part result = inr false)
  /\ ((forall d, result <> VDict d) ->
      has_text_part result = inl AttributeError).
Proof.
  split; [|split].
  - intros d c0 cs ct p0 ps t -> Hc Hct Hp Ht.
    pose proof (dict_get_nonempty _ _ _ Hp) as Nct.
    unfold has_text_part, raw_text_of, parts0, content0, candidates0,
      and_then.
    cbn [py_get py_getitem bind ret]. rewrite Hc.
    cbn [bind ret truthy py_len List.length Nat.ltb Nat.leb].
    rewrite py_getitem_first. cbn [bind ret py_get py_getitem].
    rewrite Hct. cbn [bind ret truthy].
    destruct ct as [|e ct']; [contradiction|].
    cbn [bind ret py_get py_getitem]. rewrite Hp.
    cbn [bind ret truthy py_len List.length Nat.ltb Nat.leb].
    rewrite py_getitem_first. cbn [bind ret py_getitem]. rewrite Ht.
    split; reflexivity.
  - intros d -> Hc. unfold has_text_part, and_then.
    cbn [py_get bind ret].
    destruct Hc as [-> | [v [-> Hv]]]; [reflexivity|].
    rewrite Hv. reflexivity.
  - intros Hn. unfold has_text_part, and_then.
    destruct result; try reflexivity. exfalso. apply (Hn d). reflexivity.
Qed.

Lemma text_part_lookup_witness :
  has_text_part (envelope (VStr demo_json_read)) = inr true
  /\ raw_text_of (envelope (VStr demo_json_read)) = inr (VStr demo_json_read).
Proof.
  pose (p0 := [(py "text", VStr demo_json_read)]).
  pose (ct := [(py "parts", VList [VDict p0])]).
  pose (c0 := [(py "content", VDict ct)]).
  apply (proj1 (text_part_lookup (envelope (VStr demo_json_read)))
           [(py "candidates", VList [VDict c0])] c0 [] ct p0 []
           (VStr demo_json_read) eq_refl);
    vm_compute; reflexivity.
Defined.

(** ** Texts that are not commands *)

(** Without the prints: what the text part can do wrong, and what the
    caller then gets. *)
Lemma interpret_text_failures_quiet `{Runtime} (raw_text : value) :
  let answer :=
    match interpret_text raw_text with
    | inl e => handled e
    | inr c => c
    end in
  ((forall raw, raw_text <> VStr raw) ->
   answer = unknown_command msg_unexpected)
  /\ (forall raw,
         raw_text = VStr raw ->
         json_loads (extract_json_body raw) = inl JSONDecodeError ->
         answer = unknown_command msg_bad_json)
  /\ (forall raw v,
         raw_text = VStr raw ->
         json_loads (extract_json_body raw) = inr v ->
         (forall items, v <> VDict items) ->
         answer = unknown_command msg_unexpected)
  /\ (forall raw items a,
         raw_text = VStr raw ->
         json_loads (extract_json_body raw) = inr (VDict items) ->
         dict_get (sanitize_keys items) (py "action") = Some (VStr a) ->
         In a valid_actions ->
         LLMCommand_init (sanitize_keys items) = inl ValidationError ->
         answer = unknown_command msg_unexpected).
Proof.
  cbn zeta. split; [|split; [|split]].
  - intros Hn. destruct raw_text; try reflexivity.
    exfalso. apply (Hn s). reflexivity.
  - intros raw -> Hl. unfold interpret_text. rewrite Hl. reflexivity.
  - intros raw v -> Hl Hv. unfold interpret_text. rewrite Hl.
    cbn [bind]. unfold interpret_parsed.
    destruct v; try reflexivity. exfalso. apply (Hv d). reflexivity.
  - intros raw items a -> Hl Ha Hin Hi. unfold interpret_text. rewrite Hl.
    cbn [bind]. unfold interpret_parsed. cbn [py_items bind ret].
    unfold interpret_clean. rewrite Ha. cbn [value_in_strs].
    apply in_strs_In in Hin. rewrite Hin. cbn [negb]. rewrite Hi.
    reflexivity.
Qed.

(* ================================================================== *)
(** * Further properties of the endpoints *)
(* ================================================================== *)

(** Without the prints: a body that is a JSON object with a truthy
    [command] is answered. *)
Lemma process_command_answers_quiet `{Runtime}
  (request : Request) (data : dict) (v : value) (w : world) :
  request_json request = inr (VDict data) ->
  dict_get data (py "command") = Some v -> truthy v = true ->
  exists resp w',
    process_command request w = (inr resp, w')
    /\ well_formed (llm_interpretation resp)
    /\ result_shaped (action_result resp).
Proof.
  intros Hj Hc Hv. unfold process_command, mbind, lift. rewrite Hj.
  unfold py_get, ret. rewrite Hc, Hv. cbn [negb].
  destruct (call_llm_for_command_well_formed v w) as [cmd [w1 [-> Hwf]]].
  destruct (execute_action_shaped cmd w1) as [r [w2 [-> Hr]]].
  eexists. eexists. split; [reflexivity|]. split; assumption.
Qed.

(** X21.  A body that is valid JSON but not an object (a list, a text, a
    number) is not answered with HTTP 400: the lookup of [command] raises
    [AttributeError], which nothing in the handler catches.  A body that
    does not parse raises what the parser raised.  The world is as it
    was. *)
Theorem process_command_non_object `{Runtime} (request : Request) (w : world) :
  (forall v, request_json request = inr v -> (forall d, v <> VDict d) ->
             process_command request w = (inl AttributeError, w))
  /\ (forall e, request_json request = inl e ->
                process_command request w = (inl e, w)).
Proof.
  unfold process_command, mbind, lift. split.
  - intros v -> Hv. destruct v; try reflexivity.
    exfalso. apply (Hv d). reflexivity.
  - intros e ->. reflexivity.
Qed.

Lemma process_command_non_object_witness :
  @process_command demo_runtime
    {| request_json := inr (VList [VStr (py "crear tarea")]) |}
    (demo_world (connected empty_mongo))
  = (inl AttributeError, demo_world (connected empty_mongo)).
Proof.
  apply (proj1 (@process_command_non_object demo_runtime
                  {| request_json := inr (VList [VStr (py "crear tarea")]) |}
                  (demo_world (connected empty_mongo)))
           (VList [VStr (py "crear tarea")]) eq_refl).
  discriminate.
Defined.

(** Without the prints: the handle is looked at after the
    interpretation. *)
Lemma interpretation_precedes_db_check_quiet `{Runtime}
  (request : Request) (data : dict) (v : value) (w : world) :
  request_json request = inr (VDict data) ->
  dict_get data (py "command") = Some v -> truthy v = true ->
  db_manager w = None -> api_key_of w <> [] ->
  exists resp prompt,
    process_command request w
    = (inr resp, log (EvLlmPost (api_key_of w) prompt) w)
    /\ action_result resp = result (py "error") msg_no_db.
Proof.
  intros Hj Hc Hv Hdb Hk. unfold process_command, mbind, lift. rewrite Hj.
  unfold py_get, ret. rewrite Hc, Hv. cbn [negb].
  destruct (call_llm_for_command_eq v w) as [fp [_ ->]].
  destruct (api_key_of w) as [|k0 key]; [contradiction|].
  unfold execute_action. cbn [log db_manager]. rewrite Hdb. cbn [mret].
  eexists. exists fp. split; reflexivity.
Qed.



(** ** Identifiers *)

Lemma hex_digit_value (x : N) :
  (x < 16)%N ->
  hex_value (hex_digit x) = Some x /\ is_ascii_blank (hex_digit x) = false.
Proof.
  intros Hx.
  assert (C : In x [0; 1; 2; 3; 4; 5; 6; 7; 8; 9; 10; 11; 12; 13; 14; 15]%N).
  { cbn [In].
    destruct x as [|p]; [auto|].
    do 4 (destruct p as [p|p|]; try lia; auto 20). }
  cbn [In] in C.
  repeat (destruct C as [<- | C]; [split; reflexivity|]).
  contradiction.
Qed.

Lemma fromhex_hexlify (bs : list N) :
  Forall (fun b => (b < 256)%N) bs -> fromhex (hexlify bs) = Some bs.
Proof.
  induction 1 as [|b bs Hb _ IH]; [reflexivity|].
  unfold hexlify in *. cbn [flat_map app].
  assert (H1 : (b / 16 < 16)%N) by (apply N.Div0.div_lt_upper_bound; lia).
  assert (H2 : (b mod 16 < 16)%N) by (apply N.mod_lt; lia).
  destruct (hex_digit_value _ H1) as [V1 B1].
  destruct (hex_digit_value _ H2) as [V2 _].
  cbn [fromhex]. rewrite B1, V1, V2, IH. cbn [option_map].
  f_equal. f_equal. rewrite (N.div_mod b 16) at 3 by lia. lia.
Qed.

Lemma bytes_of_bounded (width : nat) (n : N) :
  Forall (fun b => (b < 256)%N) (bytes_of width n)
  /\ List.length (bytes_of width n) = width.
Proof.
  revert n. induction width as [|wd IH]; intros n; cbn [bytes_of].
  - split; [constructor | reflexivity].
  - destruct (IH (n / 256)%N) as [F L]. split.
    + apply Forall_app. split; [exact F|].
      constructor; [apply N.mod_lt; lia | constructor].
    + rewrite length_app, L. cbn [List.length]. lia.
Qed.

Lemma hexlify_length (bs : list N) :
  List.length (hexlify bs) = 2 * List.length bs.
Proof.
  induction bs as [|b bs IH]; [reflexivity|].
  unfold hexlify in *. cbn [flat_map app List.length]. rewrite IH. lia.
Qed.

Lemma ObjectId_hexlify (n : N) :
  ObjectId (hexlify (bytes_of 12 n)) = inr (bytes_of 12 n).
Proof.
  destruct (bytes_of_bounded 12 n) as [F L].
  unfold ObjectId. rewrite hexlify_length, L, (fromhex_hexlify _ F).
  reflexivity.
Qed.

(** X24.  The identifier [add_task] returns is one the store reads back:
    on a working connection, [delete_task] on it returns [True] and takes
    one document away, so that as many documents are stored as before the
    task was added. *)
Theorem add_then_delete
  (w : world) (m : mongo) (d : str) (sd st : option str) :
  db_manager w = connected m -> fault m = None ->
  exists id w1 w2 m2,
    add_task d sd st w = (inr (Some id), w1)
    /\ delete_task id w1 = (inr true, w2)
    /\ db_manager w2 = connected m2
    /\ List.length (tasks m2) = List.length (tasks m).
Proof.
  intros Hdb Hf.
  set (td := new_task_data d sd st (clock w)).
  set (oid := bytes_of 12 (oid_counter m)).
  set (m1 := {| tasks := tasks m ++ [(VObjectId oid, bson_doc td)];
                fault := None; fault_after_write := fault_after_write m;
                oid_counter := (oid_counter m + 1)%N |}).
  set (w1 := set_mongo m1 (log (EvInsert td) (log EvClock w))).
  assert (Hadd : add_task d sd st w = (inr (Some (hexlify oid)), w1)).
  { rewrite (add_task_connected w m d sd st Hdb). cbn zeta. rewrite Hf.
    reflexivity. }
  assert (Hdb1 : db_manager w1 = connected m1) by reflexivity.
  pose proof (delete_task_connected w1 m1 (hexlify oid) Hdb1) as Hdel.
  unfold oid in Hdel at 2. rewrite ObjectId_hexlify in Hdel. fold oid in Hdel.
  cbn zeta in Hdel. cbn [fault m1] in Hdel.
  pose proof (delete_first_spec oid (tasks m1)) as S.
  destruct (delete_first oid (tasks m1)) as [n docs'].
  destruct S as [[_ [_ Hall]] | [-> [pre [doc [post [Ht [_ [_ ->]]]]]]]].
  - exfalso. cbn [tasks m1] in Hall. apply Forall_app in Hall.
    destruct Hall as [_ Hl]. inversion Hl as [|? ? Hx _]; subst.
    apply Hx. reflexivity.
  - exists (hexlify oid), w1. eexists.
    exists {| tasks := pre ++ post; fault := None;
              fault_after_write := fault_after_write m1;
              oid_counter := oid_counter m1 |}.
    split; [exact Hadd|]. split; [exact Hdel|]. split; [reflexivity|].
    cbn [tasks]. apply (f_equal (@List.length _)) in Ht.
    cbn [tasks m1] in Ht. rewrite !length_app in Ht. cbn [List.length] in Ht.
    rewrite length_app. lia.
Qed.

Lemma add_then_delete_witness :
  exists id w1 w2 m2,
    add_task (py "regar") None None (demo_world (connected one_task_mongo))
    = (inr (Some id), w1)
    /\ delete_task id w1 = (inr true, w2)
    /\ db_manager w2 = connected m2
    /\ List.length (tasks m2) = List.length (tasks one_task_mongo).
Proof.
  apply (add_then_delete (demo_world (connected one_task_mongo))
           one_task_mongo); reflexivity.
Defined.
(* ================================================================== *)
(** * The functions with their prints *)
(* ================================================================== *)

(** ** Prints *)

Lemma py_print_cases `{Diagnostics} (texts : list str) :
  py_print texts = inr tt \/ py_print texts = inl UnicodeEncodeError.
Proof.
  unfold py_print. destruct (forallb encodable texts); [left | right];
    reflexivity.
Qed.

Lemma or_print_raises_bind {A B : Type} (p q : E A) (k k' : A -> E B) :
  or_print_raises p q ->
  (forall a, or_print_raises (k a) (k' a)) ->
  or_print_raises (bind p k) (bind q k').
Proof.
  intros [-> | ->] Hk; [|right; reflexivity].
  destruct q as [e|a]; [left; reflexivity | apply Hk].
Qed.

Lemma or_print_raises_print {A : Type} `{Diagnostics} (texts : list str)
  (p q : E A) :
  or_print_raises p q ->
  or_print_raises (bind (py_print texts) (fun _ => p)) q.
Proof.
  intros Hp. destruct (py_print_cases texts) as [-> | ->];
    [exact Hp | right; reflexivity].
Qed.

Lemma or_print_raises_inr {A : Type} (p q : E A) (a : A) :
  or_print_raises p q -> p = inr a -> q = inr a.
Proof. intros [-> | ->]; [auto | discriminate]. Qed.

(** ** On a stream that encodes every character *)

Section LenientStdout.

Context `{Runtime} `{Diagnostics}.
Hypothesis lenient : forall c, stdout_encodes c = true.

Lemma py_print_on_lenient_stdout (texts : list str) : py_print texts = inr tt.
Proof.
  unfold py_print. replace (forallb encodable texts) with true; [reflexivity|].
  symmetry. apply forallb_forall. intros s _. apply forallb_forall.
  intros c _. apply lenient.
Qed.

Lemma sanitize_keys_on_lenient_stdout (items clean : dict) :
  Printing.sanitize_keys items clean
  = inr (fold_left (fun clean kv =>
                      dict_set clean (clean_key (fst kv)) (snd kv))
                   items clean).
Proof.
  revert clean. induction items as [|[k v] items IH]; intros clean;
    [reflexivity|].
  cbn [Printing.sanitize_keys fold_left fst snd].
  rewrite py_print_on_lenient_stdout. cbn [bind]. apply IH.
Qed.

Lemma interpret_clean_on_lenient_stdout (raw_text : value) (clean : dict) :
  Printing.interpret_clean raw_text clean = interpret_clean clean.
Proof.
  unfold Printing.interpret_clean, interpret_clean.
  rewrite !py_print_on_lenient_stdout. reflexivity.
Qed.

Lemma interpret_parsed_on_lenient_stdout (raw_text parsed_json : value) :
  Printing.interpret_parsed raw_text parsed_json
  = interpret_parsed parsed_json.
Proof.
  unfold Printing.interpret_parsed, interpret_parsed.
  rewrite py_print_on_lenient_stdout. cbn [bind].
  destruct (py_items parsed_json) as [e|items]; [reflexivity|].
  cbn [bind]. rewrite sanitize_keys_on_lenient_stdout. cbn [bind].
  rewrite py_print_on_lenient_stdout. cbn [bind].
  apply interpret_clean_on_lenient_stdout.
Qed.

Lemma interpret_text_on_lenient_stdout (raw_text : value) :
  Printing.interpret_text raw_text = interpret_text raw_text.
Proof.
  unfold Printing.interpret_text, interpret_text.
  rewrite py_print_on_lenient_stdout. cbn [bind].
  destruct raw_text as [| | | |raw| | | |]; try reflexivity.
  rewrite !py_print_on_lenient_stdout. cbn [bind].
  destruct (json_loads (extract_json_body raw)) as [e|parsed]; cbn [bind].
  - destruct e; reflexivity.
  - rewrite interpret_parsed_on_lenient_stdout.
    destruct (interpret_parsed parsed) as [e|c]; [|reflexivity].
    destruct e; reflexivity.
Qed.

Lemma interpret_response_on_lenient_stdout (response : http_response) :
  Printing.interpret_response response = interpret_response response.
Proof.
  unfold Printing.interpret_response, interpret_response.
  destruct (raise_for_status response) as [e|[]]; [reflexivity|].
  cbn [bind]. destruct (resp_json response) as [e|result]; [reflexivity|].
  cbn [bind]. rewrite !py_print_on_lenient_stdout. cbn [bind].
  destruct (has_text_part result) as [e|[|]]; try reflexivity.
  cbn [bind]. destruct (raw_text_of result) as [e|raw_text]; [reflexivity|].
  cbn [bind]. apply interpret_text_on_lenient_stdout.
Qed.

Lemma llm_handlers_on_lenient_stdout (e : exn) :
  Printing.llm_handlers e = inr (handled e).
Proof.
  destruct e; cbn [Printing.llm_handlers handled];
    rewrite py_print_on_lenient_stdout; reflexivity.
Qed.

Lemma call_llm_for_command_on_lenient_stdout (user_prompt : value)
  (w : world) :
  Printing.call_llm_for_command user_prompt w
  = call_llm_for_command user_prompt w.
Proof.
  unfold Printing.call_llm_for_command, call_llm_for_command, mbind, lift.
  destruct (format_prompt user_prompt) as [e|fp]; [reflexivity|].
  rewrite py_print_on_lenient_stdout.
  destruct (getenv_api_key w) as [[e|key] w1]; [reflexivity|].
  destruct (negb (truthy (VStr key))); [reflexivity|].
  unfold try_except, mbind, lift, llm_handlers, mret.
  destruct (client_post key fp w1) as [[e|r] w2].
  - rewrite llm_handlers_on_lenient_stdout. reflexivity.
  - rewrite interpret_response_on_lenient_stdout.
    destruct (interpret_response r) as [e|c]; [|reflexivity].
    rewrite llm_handlers_on_lenient_stdout. reflexivity.
Qed.

Lemma add_task_on_lenient_stdout (d : str) (sd st : option str) (w : world) :
  Printing.add_task d sd st w = add_task d sd st w.
Proof.
  unfold Printing.add_task, add_task, mbind.
  destruct (self_db w) as [[e|[m|]] w1]; try reflexivity.
  destruct (datetime_now w1) as [[e|now] w2]; [reflexivity|].
  unfold try_except, mbind, lift.
  match goal with
  | |- context [insert_one ?td w2] => destruct (insert_one td w2) as [[e|i] w3]
  end; [|reflexivity].
  rewrite py_print_on_lenient_stdout. reflexivity.
Qed.

Lemma task_view_on_lenient_stdout (task_doc : dict) :
  Printing.task_view task_doc = task_view task_doc.
Proof.
  unfold Printing.task_view, task_view.
  destruct (py_getitem (VDict task_doc) (VStr (py "_id"))) as [e|id];
    [reflexivity|].
  cbn [bind].
  match goal with
  | |- context [in_status_set ?v] => destruct (in_status_set v) as [e|valid]
  end; [reflexivity|].
  cbn [bind]. destruct valid; cbn [negb];
    [|rewrite py_print_on_lenient_stdout]; reflexivity.
Qed.

Lemma task_views_on_lenient_stdout (docs : list dict) :
  Printing.task_views docs = task_views docs.
Proof.
  induction docs as [|doc docs IH]; [reflexivity|].
  cbn [Printing.task_views task_views].
  rewrite task_view_on_lenient_stdout, IH. reflexivity.
Qed.

Lemma get_all_tasks_on_lenient_stdout (w : world) :
  Printing.get_all_tasks w = get_all_tasks w.
Proof.
  unfold Printing.get_all_tasks, get_all_tasks, mbind.
  destruct (self_db w) as [[e|[m|]] w1]; try reflexivity.
  unfold try_except, mbind, lift.
  destruct (find_all w1) as [[e|docs] w2].
  - rewrite py_print_on_lenient_stdout. reflexivity.
  - rewrite task_views_on_lenient_stdout.
    destruct (task_views docs); [|reflexivity].
    rewrite py_print_on_lenient_stdout. reflexivity.
Qed.

Lemma update_task_on_lenient_stdout (tid : str) (d sd st : option str)
  (w : world) :
  Printing.update_task tid d sd st w = update_task tid d sd st w.
Proof.
  unfold Printing.update_task, update_task, mbind.
  destruct (self_db w) as [[e|[m|]] w1]; try reflexivity.
  destruct (update_fields d sd st) as [[|f fs]|]; try reflexivity.
  - unfold try_except, mbind, lift.
    destruct (ObjectId tid) as [e|oid].
    + rewrite py_print_on_lenient_stdout. reflexivity.
    + destruct (update_one oid (f :: fs) w1) as [[e|n] w2]; [|reflexivity].
      rewrite py_print_on_lenient_stdout. reflexivity.
  - unfold lift. rewrite py_print_on_lenient_stdout. reflexivity.
Qed.

Lemma delete_task_on_lenient_stdout (tid : str) (w : world) :
  Printing.delete_task tid w = delete_task tid w.
Proof.
  unfold Printing.delete_task, delete_task, mbind.
  destruct (self_db w) as [[e|[m|]] w1]; try reflexivity.
  unfold try_except, mbind, lift.
  destruct (ObjectId tid) as [e|oid].
  - rewrite py_print_on_lenient_stdout. reflexivity.
  - destruct (delete_one oid w1) as [[e|n] w2]; [|reflexivity].
    rewrite py_print_on_lenient_stdout. reflexivity.
Qed.

Lemma execute_action_on_lenient_stdout (cmd : LLMCommand) (w : world) :
  Printing.execute_action cmd w = execute_action cmd w.
Proof.
  unfold Printing.execute_action, execute_action, mbind.
  rewrite add_task_on_lenient_stdout, update_task_on_lenient_stdout,
    delete_task_on_lenient_stdout.
  reflexivity.
Qed.

Lemma process_command_on_lenient_stdout (request : Request) (w : world) :
  Printing.process_command request w = process_command request w.
Proof.
  unfold Printing.process_command, process_command, mbind.
  destruct (lift (request_json request) w) as [[e|data] w1]; [reflexivity|].
  destruct (lift (py_get data (py "command")) w1) as [[e|v] w2];
    [reflexivity|].
  destruct (negb (truthy v)); [reflexivity|].
  rewrite call_llm_for_command_on_lenient_stdout.
  destruct (call_llm_for_command v w2) as [[e|cmd] w3]; [reflexivity|].
  rewrite execute_action_on_lenient_stdout. reflexivity.
Qed.

Lemma get_tasks_on_lenient_stdout (w : world) :
  Printing.get_tasks w = get_tasks w.
Proof.
  unfold Printing.get_tasks, get_tasks.
  destruct (db_manager w); [apply get_all_tasks_on_lenient_stdout|].
  reflexivity.
Qed.

End LenientStdout.

(** ** What a print can change *)

Lemma sanitize_keys_or_print_raises `{Runtime} `{Diagnostics}
  (items clean : dict) :
  or_print_raises
    (Printing.sanitize_keys items clean)
    (inr (fold_left (fun clean kv =>
                       dict_set clean (clean_key (fst kv)) (snd kv))
                    items clean)).
Proof.
  revert clean. induction items as [|[k v] items IH]; intros clean;
    [left; reflexivity|].
  cbn [Printing.sanitize_keys fold_left fst snd].
  apply or_print_raises_print. apply IH.
Qed.

Lemma interpret_clean_or_print_raises `{Runtime} `{Diagnostics}
  (raw_text : value) (clean : dict) :
  or_print_raises (Printing.interpret_clean raw_text clean)
                  (interpret_clean clean).
Proof.
  unfold Printing.interpret_clean, interpret_clean.
  destruct (dict_get clean (py "action")) as [v|];
    [|apply or_print_raises_print; left; reflexivity].
  destruct v; try (apply or_print_raises_print; left; reflexivity);
    match goal with
    | |- context [value_in_strs ?v _] =>
        destruct (value_in_strs v valid_actions); cbn [negb];
        [left; reflexivity | apply or_print_raises_print; left; reflexivity]
    end.
Qed.

Lemma interpret_parsed_or_print_raises `{Runtime} `{Diagnostics}
  (raw_text parsed_json : value) :
  or_print_raises (Printing.interpret_parsed raw_text parsed_json)
                  (interpret_parsed parsed_json).
Proof.
  unfold Printing.interpret_parsed, interpret_parsed.
  apply or_print_raises_print.
  apply or_print_raises_bind; [left; reflexivity|]. intros items.
  destruct (sanitize_keys_or_print_raises items []) as [-> | ->];
    [|right; reflexivity].
  cbn [bind]. apply or_print_raises_print.
  apply interpret_clean_or_print_raises.
Qed.

Lemma interpret_text_or_print_raises `{Runtime} `{Diagnostics}
  (raw_text : value) :
  or_print_raises (Printing.interpret_text raw_text)
                  (interpret_text raw_text).
Proof.
  unfold Printing.interpret_text, interpret_text.
  apply or_print_raises_print.
  destruct raw_text as [| | | |raw| | | |]; try (left; reflexivity).
  apply or_print_raises_print.
  destruct (json_loads (extract_json_body raw)) as [e|parsed]; cbn [bind].
  - destruct e; try (left; reflexivity).
    apply or_print_raises_print. left. reflexivity.
  - destruct (interpret_parsed_or_print_raises (VStr raw) parsed)
      as [-> | ->]; [|right; reflexivity].
    destruct (interpret_parsed parsed) as [e|c]; [|left; reflexivity].
    destruct e; try (left; reflexivity).
    apply or_print_raises_print. left. reflexivity.
Qed.

Lemma interpret_response_or_print_raises `{Runtime} `{Diagnostics}
  (response : http_response) :
  or_print_raises (Printing.interpret_response response)
                  (interpret_response response).
Proof.
  unfold Printing.interpret_response, interpret_response.
  apply or_print_raises_bind; [left; reflexivity|]. intros _.
  apply or_print_raises_bind; [left; reflexivity|]. intros result.
  apply or_print_raises_print.
  apply or_print_raises_bind; [left; reflexivity|]. intros [|].
  - apply or_print_raises_bind; [left; reflexivity|]. intros raw_text.
    apply interpret_text_or_print_raises.
  - apply or_print_raises_print. left. reflexivity.
Qed.

Lemma llm_handlers_or_print_raises `{Diagnostics} (e : exn) :
  or_print_raises (Printing.llm_handlers e) (inr (handled e)).
Proof.
  destruct e; cbn [Printing.llm_handlers handled];
    apply or_print_raises_print; left; reflexivity.
Qed.

Lemma task_view_or_print_raises `{Runtime} `{Diagnostics} (task_doc : dict) :
  or_print_raises (Printing.task_view task_doc) (task_view task_doc).
Proof.
  unfold Printing.task_view, task_view.
  apply or_print_raises_bind; [left; reflexivity|]. intros id.
  apply or_print_raises_bind; [left; reflexivity|]. intros [|]; cbn [negb].
  - left. reflexivity.
  - apply or_print_raises_print. left. reflexivity.
Qed.

Lemma task_views_or_print_raises `{Runtime} `{Diagnostics}
  (docs : list dict) :
  or_print_raises (Printing.task_views docs) (task_views docs).
Proof.
  induction docs as [|doc docs IH]; [left; reflexivity|].
  cbn [Printing.task_views task_views].
  apply or_print_raises_bind; [apply task_view_or_print_raises|]. intros v.
  apply or_print_raises_bind; [exact IH|]. intros vs. left. reflexivity.
Qed.

(** ** The store with its prints *)

Lemma printing_add_task_connected `{Diagnostics} (w : world) (m : mongo)
  (d : str) (sd st : option str) :
  db_manager w = connected m ->
  Printing.add_task d sd st w
  = let td := new_task_data d sd st (clock w) in
    let w1 := log (EvInsert td) (log EvClock w) in
    let m1 := {| tasks := tasks m
                          ++ [(VObjectId (bytes_of 12 (oid_counter m)),
                               bson_doc td)];
                 fault := fault m;
                 fault_after_write := fault_after_write m;
                 oid_counter := (oid_counter m + 1)%N |} in
    match fault m with
    | Some e => (print_then_return [exc_str e] None, after_fault m m1 w1)
    | None =>
        (inr (Some (hexlify (bytes_of 12 (oid_counter m)))), set_mongo m1 w1)
    end.
Proof.
  intros Hdb.
  unfold Printing.add_task, mbind, self_db, try_except, datetime_now,
    insert_one, driver_call, new_task_data, lift, py_print, print_then_return.
  rewrite Hdb. cbn [connected db log db_manager]. rewrite Hdb.
  cbn [connected]. destruct (fault m) as [e|]; [|reflexivity].
  destruct (forallb encodable [exc_str e]); reflexivity.
Qed.

Lemma printing_update_task_connected `{Diagnostics} (w : world) (m : mongo)
  (tid : str) (d sd st : option str) :
  db_manager w = connected m ->
  Printing.update_task tid d sd st w
  = match update_fields d sd st with
    | None => (print_then_return [tid; format_opt st] false, w)
    | Some [] => (inr false, w)
    | Some fields =>
        match ObjectId tid with
        | inl e => (print_then_return [tid; exc_str e] false, w)
        | inr oid =>
            let w1 := log (EvUpdate oid fields) w in
            let (n, docs) := update_first oid fields (tasks m) in
            let m1 := {| tasks := docs; fault := fault m;
                         fault_after_write := fault_after_write m;
                         oid_counter := oid_counter m |} in
            match fault m with
            | Some e =>
                (print_then_return [tid; exc_str e] false,
                 after_fault m m1 w1)
            | None => (inr (0 <? n), set_mongo m1 w1)
            end
        end
    end.
Proof.
  intros Hdb. unfold Printing.update_task, mbind, self_db. rewrite Hdb.
  cbn [connected db].
  destruct (update_fields d sd st) as [[|f fs]|]; try reflexivity.
  - unfold try_except, mbind, lift, update_one, driver_call, mret, py_print,
      print_then_return.
    destruct (ObjectId tid) as [e|oid].
    + destruct (forallb encodable [tid; exc_str e]); reflexivity.
    + rewrite Hdb. cbn [connected].
      destruct (update_first oid (f :: fs) (tasks m)).
      destruct (fault m) as [e|]; [|reflexivity].
      destruct (forallb encodable [tid; exc_str e]); reflexivity.
  - unfold lift, py_print, print_then_return, mret.
    destruct (forallb encodable [tid; format_opt st]); reflexivity.
Qed.

Lemma printing_delete_task_connected `{Diagnostics} (w : world) (m : mongo)
  (tid : str) :
  db_manager w = connected m ->
  Printing.delete_task tid w
  = match ObjectId tid with
    | inl e => (print_then_return [tid; exc_str e] false, w)
    | inr oid =>
        let w1 := log (EvDelete oid) w in
        let (n, docs) := delete_first oid (tasks m) in
        let m1 := {| tasks := docs; fault := fault m;
                     fault_after_write := fault_after_write m;
                     oid_counter := oid_counter m |} in
        match fault m with
        | Some e =>
            (print_then_return [tid; exc_str e] false, after_fault m m1 w1)
        | None => (inr (0 <? n), set_mongo m1 w1)
        end
    end.
Proof.
  intros Hdb. unfold Printing.delete_task, mbind, self_db. rewrite Hdb.
  cbn [connected db].
  unfold try_except, mbind, lift, delete_one, driver_call, mret, py_print,
    print_then_return.
  destruct (ObjectId tid) as [e|oid].
  - destruct (forallb encodable [tid; exc_str e]); reflexivity.
  - rewrite Hdb. cbn [connected].
    destruct (delete_first oid (tasks m)).
    destruct (fault m) as [e|]; [|reflexivity].
    destruct (forallb encodable [tid; exc_str e]); reflexivity.
Qed.

Lemma printing_get_all_tasks_connected `{Runtime} `{Diagnostics}
  (w : world) (m : mongo) :
  db_manager w = connected m ->
  Printing.get_all_tasks w
  = match fault m with
    | Some e =>
        (print_then_return [exc_str e] [], after_fault m m (log EvFind w))
    | None =>
        (match Printing.task_views (List.map doc_dict (tasks m)) with
         | inr views => inr views
         | inl e => print_then_return [exc_str e] []
         end, log EvFind w)
    end.
Proof.
  intros Hdb.
  unfold Printing.get_all_tasks, mbind, self_db, try_except, find_all,
    driver_call, lift, mret, py_print, print_then_return.
  rewrite Hdb. cbn [connected db]. rewrite Hdb. cbn [connected].
  destruct (fault m) as [e|] eqn:Hf.
  - destruct (forallb encodable [exc_str e]); reflexivity.
  - assert (Hw : set_mongo m (log EvFind w) = log EvFind w).
    { unfold set_mongo, log. cbn. rewrite Hdb. reflexivity. }
    rewrite Hw.
    destruct (Printing.task_views (List.map doc_dict (tasks m))) as [e|vs];
      [|reflexivity].
    destruct (forallb encodable [exc_str e]); reflexivity.
Qed.

Lemma print_then_return_cases {A : Type} `{Diagnostics} (texts : list str)
  (a : A) :
  print_then_return texts a = inr a
  \/ print_then_return texts a = inl UnicodeEncodeError.
Proof.
  unfold print_then_return. destruct (forallb encodable texts); auto.
Qed.

Lemma returns_or_print_raises_print {A : Type} `{Diagnostics}
  (texts : list str) (a : A) (w : world) :
  returns_or_print_raises (print_then_return texts a, w).
Proof.
  unfold returns_or_print_raises. cbn [fst].
  destruct (print_then_return_cases texts a) as [-> | ->];
    [exact I | reflexivity].
Qed.

(** Without a handle on its database, each operation returns before any
    print that interpolates. *)
Lemma printing_store_disconnected `{Runtime} `{Diagnostics} (w : world) :
  db_manager w = disconnected ->
  (forall d sd st, Printing.add_task d sd st w = (inr None, w))
  /\ Printing.get_all_tasks w = (inr [], w)
  /\ (forall tid d sd st, Printing.update_task tid d sd st w = (inr false, w))
  /\ (forall tid, Printing.delete_task tid w = (inr false, w)).
Proof.
  intros Hdb.
  unfold Printing.add_task, Printing.get_all_tasks, Printing.update_task,
    Printing.delete_task, mbind, self_db.
  rewrite Hdb. repeat split; reflexivity.
Qed.

Lemma printing_store_outcomes `{Runtime} `{Diagnostics}
  (w : world) (self : MongoDBManager) :
  db_manager w = Some self ->
  (forall d sd st, returns_or_print_raises (Printing.add_task d sd st w))
  /\ returns_or_print_raises (Printing.get_all_tasks w)
  /\ (forall tid d sd st,
         returns_or_print_raises (Printing.update_task tid d sd st w))
  /\ (forall tid, returns_or_print_raises (Printing.delete_task tid w)).
Proof.
  intros Hdb. destruct (connected_cases w self Hdb) as [Hd | [m Hm]].
  - destruct (printing_store_disconnected w Hd) as [A [G [U D]]].
    split; [intros; rewrite A; exact I|].
    split; [rewrite G; exact I|].
    split; intros; [rewrite U | rewrite D]; exact I.
  - split; [|split; [|split]].
    + intros d sd st. rewrite (printing_add_task_connected w m d sd st Hm).
      cbn zeta. destruct (fault m);
        [apply returns_or_print_raises_print | exact I].
    + rewrite (printing_get_all_tasks_connected w m Hm).
      destruct (fault m); [apply returns_or_print_raises_print|].
      destruct (Printing.task_views (List.map doc_dict (tasks m)));
        [apply returns_or_print_raises_print | exact I].
    + intros tid d sd st.
      rewrite (printing_update_task_connected w m tid d sd st Hm).
      destruct (update_fields d sd st) as [[|f fs]|];
        [exact I | | apply returns_or_print_raises_print].
      destruct (ObjectId tid); [apply returns_or_print_raises_print|].
      cbn zeta. destruct (update_first l (f :: fs) (tasks m)).
      destruct (fault m); [apply returns_or_print_raises_print | exact I].
    + intros tid. rewrite (printing_delete_task_connected w m tid Hm).
      destruct (ObjectId tid); [apply returns_or_print_raises_print|].
      cbn zeta. destruct (delete_first l (tasks m)).
      destruct (fault m); [apply returns_or_print_raises_print | exact I].
Qed.

(** X1.  With a handle, whatever standard output encodes, the only
    exception a store operation lets escape is the [UnicodeEncodeError] of
    one of its own prints (lines 54, 87, 108, 121, 134): every other
    exception is caught.  On a stream that encodes every character each
    operation returns a value. *)
Theorem store_raises_only_from_prints `{Runtime} `{Diagnostics}
  (w : world) (self : MongoDBManager) :
  db_manager w = Some self ->
  ((forall d sd st, returns_or_print_raises (Printing.add_task d sd st w))
   /\ returns_or_print_raises (Printing.get_all_tasks w)
   /\ (forall tid d sd st,
          returns_or_print_raises (Printing.update_task tid d sd st w))
   /\ (forall tid, returns_or_print_raises (Printing.delete_task tid w)))
  /\ ((forall c, stdout_encodes c = true) ->
      (forall d sd st, exists r w', Printing.add_task d sd st w = (inr r, w'))
      /\ (exists r w', Printing.get_all_tasks w = (inr r, w'))
      /\ (forall tid d sd st, exists r w',
             Printing.update_task tid d sd st w = (inr r, w'))
      /\ (forall tid, exists r w', Printing.delete_task tid w = (inr r, w'))).
Proof.
  intros Hdb. split; [exact (printing_store_outcomes w self Hdb)|].
  intros lenient. destruct (store_returns w self Hdb) as [A [G [U D]]].
  split; [intros d sd st; rewrite (add_task_on_lenient_stdout lenient);
          apply A|].
  split; [rewrite (get_all_tasks_on_lenient_stdout lenient); exact G|].
  split; [intros tid d sd st;
          rewrite (update_task_on_lenient_stdout lenient); apply U|].
  intros tid. rewrite (delete_task_on_lenient_stdout lenient). apply D.
Qed.

Lemma store_raises_only_from_prints_witness :
  returns_or_print_raises
    (@Printing.delete_task utf8_stdout lone_surrogate
       (demo_world (connected one_task_mongo)))
  /\ exists r w',
      @Printing.delete_task lenient_stdout lone_surrogate
        (demo_world (connected one_task_mongo)) = (inr r, w').
Proof.
  split.
  - apply (proj1 (@store_raises_only_from_prints demo_runtime utf8_stdout
                    (demo_world (connected one_task_mongo)) _ eq_refl)).
  - apply (proj2 (@store_raises_only_from_prints demo_runtime lenient_stdout
                    (demo_world (connected one_task_mongo)) _ eq_refl)).
    reflexivity.
Defined.

(** X2.  When the driver raises, each operation prints the exception and
    returns its failure value ([None], the empty list, [False], [False]);
    the print is the one thing that can still raise. *)
Theorem driver_fault_gives_failure `{Runtime} `{Diagnostics}
  (w : world) (m : mongo) (e : exn) :
  db_manager w = connected m -> fault m = Some e ->
  (forall d sd st,
      fst (Printing.add_task d sd st w) = print_then_return [exc_str e] None)
  /\ fst (Printing.get_all_tasks w) = print_then_return [exc_str e] []
  /\ (forall tid oid d sd st f fs,
         ObjectId tid = inr oid -> update_fields d sd st = Some (f :: fs) ->
         fst (Printing.update_task tid d sd st w)
         = print_then_return [tid; exc_str e] false)
  /\ (forall tid oid,
         ObjectId tid = inr oid ->
         fst (Printing.delete_task tid w)
         = print_then_return [tid; exc_str e] false).
Proof.
  intros Hdb Hf. split; [|split; [|split]].
  - intros d sd st. rewrite (printing_add_task_connected w m d sd st Hdb), Hf.
    reflexivity.
  - rewrite (printing_get_all_tasks_connected w m Hdb), Hf. reflexivity.
  - intros tid oid d sd st f fs Ho Hu.
    rewrite (printing_update_task_connected w m tid d sd st Hdb), Hu, Ho.
    cbn zeta. destruct (update_first oid (f :: fs) (tasks m)).
    rewrite Hf. reflexivity.
  - intros tid oid Ho.
    rewrite (printing_delete_task_connected w m tid Hdb), Ho.
    cbn zeta. destruct (delete_first oid (tasks m)).
    rewrite Hf. reflexivity.
Qed.

Lemma driver_fault_gives_failure_witness :
  fst (@Printing.get_all_tasks demo_runtime utf8_stdout
         (demo_world (connected down_mongo)))
  = inr [].
Proof.
  exact (proj1 (proj2 (@driver_fault_gives_failure demo_runtime utf8_stdout
                         (demo_world (connected down_mongo)) down_mongo
                         PyMongoError eq_refl eq_refl))).
Defined.

(** X3.  On a connection, an identifier that is not the text of an
    ObjectId (its length is not 24, or it does not read as hexadecimal)
    sends nothing to the server: the world is as it was.  [delete_task],
    and [update_task] with a field to write, print the identifier and the
    exception, and return [False] when the stream encodes both; otherwise
    the print raises, under no [try]. *)
Theorem malformed_id_is_refused `{Diagnostics}
  (w : world) (m : mongo) (task_id : str) :
  db_manager w = connected m ->
  List.length task_id <> 24 \/ fromhex task_id = None ->
  (forall d sd st f fs,
      update_fields d sd st = Some (f :: fs) ->
      Printing.update_task task_id d sd st w
      = (if encodable task_id && encodable (exc_str InvalidId)
         then inr false else inl UnicodeEncodeError, w))
  /\ Printing.delete_task task_id w
     = (if encodable task_id && encodable (exc_str InvalidId)
        then inr false else inl UnicodeEncodeError, w).
Proof.
  intros Hdb Hid.
  assert (Ho : ObjectId task_id = inl InvalidId).
  { destruct Hid as [Hl | Hx]; [apply (ObjectId_length _ Hl)|].
    unfold ObjectId. rewrite Hx.
    destruct (Nat.eqb (List.length task_id) 24); reflexivity. }
  assert (P : forall b : bool,
             print_then_return [task_id; exc_str InvalidId] b
             = if encodable task_id && encodable (exc_str InvalidId)
               then inr b else inl UnicodeEncodeError).
  { intros b. unfold print_then_return. cbn [forallb].
    rewrite andb_true_r. reflexivity. }
  split.
  - intros d sd st f fs Hu.
    rewrite (printing_update_task_connected w m task_id d sd st Hdb), Hu, Ho.
    rewrite P. reflexivity.
  - rewrite (printing_delete_task_connected w m task_id Hdb), Ho, P.
    reflexivity.
Qed.

Lemma malformed_id_is_refused_witness :
  @Printing.delete_task utf8_stdout (py "60c7b41b1d7d8f9c7b4c3e2z")
    (demo_world (connected one_task_mongo))
  = (inr false, demo_world (connected one_task_mongo))
  /\ @Printing.delete_task utf8_stdout lone_surrogate
       (demo_world (connected one_task_mongo))
     = (inl UnicodeEncodeError, demo_world (connected one_task_mongo)).
Proof.
  assert (H1 : fromhex (py "60c7b41b1d7d8f9c7b4c3e2z") = None)
    by (vm_compute; reflexivity).
  assert (H2 : List.length lone_surrogate <> 24) by discriminate.
  pose proof (proj2 (@malformed_id_is_refused utf8_stdout
                    (demo_world (connected one_task_mongo)) one_task_mongo
                    (py "60c7b41b1d7d8f9c7b4c3e2z") eq_refl
                    (or_intror H1))) as D1.
  pose proof (proj2 (@malformed_id_is_refused utf8_stdout
                    (demo_world (connected one_task_mongo)) one_task_mongo
                    lone_surrogate eq_refl (or_introl H2))) as D2.
  split; [rewrite D1 | rewrite D2]; vm_compute; reflexivity.
Defined.

(** C2.  The warning of db.py line 108 interpolates the identifier and the
    status as they came, before [return False] and under no [try].  Here
    the status holds a lone surrogate and standard output is in UTF-8: the
    call raises [UnicodeEncodeError] where it is meant to return [False].
    Nothing is written. *)
Theorem update_task_warning_print_escapes :
  @Printing.update_task utf8_stdout (hexlify (bytes_of 12 7))
    (Some (py "comprar leche")) None (Some lone_surrogate)
    (demo_world (connected one_task_mongo))
  = (inl UnicodeEncodeError, demo_world (connected one_task_mongo)).
Proof. vm_compute. reflexivity. Qed.

(** X26.  On a connection, [update_task] with a status (a non-empty text)
    outside the four valid values writes nothing and sends nothing,
    whatever description and start date come with it: the world is as it
    was.  It prints the identifier and the status, and returns [False]
    when the stream encodes both; otherwise the print raises. *)
Theorem update_task_invalid_status `{Diagnostics}
  (w : world) (m : mongo) (task_id : str)
  (description start_date : option str) (st : str) :
  db_manager w = connected m ->
  st <> [] ->
  ~ In st valid_statuses ->
  Printing.update_task task_id description start_date (Some st) w
  = (if encodable task_id && encodable st
     then inr false else inl UnicodeEncodeError, w).
Proof.
  intros Hdb Hne Hin.
  rewrite (printing_update_task_connected w m task_id _ _ _ Hdb).
  unfold update_fields. destruct st as [|c st]; [contradiction|].
  rewrite (in_strs_false _ _ Hin).
  unfold print_then_return. cbn [forallb format_opt].
  rewrite andb_true_r. reflexivity.
Qed.

Lemma update_task_invalid_status_witness :
  @Printing.update_task utf8_stdout (hexlify (bytes_of 12 7))
    (Some (py "comprar leche")) None (Some (py "done"))
    (demo_world (connected one_task_mongo))
  = (inr false, demo_world (connected one_task_mongo)).
Proof.
  assert (H1 : py "done" <> []) by discriminate.
  assert (H2 : ~ In (py "done") valid_statuses)
    by (vm_compute; intuition discriminate).
  rewrite (@update_task_invalid_status utf8_stdout
             (demo_world (connected one_task_mongo)) one_task_mongo
             (hexlify (bytes_of 12 7)) (Some (py "comprar leche")) None
             (py "done") eq_refl H1 H2).
  vm_compute. reflexivity.
Defined.

(** ** The dispatcher with its prints *)

Lemma printing_add_task_refines `{Diagnostics} (d : str) (sd st : option str)
  (w : world) :
  Printing.add_task d sd st w = add_task d sd st w
  \/ exists w', Printing.add_task d sd st w = (inl UnicodeEncodeError, w').
Proof.
  unfold Printing.add_task, add_task, mbind.
  destruct (self_db w) as [[e|[m|]] w1]; try (left; reflexivity).
  destruct (datetime_now w1) as [[e|now] w2]; [left; reflexivity|].
  unfold try_except, mbind, lift.
  match goal with
  | |- context [insert_one ?td w2] => destruct (insert_one td w2) as [[e|i] w3]
  end; [|left; reflexivity].
  destruct (py_print_cases [exc_str e]) as [-> | ->];
    [left; reflexivity | right; eexists; reflexivity].
Qed.

Lemma printing_update_task_refines `{Diagnostics} (tid : str)
  (d sd st : option str) (w : world) :
  Printing.update_task tid d sd st w = update_task tid d sd st w
  \/ exists w',
      Printing.update_task tid d sd st w = (inl UnicodeEncodeError, w').
Proof.
  unfold Printing.update_task, update_task, mbind.
  destruct (self_db w) as [[e|[m|]] w1]; try (left; reflexivity).
  destruct (update_fields d sd st) as [[|f fs]|]; try (left; reflexivity).
  - unfold try_except, mbind, lift.
    destruct (ObjectId tid) as [e|oid].
    + destruct (py_print_cases [tid; exc_str e]) as [-> | ->];
        [left; reflexivity | right; eexists; reflexivity].
    + destruct (update_one oid (f :: fs) w1) as [[e|n] w2];
        [|left; reflexivity].
      destruct (py_print_cases [tid; exc_str e]) as [-> | ->];
        [left; reflexivity | right; eexists; reflexivity].
  - unfold lift.
    destruct (py_print_cases [tid; format_opt st]) as [-> | ->];
      [left; reflexivity | right; eexists; reflexivity].
Qed.

Lemma printing_delete_task_refines `{Diagnostics} (tid : str) (w : world) :
  Printing.delete_task tid w = delete_task tid w
  \/ exists w', Printing.delete_task tid w = (inl UnicodeEncodeError, w').
Proof.
  unfold Printing.delete_task, delete_task, mbind.
  destruct (self_db w) as [[e|[m|]] w1]; try (left; reflexivity).
  unfold try_except, mbind, lift.
  destruct (ObjectId tid) as [e|oid].
  - destruct (py_print_cases [tid; exc_str e]) as [-> | ->];
      [left; reflexivity | right; eexists; reflexivity].
  - destruct (delete_one oid w1) as [[e|n] w2]; [|left; reflexivity].
    destruct (py_print_cases [tid; exc_str e]) as [-> | ->];
      [left; reflexivity | right; eexists; reflexivity].
Qed.

Lemma printing_execute_action_refines `{Diagnostics} (cmd : LLMCommand)
  (w : world) :
  Printing.execute_action cmd w = execute_action cmd w
  \/ exists w', Printing.execute_action cmd w = (inl UnicodeEncodeError, w').
Proof.
  unfold Printing.execute_action, execute_action.
  destruct (db_manager w) as [self|]; [|left; reflexivity].
  destruct (str_eqb (action cmd) (py "create")).
  { destruct (negb (truthy_opt (description cmd))); [left; reflexivity|].
    unfold mbind.
    destruct (printing_add_task_refines (text_of (description cmd))
                (start_date cmd) (status cmd) w) as [-> | [w' ->]];
      [left; reflexivity | right; eexists; reflexivity]. }
  destruct (str_eqb (action cmd) (py "read")); [left; reflexivity|].
  destruct (str_eqb (action cmd) (py "update")).
  { destruct (negb (truthy_opt (task_id cmd))); [left; reflexivity|].
    destruct (negb (truthy_opt (description cmd)
                    || truthy_opt (start_date cmd)
                    || truthy_opt (status cmd))); [left; reflexivity|].
    unfold mbind.
    destruct (printing_update_task_refines (text_of (task_id cmd))
                (description cmd) (start_date cmd) (status cmd) w)
      as [-> | [w' ->]];
      [left; reflexivity | right; eexists; reflexivity]. }
  destruct (str_eqb (action cmd) (py "delete")).
  { destruct (negb (truthy_opt (task_id cmd))); [left; reflexivity|].
    unfold mbind.
    destruct (printing_delete_task_refines (text_of (task_id cmd)) w)
      as [-> | [w' ->]];
      [left; reflexivity | right; eexists; reflexivity]. }
  left. reflexivity.
Qed.

Lemma printing_execute_action_outcomes `{Diagnostics} (cmd : LLMCommand)
  (w : world) :
  returns_or_print_raises (Printing.execute_action cmd w)
  /\ forall r w',
      Printing.execute_action cmd w = (inr r, w') -> result_shaped r.
Proof.
  destruct (execute_action_shaped cmd w) as [r0 [w0 [E0 S0]]].
  destruct (printing_execute_action_refines cmd w) as [-> | [w' ->]].
  - rewrite E0. split; [exact I|]. intros r w' [= <- _]. exact S0.
  - split; [reflexivity|]. intros r w1. discriminate.
Qed.

(** X12.  The dispatcher calls the store under no [try]: what escapes it
    is what escapes the store, the [UnicodeEncodeError] of a print, and
    nothing else.  A result it returns carries a status among [success],
    [error] and [info] and a text message; on a stream that encodes every
    character it always returns one. *)
Theorem execute_action_result `{Diagnostics} (cmd : LLMCommand) (w : world) :
  returns_or_print_raises (Printing.execute_action cmd w)
  /\ (forall r w',
         Printing.execute_action cmd w = (inr r, w') -> result_shaped r)
  /\ ((forall c, stdout_encodes c = true) ->
      exists r w',
        Printing.execute_action cmd w = (inr r, w') /\ result_shaped r).
Proof.
  destruct (printing_execute_action_outcomes cmd w) as [R S].
  split; [exact R|]. split; [exact S|].
  intros lenient. rewrite (execute_action_on_lenient_stdout lenient).
  apply execute_action_shaped.
Qed.

Lemma execute_action_result_witness :
  exists r w',
    @Printing.execute_action lenient_stdout
      {| action := py "delete"; task_id := Some lone_surrogate;
         description := None; start_date := None; status := None;
         message := None |}
      (demo_world (connected one_task_mongo)) = (inr r, w')
    /\ result_shaped r.
Proof.
  apply (proj2 (proj2 (@execute_action_result lenient_stdout _ _))).
  reflexivity.
Defined.

(** The same command on a stream in UTF-8: the print of db.py line 134
    raises, and the dispatcher lets it through. *)
Example execute_action_print_escapes :
  fst (@Printing.execute_action utf8_stdout
         {| action := py "delete"; task_id := Some lone_surrogate;
            description := None; start_date := None; status := None;
            message := None |}
         (demo_world (connected one_task_mongo)))
  = inl UnicodeEncodeError.
Proof. vm_compute. reflexivity. Qed.

(** ** The interpreter with its prints *)

(** C1.  Two prints of [call_llm_for_command] stand where no handler
    covers them.  Line 212 prints the formatted prompt before the [try]:
    on a stream in Latin-1 a user text with a character outside it makes
    the call raise [UnicodeEncodeError] before anything is sent.  Line 291
    prints the body of an HTTP error inside the handler: the same
    character there makes the handler raise.  In both runs the exception
    escapes to the caller. *)
Theorem call_llm_for_command_print_escapes :
  @Printing.call_llm_for_command demo_runtime latin1_stdout (VStr emoji)
    (demo_world (connected empty_mongo))
  = (inl UnicodeEncodeError, demo_world (connected empty_mongo))
  /\ fst (@Printing.call_llm_for_command demo_runtime latin1_stdout
            (VStr (py "mostrar todas mis tareas")) (failing_world emoji))
     = inl UnicodeEncodeError.
Proof. split; vm_compute; reflexivity. Qed.

(** C6.  The model's text is [{"action": "\ud800"}]: the action is a text
    outside the five.  On a stream in UTF-8 the print of line 280, which
    interpolates the value as it is, raises inside the [try] before the
    message that names the value is built; the outer handler answers with
    the generic message, which names nothing. *)
Theorem invalid_action_print_hides_value :
  @Printing.interpret_clean surrogate_runtime utf8_stdout
    (VStr surrogate_action_json) [(py "action", VStr lone_surrogate)]
  = inl UnicodeEncodeError
  /\ fst (@Printing.call_llm_for_command surrogate_runtime utf8_stdout
            (VStr (py "archiva todo"))
            (answering_world (envelope (VStr surrogate_action_json)) None))
     = inr (unknown_command msg_unexpected).
Proof. split; vm_compute; reflexivity. Qed.

(** X27.  The action check of lines 274-281, with its prints.  When the
    clean object has no [action], or a null one, the text part and the
    object are printed and the command is [unknown] with the request to be
    more specific; when its [action] is a value other than the five
    permitted texts, that value and the object are printed and the command
    is [unknown] with a message that quotes the value.  A print the stream
    cannot encode raises instead. *)
Theorem interpret_clean_action_check `{Runtime} `{Diagnostics}
  (raw_text : value) (clean : dict) :
  ((dict_get clean (py "action") = None
    \/ dict_get clean (py "action") = Some VNone) ->
   Printing.interpret_clean raw_text clean
   = print_then_return [format_value raw_text; format_value (VDict clean)]
       (unknown_command msg_no_action))
  /\ (forall v,
         dict_get clean (py "action") = Some v -> v <> VNone ->
         (forall a, In a valid_actions -> v <> VStr a) ->
         Printing.interpret_clean raw_text clean
         = print_then_return [format_value v; format_value (VDict clean)]
             (unknown_command (msg_bad_action v))).
Proof.
  unfold Printing.interpret_clean, py_print, print_then_return.
  split.
  - intros [-> | ->];
      destruct (forallb encodable
                  [format_value raw_text; format_value (VDict clean)]);
      reflexivity.
  - intros v -> Hv Hout. rewrite (not_valid_action v Hout). cbn [negb].
    destruct (forallb encodable [format_value v; format_value (VDict clean)]);
      destruct v; try contradiction; reflexivity.
Qed.

Lemma interpret_clean_action_check_witness :
  @Printing.interpret_clean demo_runtime utf8_stdout (VStr (py "{}"))
    [(py "action", VStr (py "archive"))]
  = inr (unknown_command (@msg_bad_action demo_runtime (VStr (py "archive")))).
Proof.
  assert (H1 : VStr (py "archive") <> VNone) by discriminate.
  assert (H2 : forall a, In a valid_actions -> VStr (py "archive") <> VStr a).
  { intros a Ha E. injection E as <-. revert Ha. vm_compute.
    intuition discriminate. }
  rewrite (proj2 (@interpret_clean_action_check demo_runtime utf8_stdout
                    (VStr (py "{}")) [(py "action", VStr (py "archive"))])
             (VStr (py "archive")) eq_refl H1 H2).
  vm_compute. reflexivity.
Defined.

Lemma handled_unknown `{Runtime} (e : exn) :
  well_formed (handled e)
  /\ exists m, handled e = unknown_command m /\ failure_message m /\ m <> [].
Proof.
  destruct (handled_failure e) as [m [-> Fm]].
  split; [apply unknown_well_formed|]. exists m.
  split; [reflexivity|]. split; [exact Fm|].
  apply (failure_message_nonempty m Fm).
Qed.

Lemma printing_call_llm_for_command_eq `{Runtime} `{Diagnostics}
  (user_prompt : value) (w : world) :
  exists formatted_prompt,
    format_prompt user_prompt = inr formatted_prompt
    /\ Printing.call_llm_for_command user_prompt w
       = if encodable (py_repr formatted_prompt)
         then
           match api_key_of w with
           | [] => (inr (unknown_command msg_no_api_key), w)
           | _ :: _ =>
               (match
                   match llm w (api_key_of w) formatted_prompt with
                   | PostRaises e => inl e
                   | Responds r => Printing.interpret_response r
                   end
                 with
                 | inl e => Printing.llm_handlers e
                 | inr c => inr c
                 end,
                log (EvLlmPost (api_key_of w) formatted_prompt) w)
           end
         else (inl UnicodeEncodeError, w).
Proof.
  destruct (format_prompt_returns user_prompt) as [fp Hfp].
  exists fp. split; [exact Hfp|].
  unfold Printing.call_llm_for_command, mbind, lift, getenv_api_key, py_print.
  rewrite Hfp. cbn [forallb]. rewrite andb_true_r.
  destruct (encodable (py_repr fp)); [|reflexivity].
  destruct (api_key_of w) as [|k0 key] eqn:K; [reflexivity|].
  cbn [truthy negb]. unfold try_except, client_post, mbind, lift.
  destruct (llm w (k0 :: key) fp) as [e|r]; [reflexivity|].
  destruct (Printing.interpret_response r); reflexivity.
Qed.

Lemma printing_call_llm_for_command_outcomes `{Runtime} `{Diagnostics}
  (user_prompt : value) (w : world) :
  exists formatted_prompt,
    format_prompt user_prompt = inr formatted_prompt
    /\ returns_or_print_raises (Printing.call_llm_for_command user_prompt w)
    /\ forall cmd w',
        Printing.call_llm_for_command user_prompt w = (inr cmd, w') ->
        well_formed cmd
        /\ ((exists m, cmd = unknown_command m /\ failure_message m /\ m <> [])
            \/ exists r,
                llm w (api_key_of w) formatted_prompt = Responds r
                /\ interpreted r cmd).
Proof.
  destruct (printing_call_llm_for_command_eq user_prompt w)
    as [fp [Hfp ->]].
  exists fp. split; [exact Hfp|].
  destruct (encodable (py_repr fp));
    [|split; [reflexivity | intros cmd w'; discriminate]].
  destruct (api_key_of w) as [|k0 key].
  { split; [exact I|]. intros cmd w' [= <- _].
    split; [apply unknown_well_formed|]. left. exists msg_no_api_key.
    split; [reflexivity|]. split; [left; reflexivity|].
    vm_compute; discriminate. }
  assert (Hh : forall e : exn,
             returns_or_print_raises
               (Printing.llm_handlers e,
                log (EvLlmPost (k0 :: key) fp) w)
             /\ forall cmd w',
                 (Printing.llm_handlers e, log (EvLlmPost (k0 :: key) fp) w)
                 = (inr cmd, w') ->
                 well_formed cmd
                 /\ ((exists m, cmd = unknown_command m
                                /\ failure_message m /\ m <> [])
                     \/ exists r,
                         llm w (k0 :: key) fp = Responds r
                         /\ interpreted r cmd)).
  { intros e. destruct (llm_handlers_or_print_raises e) as [-> | ->].
    - split; [exact I|]. intros cmd w' [= <- _].
      destruct (handled_unknown e) as [Wf Fm]. split; [exact Wf|].
      left. exact Fm.
    - split; [reflexivity|]. intros cmd w'. discriminate. }
  destruct (llm w (k0 :: key) fp) as [e|r] eqn:L; [apply Hh|].
  destruct (interpret_response_or_print_raises r) as [-> | ->];
    [|apply Hh].
  destruct (interpret_response r) as [e|c] eqn:Ir; [apply Hh|].
  split; [exact I|]. intros cmd w' [= <- _].
  split; [apply (interpret_response_well_formed r c Ir)|].
  destruct (interpret_response_cases r c Ir) as [[m [-> Fm]]|Hi].
  - left. exists m. split; [reflexivity|]. split; [exact Fm|].
    apply (failure_message_nonempty m Fm).
  - right. exists r. split; [reflexivity | exact Hi].
Qed.

(** X25.  Whatever the user's text, the environment, the endpoint and the
    encoding of standard output, the only exception
    [call_llm_for_command] lets escape is the [UnicodeEncodeError] of a
    print: every other failure is answered.  A command it returns is well
    formed, and is [unknown] with a non-empty message of the failure paths
    unless the endpoint responded and each stage succeeded.  On a stream
    that encodes every character the call always returns a command. *)
Theorem call_llm_for_command_outcomes `{Runtime} `{Diagnostics}
  (user_prompt : value) (w : world) :
  (exists formatted_prompt,
      format_prompt user_prompt = inr formatted_prompt
      /\ returns_or_print_raises
           (Printing.call_llm_for_command user_prompt w)
      /\ forall cmd w',
          Printing.call_llm_for_command user_prompt w = (inr cmd, w') ->
          well_formed cmd
          /\ ((exists m, cmd = unknown_command m
                         /\ failure_message m /\ m <> [])
              \/ exists r,
                  llm w (api_key_of w) formatted_prompt = Responds r
                  /\ interpreted r cmd))
  /\ ((forall c, stdout_encodes c = true) ->
      exists cmd w',
        Printing.call_llm_for_command user_prompt w = (inr cmd, w')).
Proof.
  split; [apply printing_call_llm_for_command_outcomes|].
  intros lenient. rewrite (call_llm_for_command_on_lenient_stdout lenient).
  destruct (call_llm_for_command_well_formed user_prompt w)
    as [cmd [w' [E _]]].
  exists cmd, w'. exact E.
Qed.

Lemma call_llm_for_command_outcomes_witness :
  exists cmd w',
    @Printing.call_llm_for_command demo_runtime lenient_stdout (VStr emoji)
      (demo_world (connected empty_mongo)) = (inr cmd, w').
Proof.
  apply (proj2 (@call_llm_for_command_outcomes demo_runtime lenient_stdout
                  (VStr emoji) (demo_world (connected empty_mongo)))).
  reflexivity.
Defined.

(** X29.  On a stream that encodes every character,
    [call_llm_for_command] returns a command on every input and for every
    behaviour of the environment and of the endpoint.  The command is well
    formed.  Without an API key it is [unknown] with the configuration
    message, and nothing is sent; when the POST raises, or the status is
    not 2xx, or the body is not JSON, it is [unknown] with the message of
    the handler (the status for an HTTP status error, the generic one
    otherwise); and in every case but the one where each stage succeeds,
    it is [unknown] with a non-empty message of the failure paths. *)
Theorem call_llm_for_command_total `{Runtime} `{Diagnostics}
  (user_prompt : value) (w : world) :
  (forall c, stdout_encodes c = true) ->
  exists cmd formatted_prompt,
    let key := api_key_of w in
    Printing.call_llm_for_command user_prompt w
    = (inr cmd,
       if truthy (VStr key) then log (EvLlmPost key formatted_prompt) w
       else w)
    /\ well_formed cmd
    /\ ((exists m, cmd = unknown_command m /\ failure_message m /\ m <> [])
        \/ (exists r, key <> []
                      /\ llm w key formatted_prompt = Responds r
                      /\ interpreted r cmd))
    /\ (key = [] -> cmd = unknown_command msg_no_api_key)
    /\ (key <> [] -> forall e,
          llm w key formatted_prompt = PostRaises e -> cmd = handled e)
    /\ (key <> [] -> forall r,
          llm w key formatted_prompt = Responds r ->
          ~ (200 <= resp_status_code r < 300)%Z ->
          cmd = unknown_command (msg_http_status (resp_status_code r)))
    /\ (key <> [] -> forall r e,
          llm w key formatted_prompt = Responds r ->
          (200 <= resp_status_code r < 300)%Z ->
          resp_json r = inl e -> cmd = handled e).
Proof.
  intros lenient. rewrite (call_llm_for_command_on_lenient_stdout lenient).
  exact (call_llm_for_command_quiet_total user_prompt w).
Qed.

Lemma call_llm_for_command_total_witness :
  exists cmd w',
    @Printing.call_llm_for_command demo_runtime lenient_stdout
      (VStr (py "mostrar todas mis tareas")) (failing_world emoji)
    = (inr cmd, w')
    /\ cmd = unknown_command (msg_http_status 500).
Proof.
  destruct (@call_llm_for_command_total demo_runtime lenient_stdout
              (VStr (py "mostrar todas mis tareas")) (failing_world emoji)
              (fun _ => eq_refl))
    as [cmd [fp [E [_ [_ [_ [_ [S _]]]]]]]].
  exists cmd. eexists. split; [exact E|].
  destruct (llm (failing_world emoji) (api_key_of (failing_world emoji)) fp)
    as [e|r] eqn:L; [discriminate L|].
  assert (K : api_key_of (failing_world emoji) <> []) by discriminate.
  assert (R : r = {| resp_status_code := 500; resp_text := emoji;
                     resp_json := inl JSONDecodeError |})
    by (injection L as <-; reflexivity).
  subst r. apply (S K _ eq_refl). cbn [resp_status_code]. lia.
Defined.

(** X13.  On a stream that encodes every character: when the key is set,
    the endpoint answers 2xx with a body whose first candidate's first
    part is a text, the JSON body of that text parses to an object, and
    its sanitized form validates, the interpreter returns exactly the
    validated command, after one POST. *)
Theorem interpreted_command_is_returned `{Runtime} `{Diagnostics}
  (user_prompt : value) (w : world) (formatted_prompt : str)
  (r : http_response) (cmd : LLMCommand) :
  (forall c, stdout_encodes c = true) ->
  format_prompt user_prompt = inr formatted_prompt ->
  api_key_of w <> [] ->
  llm w (api_key_of w) formatted_prompt = Responds r ->
  interpreted r cmd ->
  Printing.call_llm_for_command user_prompt w
  = (inr cmd, log (EvLlmPost (api_key_of w) formatted_prompt) w).
Proof.
  intros lenient Hfp Hk Hl Hi.
  rewrite (call_llm_for_command_on_lenient_stdout lenient).
  exact (interpreted_command_is_returned_quiet user_prompt w formatted_prompt
           r cmd Hfp Hk Hl Hi).
Qed.

Lemma interpreted_command_is_returned_witness :
  exists formatted_prompt,
    @Printing.call_llm_for_command demo_runtime lenient_stdout
      (VStr (py "mostrar todas mis tareas"))
      (answering_world (envelope (VStr demo_json_read)) None)
    = (inr read_command,
       log (EvLlmPost (py "key") formatted_prompt)
         (answering_world (envelope (VStr demo_json_read)) None)).
Proof.
  destruct (@format_prompt_returns demo_runtime
              (VStr (py "mostrar todas mis tareas"))) as [fp Hfp].
  exists fp.
  apply (@interpreted_command_is_returned demo_runtime lenient_stdout _
           (answering_world (envelope (VStr demo_json_read)) None) fp
           {| resp_status_code := 200; resp_text := [];
              resp_json := inr (envelope (VStr demo_json_read)) |}).
  - reflexivity.
  - exact Hfp.
  - discriminate.
  - reflexivity.
  - split; [cbn; lia|].
    exists (envelope (VStr demo_json_read)), demo_json_read,
      [(py "action", VStr (py "read"))].
    repeat split; vm_compute; reflexivity.
Defined.

(** X19.  On a stream that encodes every character: what the text part
    can do wrong, and what the caller then gets.  A text part that is not
    text, a JSON body that parses to something other than an object, and
    an object with a valid action whose fields the command model rejects
    all raise, and the outer handler answers with the generic message; a
    JSON body that does not parse is answered with the format message. *)
Theorem interpret_text_failures `{Runtime} `{Diagnostics} (raw_text : value) :
  (forall c, stdout_encodes c = true) ->
  let answer :=
    match Printing.interpret_text raw_text with
    | inl e => Printing.llm_handlers e
    | inr c => inr c
    end in
  ((forall raw, raw_text <> VStr raw) ->
   answer = inr (unknown_command msg_unexpected))
  /\ (forall raw,
         raw_text = VStr raw ->
         json_loads (extract_json_body raw) = inl JSONDecodeError ->
         answer = inr (unknown_command msg_bad_json))
  /\ (forall raw v,
         raw_text = VStr raw ->
         json_loads (extract_json_body raw) = inr v ->
         (forall items, v <> VDict items) ->
         answer = inr (unknown_command msg_unexpected))
  /\ (forall raw items a,
         raw_text = VStr raw ->
         json_loads (extract_json_body raw) = inr (VDict items) ->
         dict_get (sanitize_keys items) (py "action") = Some (VStr a) ->
         In a valid_actions ->
         LLMCommand_init (sanitize_keys items) = inl ValidationError ->
         answer = inr (unknown_command msg_unexpected)).
Proof.
  intros lenient. cbn zeta.
  rewrite (interpret_text_on_lenient_stdout lenient).
  assert (A : match interpret_text raw_text with
              | inl e => Printing.llm_handlers e
              | inr c => inr c
              end
              = inr match interpret_text raw_text with
                    | inl e => handled e
                    | inr c => c
                    end).
  { destruct (interpret_text raw_text);
      [apply (llm_handlers_on_lenient_stdout lenient) | reflexivity]. }
  rewrite A.
  destruct (interpret_text_failures_quiet raw_text) as [F1 [F2 [F3 F4]]].
  split; [intros Hn; f_equal; exact (F1 Hn)|].
  split; [intros raw Hr Hl; f_equal; exact (F2 raw Hr Hl)|].
  split; [intros raw v Hr Hl Hv; f_equal; exact (F3 raw v Hr Hl Hv)|].
  intros raw items a Hr Hl Ha Hin Hi. f_equal.
  exact (F4 raw items a Hr Hl Ha Hin Hi).
Qed.

Lemma interpret_text_failures_witness :
  match @Printing.interpret_text demo_runtime lenient_stdout
          (VStr (py "no es JSON")) with
  | inl e => @Printing.llm_handlers lenient_stdout e
  | inr c => inr c
  end = inr (unknown_command msg_bad_json).
Proof.
  assert (H1 : @json_loads demo_runtime (extract_json_body (py "no es JSON"))
               = inl JSONDecodeError) by (vm_compute; reflexivity).
  apply (proj1 (proj2 (@interpret_text_failures demo_runtime lenient_stdout
                         (VStr (py "no es JSON")) (fun _ => eq_refl)))
           (py "no es JSON") eq_refl H1).
Defined.

(** The same text part on a stream in UTF-8, with a lone surrogate in it:
    the print of line 250 raises before the parse, and the answer is the
    generic message, not the format message. *)
Example interpret_text_print_precedes_parse :
  @json_loads demo_runtime (extract_json_body lone_surrogate)
  = inl JSONDecodeError
  /\ match @Printing.interpret_text demo_runtime utf8_stdout
             (VStr lone_surrogate) with
     | inl e => @Printing.llm_handlers utf8_stdout e
     | inr c => inr c
     end = inr (unknown_command msg_unexpected).
Proof. split; vm_compute; reflexivity. Qed.

(** ** The endpoints with their prints *)

(** X20.  A body that is a JSON object with a truthy [command]: the only
    exception the endpoint lets escape is the [UnicodeEncodeError] of a
    print of the interpreter or of the store.  When it answers, the
    interpretation is a well-formed command and the result carries a
    status among [success], [error] and [info] and a text message; on a
    stream that encodes every character it always answers. *)
Theorem process_command_answers `{Runtime} `{Diagnostics}
  (request : Request) (data : dict) (v : value) (w : world) :
  request_json request = inr (VDict data) ->
  dict_get data (py "command") = Some v -> truthy v = true ->
  returns_or_print_raises (Printing.process_command request w)
  /\ (forall resp w',
         Printing.process_command request w = (inr resp, w') ->
         well_formed (llm_interpretation resp)
         /\ result_shaped (action_result resp))
  /\ ((forall c, stdout_encodes c = true) ->
      exists resp w',
        Printing.process_command request w = (inr resp, w')).
Proof.
  intros Hj Hc Hv. split; [|split].
  - unfold Printing.process_command, mbind, lift. rewrite Hj.
    unfold py_get, ret. rewrite Hc, Hv. cbn [negb].
    destruct (printing_call_llm_for_command_outcomes v w)
      as [fp [_ [R _]]].
    destruct (Printing.call_llm_for_command v w) as [[e|cmd] w1];
      [exact R|].
    destruct (printing_execute_action_outcomes cmd w1) as [R2 _].
    destruct (Printing.execute_action cmd w1) as [[e|r] w2];
      [exact R2 | exact I].
  - intros resp w'.
    unfold Printing.process_command, mbind, lift. rewrite Hj.
    unfold py_get, ret. rewrite Hc, Hv. cbn [negb].
    destruct (printing_call_llm_for_command_outcomes v w)
      as [fp [_ [_ W]]].
    destruct (Printing.call_llm_for_command v w) as [[e|cmd] w1];
      [discriminate|].
    destruct (printing_execute_action_outcomes cmd w1) as [_ S].
    destruct (Printing.execute_action cmd w1) as [[e|r] w2];
      [discriminate|].
    intros [= <- _]. cbn [llm_interpretation action_result].
    split; [exact (proj1 (W cmd w1 eq_refl)) | exact (S r w2 eq_refl)].
  - intros lenient. rewrite (process_command_on_lenient_stdout lenient).
    destruct (process_command_answers_quiet request data v w Hj Hc Hv)
      as [resp [w' [E _]]].
    exists resp, w'. exact E.
Qed.

Lemma process_command_answers_witness :
  exists resp w',
    @Printing.process_command demo_runtime lenient_stdout
      {| request_json :=
           inr (VDict [(py "command", VStr (py "mostrar todas mis tareas"))]) |}
      (answering_world (envelope (VStr demo_json_read))
         (connected one_task_mongo))
    = (inr resp, w').
Proof.
  apply (proj2 (proj2 (@process_command_answers demo_runtime lenient_stdout
           {| request_json :=
                inr (VDict [(py "command",
                             VStr (py "mostrar todas mis tareas"))]) |}
           [(py "command", VStr (py "mostrar todas mis tareas"))]
           (VStr (py "mostrar todas mis tareas"))
           (answering_world (envelope (VStr demo_json_read))
              (connected one_task_mongo))
           eq_refl eq_refl eq_refl))).
  reflexivity.
Defined.

(** X22.  On a stream that encodes every character, the handle is looked
    at after the interpretation: without a handle, a command with a key
    set still costs one request to the LLM, and is then answered with the
    database error, whatever was interpreted. *)
Theorem interpretation_precedes_db_check `{Runtime} `{Diagnostics}
  (request : Request) (data : dict) (v : value) (w : world) :
  (forall c, stdout_encodes c = true) ->
  request_json request = inr (VDict data) ->
  dict_get data (py "command") = Some v -> truthy v = true ->
  db_manager w = None -> api_key_of w <> [] ->
  exists resp prompt,
    Printing.process_command request w
    = (inr resp, log (EvLlmPost (api_key_of w) prompt) w)
    /\ action_result resp = result (py "error") msg_no_db.
Proof.
  intros lenient Hj Hc Hv Hdb Hk.
  rewrite (process_command_on_lenient_stdout lenient).
  exact (interpretation_precedes_db_check_quiet request data v w
           Hj Hc Hv Hdb Hk).
Qed.

Lemma interpretation_precedes_db_check_witness :
  exists resp prompt,
    @Printing.process_command demo_runtime lenient_stdout
      {| request_json := inr (VDict [(py "command", VStr (py "hola"))]) |}
      (demo_world None)
    = (inr resp, log (EvLlmPost (py "key") prompt) (demo_world None))
    /\ action_result resp = result (py "error") msg_no_db.
Proof.
  apply (@interpretation_precedes_db_check demo_runtime lenient_stdout _
           [(py "command", VStr (py "hola"))] (VStr (py "hola")));
    first [reflexivity | discriminate].
Defined.

(** X30.  With the prints as they stand: every command the interpreter
    returns has an action among the five values, and on such a command the
    dispatcher never returns the result of its last branch (status
    [error], message [msg_unrecognized]), whatever the world and the
    stream. *)
Theorem returned_command_is_dispatched `{Runtime} `{Diagnostics}
  (user_prompt : value) (w w' : world) (cmd : LLMCommand) :
  Printing.call_llm_for_command user_prompt w = (inr cmd, w') ->
  In (action cmd) valid_actions
  /\ forall w2,
      fst (Printing.execute_action cmd w2)
      <> inr (result (py "error") msg_unrecognized).
Proof.
  intros Hcall.
  destruct (printing_call_llm_for_command_outcomes user_prompt w)
    as [fp [_ [_ W]]].
  destruct (W cmd w' Hcall) as [[Ha _] _].
  split; [exact Ha|]. intros w2.
  destruct (printing_execute_action_refines cmd w2) as [-> | [w3 ->]].
  - exact (execute_action_dispatched cmd w2 Ha).
  - cbn [fst]. discriminate.
Qed.

Lemma returned_command_is_dispatched_witness :
  In (action read_command) valid_actions
  /\ forall w2,
      fst (@Printing.execute_action utf8_stdout read_command w2)
      <> inr (result (py "error") msg_unrecognized).
Proof.
  destruct (@format_prompt_returns demo_runtime
              (VStr (py "mostrar todas mis tareas"))) as [fp Hfp].
  assert (Hcall :
            @Printing.call_llm_for_command demo_runtime utf8_stdout
              (VStr (py "mostrar todas mis tareas"))
              (answering_world (envelope (VStr demo_json_read)) None)
            = (inr read_command,
               log (EvLlmPost (py "key") fp)
                 (answering_world (envelope (VStr demo_json_read)) None))).
  { revert Hfp. vm_compute. intros [= <-]. reflexivity. }
  exact (@returned_command_is_dispatched demo_runtime utf8_stdout _ _ _ _
           Hcall).
Defined.

(** ** Listing with its prints *)

(** A status that cannot be hashed makes the loop raise. *)
Lemma task_view_unhashable `{Runtime} (doc : document) :
  ~ hashable_status doc -> task_view (doc_dict doc) = inl TypeError.
Proof.
  destruct doc as [id fields]. unfold hashable_status, task_view, doc_dict.
  cbn [fst snd]. intros Hh.
  cbn [py_getitem dict_get]. rewrite str_eqb_refl. cbn [bind ret].
  cbn [dict_set]. rewrite str_eqb_refl. cbn [dict_get]. key_false.
  destruct (dict_get fields (py "status")) as [[]|];
    try (exfalso; apply Hh; exact I); reflexivity.
Qed.

Lemma hashable_status_dec (doc : document) :
  hashable_status doc \/ ~ hashable_status doc.
Proof.
  unfold hashable_status.
  destruct (dict_get (snd doc) (py "status")) as [[]|]; auto.
Qed.

(** What the loop returns for a document is what the listing owes it. *)
Lemma task_view_listed `{Runtime} (doc : document) (view : dict) :
  task_view (doc_dict doc) = inr view -> lists_as doc view.
Proof.
  intros Hv. destruct (hashable_status_dec doc) as [Hh | Hn].
  - destruct (task_view_lists doc Hh) as [v [Ev Lv]]. congruence.
  - rewrite (task_view_unhashable doc Hn) in Hv. discriminate.
Qed.

Lemma task_views_listed `{Runtime} (docs : list document)
  (views : list dict) :
  task_views (List.map doc_dict docs) = inr views ->
  Forall2 lists_as docs views.
Proof.
  revert views. induction docs as [|doc docs IH]; intros views.
  - intros [= <-]. constructor.
  - cbn [List.map task_views]. intros Hv.
    apply bind_inr in Hv. destruct Hv as [v [Ev Hv]].
    apply bind_inr in Hv. destruct Hv as [vs [Evs Hv]].
    injection Hv as <-. constructor; [apply task_view_listed; exact Ev|].
    apply IH. exact Evs.
Qed.





Lemma task_views_app_raises `{Runtime} `{Diagnostics}
  (pre post : list dict) (doc : dict) (e0 : exn) :
  Printing.task_view doc = inl e0 ->
  exists e,
    Printing.task_views (pre ++ doc :: post) = inl e
    /\ ((exists vs, Printing.task_views pre = inr vs) -> e = e0).
Proof.
  intros Hd. induction pre as [|d pre [e [IH1 IH2]]].
  - exists e0. cbn [app Printing.task_views]. rewrite Hd.
    split; reflexivity.
  - cbn [app Printing.task_views].
    destruct (Printing.task_view d) as [e'|v].
    + exists e'. split; [reflexivity|]. intros [vs Hvs]. discriminate.
    + cbn [bind]. rewrite IH1. exists e. split; [reflexivity|].
      intros [vs Hvs]. apply IH2.
      destruct (Printing.task_views pre) as [e'|vs']; [discriminate|].
      exists vs'. reflexivity.
Qed.

Lemma printing_task_view_unhashable `{Runtime} `{Diagnostics}
  (doc : document) :
  ~ hashable_status doc ->
  Printing.task_view (doc_dict doc) = inl TypeError.
Proof.
  destruct doc as [id fields].
  unfold hashable_status, Printing.task_view, doc_dict.
  cbn [fst snd]. intros Hn.
  cbn [py_getitem dict_get]. rewrite str_eqb_refl. cbn [bind ret].
  cbn [dict_set]. rewrite str_eqb_refl. cbn [dict_get]. key_false.
  destruct (dict_get fields (py "status")) as [[]|];
    try (exfalso; apply Hn; exact I); reflexivity.
Qed.

(** X28.  With a connection and a driver that answers, one stored
    document whose status is a list or a sub-document empties the whole
    listing: the membership test on the set of statuses raises inside the
    [try], the documents before and after it are dropped with it, and the
    handler prints the exception and returns the empty list.  The
    exception is that [TypeError], unless a document before it has raised
    already. *)
Theorem unhashable_status_empties_listing `{Runtime} `{Diagnostics}
  (w : world) (m : mongo) (pre post : list document) (doc : document) :
  db_manager w = connected m -> fault m = None ->
  tasks m = pre ++ doc :: post ->
  ~ hashable_status doc ->
  exists e,
    Printing.get_all_tasks w
    = (print_then_return [exc_str e] [], log EvFind w)
    /\ ((exists vs, Printing.task_views (List.map doc_dict pre) = inr vs) ->
        e = TypeError).
Proof.
  intros Hdb Hf Ht Hn.
  destruct (task_views_app_raises (List.map doc_dict pre)
              (List.map doc_dict post) (doc_dict doc) TypeError
              (printing_task_view_unhashable doc Hn)) as [e [E1 E2]].
  exists e. split; [|exact E2].
  rewrite (printing_get_all_tasks_connected w m Hdb), Hf, Ht.
  rewrite List.map_app. cbn [List.map]. rewrite E1. reflexivity.
Qed.

Lemma unhashable_status_empties_listing_witness :
  fst (@Printing.get_all_tasks demo_runtime utf8_stdout
         (demo_world (connected list_status_mongo)))
  = inr [].
Proof.
  assert (Hn : ~ hashable_status list_status_task)
    by (vm_compute; auto).
  destruct (@unhashable_status_empties_listing demo_runtime utf8_stdout
              (demo_world (connected list_status_mongo)) list_status_mongo
              [demo_task] [] list_status_task eq_refl eq_refl eq_refl Hn)
    as [e [E T]].
  rewrite E. cbn [fst]. rewrite T; [vm_compute; reflexivity|].
  eexists. vm_compute. reflexivity.
Defined.

(** A stored status outside the four with a character the stream lacks
    has the same effect, through the warning of line 77. *)
Example get_all_tasks_warning_empties_listing :
  fst (@Printing.get_all_tasks demo_runtime latin1_stdout
         (demo_world (connected emoji_status_mongo)))
  = inr []
  /\ exists view,
      fst (@Printing.get_all_tasks demo_runtime utf8_stdout
             (demo_world (connected emoji_status_mongo)))
      = inr [view].
Proof. split; [|eexists]; vm_compute; reflexivity. Qed.

Lemma printing_task_views_snoc `{Runtime} `{Diagnostics}
  (docs : list dict) (doc : dict) (views : list dict) (v : dict) :
  Printing.task_views docs = inr views ->
  Printing.task_view doc = inr v ->
  Printing.task_views (docs ++ [doc]) = inr (views ++ [v]).
Proof.
  revert views. induction docs as [|d0 docs IH]; intros views.
  - intros [= <-] Hd. cbn [app Printing.task_views]. rewrite Hd. reflexivity.
  - cbn [app Printing.task_views]. intros Hp Hd.
    destruct (Printing.task_view d0) as [e|v0]; [discriminate|].
    cbn [bind] in *.
    destruct (Printing.task_views docs) as [e|vs]; [discriminate|].
    injection Hp as <-. rewrite (IH vs eq_refl Hd). reflexivity.
Qed.

(** X8.  On a stream that encodes every character and a working
    connection, when the listing of the tasks already stored raises
    nothing, a task that has just been added is the last of the next
    listing: its identifier is the text [add_task] returned, its
    description the one given, its creation time the clock's cut to
    milliseconds, as ISO text, its start date there only when one was
    given as a non-empty text, and its status the one given when valid,
    [pending] when none was given.  The tasks before it are listed as
    before. *)
Theorem add_then_list `{Runtime} `{Diagnostics}
  (w : world) (m : mongo) (d : str) (sd st : option str)
  (views : list dict) :
  (forall c, stdout_encodes c = true) ->
  db_manager w = connected m -> fault m = None ->
  Printing.task_views (List.map doc_dict (tasks m)) = inr views ->
  exists id w1 v,
    Printing.add_task d sd st w = (inr (Some id), w1)
    /\ fst (Printing.get_all_tasks w1) = inr (views ++ [v])
    /\ Forall2 lists_as (tasks m) views
    /\ dict_get v (py "_id") = Some (VStr id)
    /\ dict_get v (py "description") = Some (VStr d)
    /\ dict_get v (py "status")
       = Some (VStr (listed_status (Some (opt_value st))))
    /\ dict_get v (py "created_at")
       = Some (VStr (isoformat (bson_datetime (clock w))))
    /\ dict_get v (py "start_date")
       = if truthy_opt sd then Some (opt_value sd) else None.
Proof.
  intros lenient Hdb Hf Hviews.
  destruct (new_task_data_lookup d sd st (clock w)) as [Ld [Lc [Ls Lsd]]].
  set (td := new_task_data d sd st (clock w)) in *.
  set (oid := bytes_of 12 (oid_counter m)).
  set (doc := (VObjectId oid, bson_doc td) : document).
  set (m1 := {| tasks := tasks m ++ [doc]; fault := None;
                fault_after_write := fault_after_write m;
                oid_counter := (oid_counter m + 1)%N |}).
  set (w1 := set_mongo m1 (log (EvInsert td) (log EvClock w))).
  assert (Hadd : Printing.add_task d sd st w = (inr (Some (hexlify oid)), w1)).
  { rewrite (printing_add_task_connected w m d sd st Hdb). cbn zeta.
    rewrite Hf. reflexivity. }
  assert (Hh : hashable_status doc).
  { unfold hashable_status, doc. cbn [snd].
    rewrite bson_doc_get, Ls. cbn [option_map]. rewrite bson_opt_value.
    destruct st; exact I. }
  destruct (task_view_lists doc Hh) as [v [Ev Lv]].
  assert (Ev' : Printing.task_view (doc_dict doc) = inr v).
  { rewrite (task_view_on_lenient_stdout lenient). exact Ev. }
  assert (Hget : fst (Printing.get_all_tasks w1) = inr (views ++ [v])).
  { rewrite (printing_get_all_tasks_connected w1 m1 eq_refl).
    cbn [fault m1 tasks fst].
    rewrite List.map_app. cbn [List.map].
    rewrite (printing_task_views_snoc _ _ views v Hviews Ev').
    reflexivity. }
  exists (hexlify oid), w1, v.
  split; [exact Hadd|]. split; [exact Hget|].
  split; [apply task_views_listed;
          exact (or_print_raises_inr _ _ _
                   (task_views_or_print_raises _) Hviews)|].
  destruct Lv as [Vid [Vst [Vca Vo]]]. unfold doc in *. cbn [fst snd] in *.
  rewrite bson_doc_get in Vst, Vca.
  split; [exact Vid|].
  split; [rewrite Vo by (vm_compute; discriminate);
          rewrite bson_doc_get, Ld; reflexivity|].
  split; [rewrite Vst, Ls; cbn [option_map]; rewrite bson_opt_value;
          reflexivity|].
  split; [rewrite Vca, Lc; reflexivity|].
  rewrite Vo by (vm_compute; discriminate). rewrite bson_doc_get, Lsd.
  destruct (truthy_opt sd); [|reflexivity].
  cbn [option_map]. rewrite bson_opt_value. reflexivity.
Qed.

Lemma add_then_list_witness :
  exists views id w1 v,
    @Printing.task_views demo_runtime lenient_stdout
      (List.map doc_dict (tasks one_task_mongo)) = inr views
    /\ @Printing.add_task lenient_stdout (py "regar")
         (Some (py "2025-07-03")) None
         (demo_world (connected one_task_mongo)) = (inr (Some id), w1)
    /\ fst (@Printing.get_all_tasks demo_runtime lenient_stdout w1)
       = inr (views ++ [v])
    /\ dict_get v (py "_id") = Some (VStr id)
    /\ dict_get v (py "status") = Some (VStr (py "pending")).
Proof.
  destruct (@Printing.task_views demo_runtime lenient_stdout
              (List.map doc_dict (tasks one_task_mongo)))
    as [e|views] eqn:Hv; [vm_compute in Hv; discriminate Hv|].
  destruct (@add_then_list demo_runtime lenient_stdout
              (demo_world (connected one_task_mongo)) one_task_mongo
              (py "regar") (Some (py "2025-07-03")) None views
              (fun _ => eq_refl) eq_refl eq_refl Hv)
    as [id [w1 [v [A [G [_ [Hid [_ [S _]]]]]]]]].
  exists views, id, w1, v. auto.
Defined.
